(** * GestureDrop: gesture interpretation, debouncing and the shared clipboard slot

    A shallow embedding of the two programs of the repository,
    [gesture_drop.py] and [gesture_file_server.py], and the properties of
    their per-frame gesture state machines, of their HTTP handlers and of the
    shared clipboard dictionary.

    Conventions of the embedding.
    - Python floats are IEEE 754 binary64 numbers: Rocq's primitive [float].
      [a > b] is written [b <? a]; both are false on NaN.
    - The module-level globals of a program are the fields of its [state]
      record; a function that assigns globals takes and returns the record.
    - What the outside world answers during one frame (the clock readings of
      [time.time()], whether a [pyautogui] or [pyperclip] call raises, what
      the OS clipboard holds) is an input: the [env] record of the frame.
    - What a frame does to the outside world is its trace, a list of [effect]
      in program order. [Label g] is recorded where the code assigns the
      label of gesture [g] ([gesture_label] / [gesture_text]), which it does
      exactly where the action of [g] has been carried out: a gesture fires
      in a frame when [Label g] is in the frame's trace.
    - An exception that no [try] catches ends the frame loop: [Raise].
    - A frame is an iteration of the camera loop whose image was read; the
      overlay at the end of an iteration only draws. [print], string
      formatting and base64 encoding are taken to return normally; the calls
      into [pyautogui], [pyperclip] and the file system may raise. *)

From Stdlib Require Import ZArith List String Bool Arith Lia.
From Stdlib Require Import Floats.
Import ListNotations.

Set Warnings "-inexact-float".

Local Open Scope string_scope.
Local Open Scope float_scope.
Local Open Scope list_scope.

(** ** Shared vocabulary of the two programs *)

(** The seven gestures; the absence of an event is the empty trace. *)
Inductive gesture : Set :=
| ScrollUp | ScrollDown | NextTab | PrevTab | Copy | Paste | Screenshot.

Definition gesture_eqb (a b : gesture) : bool :=
  match a, b with
  | ScrollUp, ScrollUp | ScrollDown, ScrollDown | NextTab, NextTab
  | PrevTab, PrevTab | Copy, Copy | Paste, Paste | Screenshot, Screenshot => true
  | _, _ => false
  end.

(** Scroll and tab gestures are the motion family. *)
Definition is_motion (g : gesture) : bool :=
  match g with
  | ScrollUp | ScrollDown | NextTab | PrevTab => true
  | _ => false
  end.

(** What one frame does to the outside world. *)
Inductive effect : Set :=
| Scroll (amount : Z)            (* pyautogui.scroll(amount) *)
| Hotkey (keys : list string)    (* pyautogui.hotkey(...) *)
| ClipCopy (text : string)       (* pyperclip.copy(text) returned *)
| SaveScreenshot                 (* pyautogui.screenshot(fname), file read back *)
| Print (line : string)          (* print(...), by its fixed prefix *)
| Label (g : gesture).           (* the label of g assigned: g fired *)

(** The gestures fired by a trace, in order. *)
Fixpoint fired (tr : list effect) : list gesture :=
  match tr with
  | [] => []
  | Label g :: tr' => g :: fired tr'
  | _ :: tr' => fired tr'
  end.

Definition count_gesture (g : gesture) (l : list gesture) : nat :=
  List.length (filter (gesture_eqb g) l).

(** One MediaPipe landmark; [lm.landmark] is a list of them. *)
Record landmark : Set := { lx : float; ly : float; lz : float }.

Definition hand_landmarks : Set := list landmark.

(** [lm.landmark[i]] for a non-negative [i]: [None] is the IndexError. *)
Definition landmark_at (lm : hand_landmarks) (i : nat) : option landmark :=
  nth_error lm i.

(** The dictionary [shared_clipboard]: its two keys are set when the module
    is loaded and never deleted, so it is a record of the two values. *)
Record clipboard : Set := { c_type : string; c_value : string }.

(** Python's truth value of a string: [if text:]. *)
Definition truthy (s : string) : bool :=
  match s with EmptyString => false | _ => true end.

(** [sum(fingers)] *)
Definition sum (l : list nat) : nat := fold_left Nat.add l 0%nat.

(** [np.linalg.norm(np.array([ax, ay]) - np.array([bx, by]))] *)
Definition norm2 (ax ay bx b_y : float) : float :=
  let dx := ax - bx in
  let dy := ay - b_y in
  sqrt (dx * dx + dy * dy).

(** What the outside world answers during one frame. *)
Record env : Set := {
  time_motion : float;           (* time.time() inside the motion detector *)
  time_frame : float;            (* time.time() in the frame body *)
  motion_call_ok : bool;         (* the scroll / tab call returns (no try around it) *)
  copy_hotkey_ok : bool;         (* hotkey('ctrl','c') and the sleep return *)
  clip_paste : option string;    (* pyperclip.paste(): None when it raises *)
  clip_copy_ok : bool;           (* pyperclip.copy(...) returns *)
  paste_hotkey_ok : bool;        (* hotkey('ctrl','v') returns *)
  screenshot_b64 : option string (* base64 of the saved screenshot; None when
                                    the capture or the file read raises *)
}.

(** One iteration of the camera loop with a decoded image:
    [results.multi_hand_landmarks] (its first hand, when there is one) and
    the answers of the world. *)
Record frame : Set := { hand : option hand_landmarks; world : env }.

(** An HTTP request as the Flask views see it. [req_json_text] is
    [data.get("text")] of a JSON object body ([None] when the key is absent or
    null); [req_image] is the uploaded file of the form field 'image', given
    by the base64 text of its bytes. *)
Record request : Set := {
  req_method : string;
  req_path : string;
  req_is_json : bool;
  req_json_text : option string;
  req_image : option string
}.

(** A JSON response: status code and the fields of the object. *)
Record response : Set := { status : nat; body : list (string * string) }.

(** Flask adds HEAD to a route declared with [methods=['GET']]. *)
Definition is_get (m : string) : bool := String.eqb m "GET" || String.eqb m "HEAD".

(** ** gesture_drop.py *)
Module gesture_drop.

(** CONFIG *)
Definition SMOOTHING_WINDOW : nat := 6.
Definition EMA_ALPHA : float := 0.25.
Definition SCROLL_THRESHOLD : float := 0.06.
Definition TAB_THRESHOLD : float := 0.09.
Definition COOLDOWN : float := 0.9.
Definition GESTURE_HOLD_TIME : float := 0.45.
Definition SCREENSHOT_COOLDOWN : float := 2.5.

(** SHARED STATE: the module's globals. *)
Record state : Set := {
  shared_clipboard : clipboard;
  last_action_time : float;
  pos_history : list (float * float);
  ema_dx : float;
  ema_dy : float;
  fist_start : option float;
  open_start : option float;
  copy_confirmed : bool;
  last_screenshot_time : float;
  gesture_label : string;
  label_set_time : float
}.

Definition init : state :=
  {| shared_clipboard := {| c_type := "empty"; c_value := "" |};
     last_action_time := 0.0;
     pos_history := [];
     ema_dx := 0.0;
     ema_dy := 0.0;
     fist_start := None;
     open_start := None;
     copy_confirmed := false;
     last_screenshot_time := 0.0;
     gesture_label := "None";
     label_set_time := 0.0 |}.

(** Assignments to one global. *)
Definition set_shared_clipboard (s : state) (c : clipboard) : state :=
  {| shared_clipboard := c; last_action_time := last_action_time s;
     pos_history := pos_history s; ema_dx := ema_dx s; ema_dy := ema_dy s;
     fist_start := fist_start s; open_start := open_start s;
     copy_confirmed := copy_confirmed s;
     last_screenshot_time := last_screenshot_time s;
     gesture_label := gesture_label s; label_set_time := label_set_time s |}.

Definition set_last_action_time (s : state) (t : float) : state :=
  {| shared_clipboard := shared_clipboard s; last_action_time := t;
     pos_history := pos_history s; ema_dx := ema_dx s; ema_dy := ema_dy s;
     fist_start := fist_start s; open_start := open_start s;
     copy_confirmed := copy_confirmed s;
     last_screenshot_time := last_screenshot_time s;
     gesture_label := gesture_label s; label_set_time := label_set_time s |}.

Definition set_pos_history (s : state) (h : list (float * float)) : state :=
  {| shared_clipboard := shared_clipboard s; last_action_time := last_action_time s;
     pos_history := h; ema_dx := ema_dx s; ema_dy := ema_dy s;
     fist_start := fist_start s; open_start := open_start s;
     copy_confirmed := copy_confirmed s;
     last_screenshot_time := last_screenshot_time s;
     gesture_label := gesture_label s; label_set_time := label_set_time s |}.

Definition set_ema_dx (s : state) (v : float) : state :=
  {| shared_clipboard := shared_clipboard s; last_action_time := last_action_time s;
     pos_history := pos_history s; ema_dx := v; ema_dy := ema_dy s;
     fist_start := fist_start s; open_start := open_start s;
     copy_confirmed := copy_confirmed s;
     last_screenshot_time := last_screenshot_time s;
     gesture_label := gesture_label s; label_set_time := label_set_time s |}.

Definition set_ema_dy (s : state) (v : float) : state :=
  {| shared_clipboard := shared_clipboard s; last_action_time := last_action_time s;
     pos_history := pos_history s; ema_dx := ema_dx s; ema_dy := v;
     fist_start := fist_start s; open_start := open_start s;
     copy_confirmed := copy_confirmed s;
     last_screenshot_time := last_screenshot_time s;
     gesture_label := gesture_label s; label_set_time := label_set_time s |}.

Definition set_fist_start (s : state) (v : option float) : state :=
  {| shared_clipboard := shared_clipboard s; last_action_time := last_action_time s;
     pos_history := pos_history s; ema_dx := ema_dx s; ema_dy := ema_dy s;
     fist_start := v; open_start := open_start s;
     copy_confirmed := copy_confirmed s;
     last_screenshot_time := last_screenshot_time s;
     gesture_label := gesture_label s; label_set_time := label_set_time s |}.

Definition set_open_start (s : state) (v : option float) : state :=
  {| shared_clipboard := shared_clipboard s; last_action_time := last_action_time s;
     pos_history := pos_history s; ema_dx := ema_dx s; ema_dy := ema_dy s;
     fist_start := fist_start s; open_start := v;
     copy_confirmed := copy_confirmed s;
     last_screenshot_time := last_screenshot_time s;
     gesture_label := gesture_label s; label_set_time := label_set_time s |}.

Definition set_copy_confirmed (s : state) (b : bool) : state :=
  {| shared_clipboard := shared_clipboard s; last_action_time := last_action_time s;
     pos_history := pos_history s; ema_dx := ema_dx s; ema_dy := ema_dy s;
     fist_start := fist_start s; open_start := open_start s;
     copy_confirmed := b;
     last_screenshot_time := last_screenshot_time s;
     gesture_label := gesture_label s; label_set_time := label_set_time s |}.

Definition set_last_screenshot_time (s : state) (t : float) : state :=
  {| shared_clipboard := shared_clipboard s; last_action_time := last_action_time s;
     pos_history := pos_history s; ema_dx := ema_dx s; ema_dy := ema_dy s;
     fist_start := fist_start s; open_start := open_start s;
     copy_confirmed := copy_confirmed s;
     last_screenshot_time := t;
     gesture_label := gesture_label s; label_set_time := label_set_time s |}.

(** [gesture_label = l; label_set_time = now], always assigned together. *)
Definition set_label (s : state) (l : string) (now : float) : state :=
  {| shared_clipboard := shared_clipboard s; last_action_time := last_action_time s;
     pos_history := pos_history s; ema_dx := ema_dx s; ema_dy := ema_dy s;
     fist_start := fist_start s; open_start := open_start s;
     copy_confirmed := copy_confirmed s;
     last_screenshot_time := last_screenshot_time s;
     gesture_label := l; label_set_time := now |}.

(** How a piece of the frame body ends: normally, with a value, the new
    globals and the trace, or with an uncaught exception. *)
Inductive result (A : Type) : Type :=
| Ok (a : A) (s : state) (tr : list effect)
| Raise (s : state) (tr : list effect).
Arguments Ok {A} a s tr.
Arguments Raise {A} s tr.

(** [api_get_clipboard]: the JSON object it returns, as (type, value). *)
Definition api_get_clipboard (s : state) : string * string :=
  (c_type (shared_clipboard s), c_value (shared_clipboard s)).

(** [api_ip]; [ip] is what [get_local_ip()] finds. *)
Definition api_ip (ip : string) : response :=
  {| status := 200; body := [("ip", ip)] |}.

(** The routes of [app]: only the two GET declarations, no upload. *)
Definition handle (ip : string) (r : request) (s : state) : state * response :=
  if String.eqb (req_path r) "/get_clipboard" then
    if is_get (req_method r)
    then (s, {| status := 200;
                body := [("type", fst (api_get_clipboard s));
                         ("value", snd (api_get_clipboard s))] |})
    else (s, {| status := 405; body := [] |})
  else if String.eqb (req_path r) "/ip" then
    if is_get (req_method r) then (s, api_ip ip)
    else (s, {| status := 405; body := [] |})
  else (s, {| status := 404; body := [] |}).

(** [safe_copy_to_shared] *)
Definition safe_copy_to_shared (s : state) (text : string) : state :=
  if negb (truthy text) then s
  else
    let s := set_shared_clipboard s
               {| c_type := "text"; c_value := c_value (shared_clipboard s) |} in
    set_shared_clipboard s
      {| c_type := c_type (shared_clipboard s); c_value := text |}.

(** [safe_set_local_clipboard]: the copy, or the warning when it raises. *)
Definition safe_set_local_clipboard (e : env) (text : string) : list effect :=
  if clip_copy_ok e then [ClipCopy text]
  else [Print "[WARN] pyperclip.copy failed:"].

Definition tips : list nat := [4; 8; 12; 16; 20]%nat.

(** [finger_states_from_landmarks]: each [try] yields 0 on any exception. *)
Definition finger_states_from_landmarks (lm : hand_landmarks) : list nat :=
  let fingers := [] in
  let fingers :=
    fingers ++
    [match landmark_at lm (nth 0 tips 0%nat), landmark_at lm (nth 0 tips 0%nat - 2) with
     | Some tip, Some joint => if lx tip <? lx joint then 1%nat else 0%nat
     | _, _ => 0%nat
     end] in
  fold_left
    (fun fingers i =>
       fingers ++
       [match landmark_at lm (nth i tips 0%nat), landmark_at lm (nth i tips 0%nat - 2) with
        | Some tip, Some joint => if ly tip <? ly joint then 1%nat else 0%nat
        | _, _ => 0%nat
        end])
    (seq 1 4) fingers.

(** [update_motion_and_detect]: returns the label of the gesture it fired. *)
Definition update_motion_and_detect (dx dy : float) (e : env) (s : state)
  : result (option string) :=
  let s := set_ema_dx s (EMA_ALPHA * dx + (1 - EMA_ALPHA) * ema_dx s) in
  let s := set_ema_dy s (EMA_ALPHA * dy + (1 - EMA_ALPHA) * ema_dy s) in
  let now := time_motion e in
  if now - last_action_time s <? COOLDOWN then Ok None s []
  else
    let abs_dx := abs (ema_dx s) in
    let abs_dy := abs (ema_dy s) in
    if (SCROLL_THRESHOLD <? abs_dy) && (abs_dx <? abs_dy) then
      if negb (motion_call_ok e) then Raise s []
      else
        let '(l, tr) :=
          if ema_dy s <? 0
          then ("Scroll Up", [Scroll 1200; Label ScrollUp])
          else ("Scroll Down", [Scroll (-1200); Label ScrollDown]) in
        let s := set_label s l now in
        let s := set_last_action_time s now in
        Ok (Some (gesture_label s)) s tr
    else if (TAB_THRESHOLD <? abs_dx) && (abs_dy <? abs_dx) then
      if negb (motion_call_ok e) then Raise s []
      else
        let '(l, tr) :=
          if 0 <? ema_dx s
          then ("Next Tab", [Hotkey ["ctrl"; "tab"]; Label NextTab])
          else ("Previous Tab", [Hotkey ["ctrl"; "shift"; "tab"]; Label PrevTab]) in
        let s := set_label s l now in
        let s := set_last_action_time s now in
        Ok (Some (gesture_label s)) s tr
    else Ok None s [].

(** The COPY section of the frame body: fist, all fingers closed. *)
Definition copy_gesture (total_f : nat) (now : float) (e : env) (s : state)
  : state * list effect :=
  if (total_f =? 0)%nat then
    match fist_start s with
    | None => (set_fist_start s (Some now), [])
    | Some started =>
        if (GESTURE_HOLD_TIME <? now - started) && negb (copy_confirmed s) then
          let '(s, tr) :=
            if copy_hotkey_ok e then
              let '(text, tr_read) :=
                match clip_paste e with
                | Some t => (t, [])
                | None => ("", [Print "[WARN] pyperclip.paste failed:"])
                end in
              let '(s, tr_sync) :=
                if truthy text
                then (safe_copy_to_shared s text, [Print "[INFO] Copied & synced"])
                else (s, [Print "[INFO] Copy gesture detected but clipboard empty or non-text"]) in
              let s := set_label s "Copy" now in
              let s := set_copy_confirmed s true in
              (s, [Hotkey ["ctrl"; "c"]] ++ tr_read ++ tr_sync ++ [Label Copy])
            else (s, [Print "[ERROR] Copy action failed:"]) in
          (set_fist_start s None, tr)
        else (s, [])
    end
  else (set_fist_start s None, []).

(** The PASTE section of the frame body: open palm, all fingers open. *)
Definition paste_gesture (total_f : nat) (now : float) (e : env) (s : state)
  : state * list effect :=
  if (total_f =? 5)%nat then
    match open_start s with
    | None => (set_open_start s (Some now), [])
    | Some started =>
        if (GESTURE_HOLD_TIME <? now - started) && copy_confirmed s then
          let tr_clip :=
            if String.eqb (c_type (shared_clipboard s)) "text"
               && truthy (c_value (shared_clipboard s))
            then safe_set_local_clipboard e (c_value (shared_clipboard s))
            else [] in
          let '(s, tr) :=
            if paste_hotkey_ok e then
              let s := set_label s "Paste" now in
              let s := set_copy_confirmed s false in
              (s, tr_clip ++ [Hotkey ["ctrl"; "v"]; Label Paste;
                              Print "[INFO] Performed paste of shared clipboard"])
            else (s, tr_clip ++ [Print "[ERROR] Paste failed:"]) in
          (set_open_start s None, tr)
        else (s, [])
    end
  else (set_open_start s None, []).

(** The Screenshot section of the frame body: thumb and index open, the
    others closed, and the two tips pinched. *)
Definition screenshot_gesture (fingers : list nat) (idx th : landmark)
    (now : float) (e : env) (s : state) : state * list effect :=
  if (nth 0 fingers 0 =? 1)%nat && (nth 1 fingers 0 =? 1)%nat
     && (sum (skipn 2 fingers) =? 0)%nat then
    let pinch_dist := norm2 (lx th) (ly th) (lx idx) (ly idx) in
    if (pinch_dist <? 0.05) && (SCREENSHOT_COOLDOWN <? now - last_screenshot_time s) then
      match screenshot_b64 e with
      | Some b64 =>
          let s := set_shared_clipboard s
                     {| c_type := "image"; c_value := c_value (shared_clipboard s) |} in
          let s := set_shared_clipboard s
                     {| c_type := c_type (shared_clipboard s); c_value := b64 |} in
          let s := set_label s "Screenshot" now in
          let s := set_last_screenshot_time s now in
          (s, [SaveScreenshot; Label Screenshot; Print "[INFO] Screenshot saved & synced:"])
      | None => (s, [Print "[ERROR] Screenshot action failed:"])
      end
    else (s, [])
  else (s, []).

(** The history update at the head of the frame body: append the index
    tip, drop the oldest point beyond the window. *)
Definition push_history (x y : float) (s : state) : state :=
  let s := set_pos_history s (pos_history s ++ [(x, y)]) in
  if (SMOOTHING_WINDOW <? List.length (pos_history s))%nat
  then set_pos_history s (tl (pos_history s)) else s.

(** One iteration of the [while True] loop of [main_loop] on a decoded
    image, up to the overlay (which only draws). *)
Definition main_loop_frame (f : frame) (s : state) : result unit :=
  match hand f with
  | Some lm =>
      match landmark_at lm 8, landmark_at lm 4 with
      | Some idx, Some th =>
          let x := lx idx in
          let y := ly idx in
          let s := push_history x y s in
          let '(dx, dy) :=
            if (2 <=? List.length (pos_history s))%nat
            then (fst (last (pos_history s) (0, 0)) - fst (hd (0, 0) (pos_history s)),
                  snd (last (pos_history s) (0, 0)) - snd (hd (0, 0) (pos_history s)))
            else (0, 0) in
          match update_motion_and_detect dx dy (world f) s with
          | Raise s tr => Raise s tr
          | Ok _ s tr_motion =>
              let fingers := finger_states_from_landmarks lm in
              let total_f := sum fingers in
              let now := time_frame (world f) in
              let '(s, tr_copy) := copy_gesture total_f now (world f) s in
              let '(s, tr_paste) := paste_gesture total_f now (world f) s in
              let '(s, tr_shot) := screenshot_gesture fingers idx th now (world f) s in
              Ok tt s (tr_motion ++ tr_copy ++ tr_paste ++ tr_shot)
          end
      | _, _ => Raise s []
      end
  | None =>
      let s := set_pos_history s [] in
      let s := set_fist_start s None in
      let s := set_open_start s None in
      Ok tt s []
  end.

Definition state_of {A} (r : result A) : state :=
  match r with Ok _ s _ => s | Raise s _ => s end.

Definition trace_of {A} (r : result A) : list effect :=
  match r with Ok _ _ tr => tr | Raise _ tr => tr end.

Definition completed {A} (r : result A) : bool :=
  match r with Ok _ _ _ => true | Raise _ _ => false end.

(** The frame loop over a sequence of frames, until one raises. *)
Fixpoint run (fs : list frame) (s : state) : result unit :=
  match fs with
  | [] => Ok tt s []
  | f :: fs' =>
      match main_loop_frame f s with
      | Raise s' tr => Raise s' tr
      | Ok _ s' tr =>
          match run fs' s' with
          | Ok _ s'' tr' => Ok tt s'' (tr ++ tr')
          | Raise s'' tr' => Raise s'' (tr ++ tr')
          end
      end
  end.

End gesture_drop.

(** ** gesture_file_server.py *)
Module gesture_file_server.

(** CONFIG *)
Definition SCROLL_THRESHOLD : float := 0.08.
Definition TAB_THRESHOLD : float := 0.10.
Definition COOLDOWN : float := 1.0.
Definition SMOOTHING_WINDOW : nat := 4.
Definition GESTURE_HOLD_TIME : float := 0.5.
Definition SCREENSHOT_COOLDOWN : float := 3.0.

(** The module's globals, and [label_display_time], local to [main]. *)
Record state : Set := {
  shared_clipboard : clipboard;
  last_action_time : float;
  x_history : list float;
  y_history : list float;
  gesture_text : string;
  fist_start_time : option float;
  open_start_time : option float;
  copy_done : bool;
  last_screenshot_time : float;
  label_display_time : float
}.

Definition init : state :=
  {| shared_clipboard := {| c_type := "empty"; c_value := "" |};
     last_action_time := 0;
     x_history := [];
     y_history := [];
     gesture_text := "None";
     fist_start_time := None;
     open_start_time := None;
     copy_done := false;
     last_screenshot_time := 0;
     label_display_time := 0 |}.

Definition set_shared_clipboard (s : state) (v : clipboard) : state :=
  {| shared_clipboard := v;
     last_action_time := last_action_time s;
     x_history := x_history s;
     y_history := y_history s;
     gesture_text := gesture_text s;
     fist_start_time := fist_start_time s;
     open_start_time := open_start_time s;
     copy_done := copy_done s;
     last_screenshot_time := last_screenshot_time s;
     label_display_time := label_display_time s |}.

Definition set_last_action_time (s : state) (v : float) : state :=
  {| shared_clipboard := shared_clipboard s;
     last_action_time := v;
     x_history := x_history s;
     y_history := y_history s;
     gesture_text := gesture_text s;
     fist_start_time := fist_start_time s;
     open_start_time := open_start_time s;
     copy_done := copy_done s;
     last_screenshot_time := last_screenshot_time s;
     label_display_time := label_display_time s |}.

Definition set_fist_start_time (s : state) (v : option float) : state :=
  {| shared_clipboard := shared_clipboard s;
     last_action_time := last_action_time s;
     x_history := x_history s;
     y_history := y_history s;
     gesture_text := gesture_text s;
     fist_start_time := v;
     open_start_time := open_start_time s;
     copy_done := copy_done s;
     last_screenshot_time := last_screenshot_time s;
     label_display_time := label_display_time s |}.

Definition set_open_start_time (s : state) (v : option float) : state :=
  {| shared_clipboard := shared_clipboard s;
     last_action_time := last_action_time s;
     x_history := x_history s;
     y_history := y_history s;
     gesture_text := gesture_text s;
     fist_start_time := fist_start_time s;
     open_start_time := v;
     copy_done := copy_done s;
     last_screenshot_time := last_screenshot_time s;
     label_display_time := label_display_time s |}.

Definition set_copy_done (s : state) (v : bool) : state :=
  {| shared_clipboard := shared_clipboard s;
     last_action_time := last_action_time s;
     x_history := x_history s;
     y_history := y_history s;
     gesture_text := gesture_text s;
     fist_start_time := fist_start_time s;
     open_start_time := open_start_time s;
     copy_done := v;
     last_screenshot_time := last_screenshot_time s;
     label_display_time := label_display_time s |}.

Definition set_last_screenshot_time (s : state) (v : float) : state :=
  {| shared_clipboard := shared_clipboard s;
     last_action_time := last_action_time s;
     x_history := x_history s;
     y_history := y_history s;
     gesture_text := gesture_text s;
     fist_start_time := fist_start_time s;
     open_start_time := open_start_time s;
     copy_done := copy_done s;
     last_screenshot_time := v;
     label_display_time := label_display_time s |}.

(** [x_history] and [y_history] are always updated together. *)
Definition set_history (s : state) (xs ys : list float) : state :=
  {| shared_clipboard := shared_clipboard s;
     last_action_time := last_action_time s;
     x_history := xs;
     y_history := ys;
     gesture_text := gesture_text s;
     fist_start_time := fist_start_time s;
     open_start_time := open_start_time s;
     copy_done := copy_done s;
     last_screenshot_time := last_screenshot_time s;
     label_display_time := label_display_time s |}.

(** [gesture_text = l] in the motion detector. *)
Definition set_gesture_text (s : state) (l : string) : state :=
  {| shared_clipboard := shared_clipboard s;
     last_action_time := last_action_time s;
     x_history := x_history s;
     y_history := y_history s;
     gesture_text := l;
     fist_start_time := fist_start_time s;
     open_start_time := open_start_time s;
     copy_done := copy_done s;
     last_screenshot_time := last_screenshot_time s;
     label_display_time := label_display_time s |}.

(** [gesture_text = l; label_display_time = now] in the frame body. *)
Definition set_label (s : state) (l : string) (now : float) : state :=
  {| shared_clipboard := shared_clipboard s;
     last_action_time := last_action_time s;
     x_history := x_history s;
     y_history := y_history s;
     gesture_text := l;
     fist_start_time := fist_start_time s;
     open_start_time := open_start_time s;
     copy_done := copy_done s;
     last_screenshot_time := last_screenshot_time s;
     label_display_time := now |}.

Inductive result (A : Type) : Type :=
| Ok (a : A) (s : state) (tr : list effect)
| Raise (s : state) (tr : list effect).
Arguments Ok {A} a s tr.
Arguments Raise {A} s tr.

(** [get_clipboard] *)
Definition get_clipboard (s : state) : response :=
  {| status := 200;
     body := [("type", c_type (shared_clipboard s));
              ("value", c_value (shared_clipboard s))] |}.

(** [upload_clipboard] *)
Definition upload_clipboard (r : request) (s : state) : state * response :=
  let json_text := if req_is_json r then req_json_text r else None in
  match json_text with
  | Some text =>
      let s := set_shared_clipboard s
                 {| c_type := "text"; c_value := c_value (shared_clipboard s) |} in
      let s := set_shared_clipboard s
                 {| c_type := c_type (shared_clipboard s); c_value := text |} in
      (s, {| status := 200; body := [("status", "ok"); ("type", "text")] |})
  | None =>
      match req_image r with
      | Some b64 =>
          let s := set_shared_clipboard s
                     {| c_type := "image"; c_value := c_value (shared_clipboard s) |} in
          let s := set_shared_clipboard s
                     {| c_type := c_type (shared_clipboard s); c_value := b64 |} in
          (s, {| status := 200; body := [("status", "ok"); ("type", "image")] |})
      | None =>
          (s, {| status := 400;
                 body := [("status", "error"); ("message", "No valid payload")] |})
      end
  end.

(** [get_ip]; [ip] is what [get_local_ip()] finds. *)
Definition get_ip (ip : string) : response :=
  {| status := 200; body := [("ip", ip)] |}.

(** The routes of [app]: the three [@app.route] declarations. *)
Definition handle (ip : string) (r : request) (s : state) : state * response :=
  if String.eqb (req_path r) "/get_clipboard" then
    if is_get (req_method r) then (s, get_clipboard s)
    else (s, {| status := 405; body := [] |})
  else if String.eqb (req_path r) "/upload_clipboard" then
    if String.eqb (req_method r) "POST" then upload_clipboard r s
    else (s, {| status := 405; body := [] |})
  else if String.eqb (req_path r) "/ip" then
    if is_get (req_method r) then (s, get_ip ip)
    else (s, {| status := 405; body := [] |})
  else (s, {| status := 404; body := [] |}).

Definition tips : list nat := [4; 8; 12; 16; 20]%nat.

(** [get_finger_states] *)
Definition get_finger_states (hand_landmarks : hand_landmarks) : list nat :=
  let fingers := [] in
  let fingers :=
    fingers ++
    [match landmark_at hand_landmarks (nth 0 tips 0%nat),
           landmark_at hand_landmarks (nth 0 tips 0%nat - 2) with
     | Some tip, Some joint => if lx tip <? lx joint then 1%nat else 0%nat
     | _, _ => 0%nat
     end] in
  fold_left
    (fun fingers i =>
       fingers ++
       [match landmark_at hand_landmarks (nth i tips 0%nat),
              landmark_at hand_landmarks (nth i tips 0%nat - 2) with
        | Some tip, Some joint => if ly tip <? ly joint then 1%nat else 0%nat
        | _, _ => 0%nat
        end])
    (seq 1 4) fingers.

(** The history update at the head of [detect_motion_gesture]: append the
    point, drop the oldest beyond the window. *)
Definition push_history (x y : float) (s : state) : state :=
  let s := set_history s (x_history s ++ [x]) (y_history s ++ [y]) in
  if (SMOOTHING_WINDOW <? List.length (x_history s))%nat
  then set_history s (tl (x_history s)) (tl (y_history s)) else s.

(** [detect_motion_gesture] *)
Definition detect_motion_gesture (x y : float) (e : env) (s : state) : result unit :=
  let s := push_history x y s in
  let dx := last (x_history s) 0 - hd 0 (x_history s) in
  let dy := last (y_history s) 0 - hd 0 (y_history s) in
  let now := time_motion e in
  if COOLDOWN <? now - last_action_time s then
    if (SCROLL_THRESHOLD <? abs dy) && (abs dx <? abs dy) then
      if negb (motion_call_ok e) then Raise s []
      else
        let '(l, tr) :=
          if dy <? 0
          then ("Gesture Detected: Scroll Up", [Scroll 1500; Label ScrollUp])
          else ("Gesture Detected: Scroll Down", [Scroll (-1500); Label ScrollDown]) in
        let s := set_gesture_text s l in
        let s := set_last_action_time s now in
        Ok tt s tr
    else if (TAB_THRESHOLD <? abs dx) && (abs dy <? abs dx) then
      if negb (motion_call_ok e) then Raise s []
      else
        let '(l, tr) :=
          if 0 <? dx
          then ("Gesture Detected: Next Tab", [Hotkey ["ctrl"; "tab"]; Label NextTab])
          else ("Gesture Detected: Previous Tab",
                [Hotkey ["ctrl"; "shift"; "tab"]; Label PrevTab]) in
        let s := set_gesture_text s l in
        let s := set_last_action_time s now in
        Ok tt s tr
    else Ok tt s []
  else Ok tt s [].

(** The COPY section of the frame body. *)
Definition copy_gesture (total_fingers : nat) (now : float) (e : env) (s : state)
  : state * list effect :=
  if (total_fingers =? 0)%nat then
    match fist_start_time s with
    | None => (set_fist_start_time s (Some now), [])
    | Some started =>
        if (GESTURE_HOLD_TIME <? now - started) && negb (copy_done s) then
          let '(s, tr) :=
            if copy_hotkey_ok e then
              let '(txt, tr_read) :=
                match clip_paste e with
                | Some t => (t, [])
                | None => ("", [Print "[WARN] pyperclip paste failed:"])
                end in
              let s :=
                if truthy txt then
                  let s := set_shared_clipboard s
                             {| c_type := "text"; c_value := c_value (shared_clipboard s) |} in
                  set_shared_clipboard s
                    {| c_type := c_type (shared_clipboard s); c_value := txt |}
                else
                  set_shared_clipboard s
                    {| c_type := c_type (shared_clipboard s);
                       c_value := c_value (shared_clipboard s) |} in
              let s := set_label s "Gesture Detected: Copy (synced)" now in
              let s := set_copy_done s true in
              (s, [Hotkey ["ctrl"; "c"]] ++ tr_read
                  ++ [Label Copy; Print "[INFO] Copied and synced"])
            else (s, [Print "[ERROR] Copy action failed:"]) in
          (set_fist_start_time s None, tr)
        else (s, [])
    end
  else (set_fist_start_time s None, []).

(** The PASTE section of the frame body. *)
Definition paste_gesture (total_fingers : nat) (now : float) (e : env) (s : state)
  : state * list effect :=
  if (total_fingers =? 5)%nat then
    match open_start_time s with
    | None => (set_open_start_time s (Some now), [])
    | Some started =>
        if (GESTURE_HOLD_TIME <? now - started) && copy_done s then
          let tr_clip :=
            if String.eqb (c_type (shared_clipboard s)) "text"
               && truthy (c_value (shared_clipboard s))
            then if clip_copy_ok e then [ClipCopy (c_value (shared_clipboard s))]
                 else [Print "[WARN] pyperclip copy failed:"]
            else [] in
          let '(s, tr) :=
            if paste_hotkey_ok e then
              let s := set_label s "Gesture Detected: Paste" now in
              let s := set_copy_done s false in
              (s, tr_clip ++ [Hotkey ["ctrl"; "v"]; Label Paste;
                              Print "[INFO] Pasted shared clipboard"])
            else (s, tr_clip ++ [Print "[ERROR] Paste failed:"]) in
          (set_open_start_time s None, tr)
        else (s, [])
    end
  else (set_open_start_time s None, []).

(** The SCREENSHOT section of the frame body. *)
Definition screenshot_gesture (fingers : list nat) (index_tip thumb_tip : landmark)
    (now : float) (e : env) (s : state) : state * list effect :=
  let thumb_index_distance :=
    norm2 (lx thumb_tip) (ly thumb_tip) (lx index_tip) (ly index_tip) in
  if (nth 0 fingers 0 =? 1)%nat && (nth 1 fingers 0 =? 1)%nat
     && (sum (skipn 2 fingers) =? 0)%nat then
    if (thumb_index_distance <? 0.05)
       && (SCREENSHOT_COOLDOWN <? now - last_screenshot_time s) then
      match screenshot_b64 e with
      | Some b64 =>
          let s := set_shared_clipboard s
                     {| c_type := "image"; c_value := c_value (shared_clipboard s) |} in
          let s := set_shared_clipboard s
                     {| c_type := c_type (shared_clipboard s); c_value := b64 |} in
          let s := set_label s "Gesture Detected: Screenshot Saved" now in
          let s := set_last_screenshot_time s now in
          (s, [SaveScreenshot; Label Screenshot; Print "[INFO] Screenshot saved and synced:"])
      | None => (s, [Print "[ERROR] Screenshot/save failed:"])
      end
    else (s, [])
  else (s, []).

(** One iteration of the [while True] loop of [main] on a decoded image,
    up to the label display (which only draws). There is no branch for a
    frame without a hand. *)
Definition main_frame (f : frame) (s : state) : result unit :=
  match hand f with
  | Some hand =>
      match landmark_at hand 8, landmark_at hand 4 with
      | Some index_tip, Some thumb_tip =>
          let x := lx index_tip in
          let y := ly index_tip in
          let fingers := get_finger_states hand in
          let total_fingers := sum fingers in
          let now := time_frame (world f) in
          let '(s, tr_copy) := copy_gesture total_fingers now (world f) s in
          let '(s, tr_paste) := paste_gesture total_fingers now (world f) s in
          let '(s, tr_shot) :=
            screenshot_gesture fingers index_tip thumb_tip now (world f) s in
          match detect_motion_gesture x y (world f) s with
          | Raise s tr => Raise s (tr_copy ++ tr_paste ++ tr_shot ++ tr)
          | Ok _ s tr_motion => Ok tt s (tr_copy ++ tr_paste ++ tr_shot ++ tr_motion)
          end
      | _, _ => Raise s []
      end
  | None => Ok tt s []
  end.

Definition state_of {A} (r : result A) : state :=
  match r with Ok _ s _ => s | Raise s _ => s end.

Definition trace_of {A} (r : result A) : list effect :=
  match r with Ok _ _ tr => tr | Raise _ tr => tr end.

Definition completed {A} (r : result A) : bool :=
  match r with Ok _ _ _ => true | Raise _ _ => false end.

(** The frame loop over a sequence of frames, until one raises. *)
Fixpoint run (fs : list frame) (s : state) : result unit :=
  match fs with
  | [] => Ok tt s []
  | f :: fs' =>
      match main_frame f s with
      | Raise s' tr => Raise s' tr
      | Ok _ s' tr =>
          match run fs' s' with
          | Ok _ s'' tr' => Ok tt s'' (tr ++ tr')
          | Raise s'' tr' => Raise s'' (tr ++ tr')
          end
      end
  end.

End gesture_file_server.

(** ** The shared dictionary under two threads

    The camera loop writes [shared_clipboard] while the Flask thread reads
    it; neither program takes a lock. Each dictionary access is one atomic
    step of the interpreter, and the scheduler may switch threads between any
    two of them. A write of the slot is the two stores of [safe_copy_to_shared]
    (and of the screenshot and upload paths); a read is the two loads of
    [api_get_clipboard] / [get_clipboard]. *)
Module shared_slot.

Inductive instr : Set :=
| SetType (k : string)     (* shared_clipboard['type'] = k *)
| SetValue (v : string)    (* shared_clipboard['value'] = v *)
| GetType                  (* shared_clipboard.get("type", ...) *)
| GetValue.                (* shared_clipboard.get("value", ...) *)

(** The writer's two stores, in the order of the source. *)
Definition write_program (k v : string) : list instr := [SetType k; SetValue v].

(** The reader's two loads, in the order of the source. *)
Definition read_program : list instr := [GetType; GetValue].

(** The dictionary and what the reader has loaded so far. *)
Record memory : Set := {
  slot : clipboard;
  seen_type : option string;
  seen_value : option string
}.

Definition exec (i : instr) (m : memory) : memory :=
  match i with
  | SetType k =>
      {| slot := {| c_type := k; c_value := c_value (slot m) |};
         seen_type := seen_type m; seen_value := seen_value m |}
  | SetValue v =>
      {| slot := {| c_type := c_type (slot m); c_value := v |};
         seen_type := seen_type m; seen_value := seen_value m |}
  | GetType =>
      {| slot := slot m; seen_type := Some (c_type (slot m));
         seen_value := seen_value m |}
  | GetValue =>
      {| slot := slot m; seen_type := seen_type m;
         seen_value := Some (c_value (slot m)) |}
  end.

Record config : Set := { mem : memory; writer : list instr; reader : list instr }.

Inductive thread : Set := Writer | Reader.

(** The scheduled thread runs its next instruction; a finished thread
    that is scheduled does nothing. *)
Definition step (t : thread) (c : config) : config :=
  match t with
  | Writer =>
      match writer c with
      | [] => c
      | i :: rest => {| mem := exec i (mem c); writer := rest; reader := reader c |}
      end
  | Reader =>
      match reader c with
      | [] => c
      | i :: rest => {| mem := exec i (mem c); writer := writer c; reader := rest |}
      end
  end.

Definition interleave (schedule : list thread) (c : config) : config :=
  fold_left (fun c t => step t c) schedule c.

(** A write of [(k, v)] racing one read, from the slot [old]. *)
Definition race (old : clipboard) (k v : string) : config :=
  {| mem := {| slot := old; seen_type := None; seen_value := None |};
     writer := write_program k v;
     reader := read_program |}.

(** The (type, value) pair the reader returns, once it has finished. *)
Definition observed (c : config) : option (string * string) :=
  match reader c, seen_type (mem c), seen_value (mem c) with
  | [], Some k, Some v => Some (k, v)
  | _, _, _ => None
  end.

Definition finished (c : config) : bool :=
  match writer c, reader c with
  | [], [] => true
  | _, _ => false
  end.

End shared_slot.

(** ** The camera loops

    One turn of a [while True] loop: whether [cap.read()] delivered an image,
    the frame it shows with the answers of the world, the clock reading of
    the label overlay, and whether 'q' was the key at [cv2.waitKey(1)]. The
    drawing calls themselves are left out; what the overlay writes at the
    top of the window is kept as the loop's screen. *)
Record grab : Set := {
  read_ok : bool;
  image : frame;
  time_overlay : float;
  key_q : bool
}.

(** How a loop has stopped on a finite sequence of turns: not yet, on the
    quit key, on a failed read, or on an uncaught exception. *)
Inductive ending : Set := Running | Quit | ReadFailed | Exception.

Module gesture_drop_loop.
Import gesture_drop.

Definition OVERLAY_LABEL_TIME : float := 1.6.

Record loop_result : Set := {
  final : state;
  effects : list effect;
  screen : list string;
  ended : ending
}.

(** The label overlay of one turn: the last gesture's label while it is
    younger than OVERLAY_LABEL_TIME. *)
Definition overlay (now : float) (s : state) : string :=
  if now - label_set_time s <? OVERLAY_LABEL_TIME then gesture_label s
  else "Gesture: None".

(** The [while True] loop of [main_loop]: a failed read sleeps and goes on
    to the next turn, without overlay and without reading the key. *)
Fixpoint camera_loop (gs : list grab) (s : state) : loop_result :=
  match gs with
  | [] => {| final := s; effects := []; screen := []; ended := Running |}
  | g :: gs' =>
      if negb (read_ok g) then camera_loop gs' s
      else
        match main_loop_frame (image g) s with
        | Raise s' tr =>
            {| final := s'; effects := tr; screen := []; ended := Exception |}
        | Ok _ s' tr =>
            let shown := overlay (time_overlay g) s' in
            if key_q g then
              {| final := s'; effects := tr; screen := [shown]; ended := Quit |}
            else
              let r := camera_loop gs' s' in
              {| final := final r; effects := tr ++ effects r;
                 screen := shown :: screen r; ended := ended r |}
        end
  end.

End gesture_drop_loop.

Module gesture_file_server_loop.
Import gesture_file_server.

Record loop_result : Set := {
  final : state;
  effects : list effect;
  screen : list string;
  ended : ending
}.

(** The label of one turn: [gesture_text] while [label_display_time] is
    younger than two seconds. *)
Definition overlay (now : float) (s : state) : string :=
  if now - label_display_time s <? 2 then gesture_text s
  else "Gesture: None".

(** The [while True] loop of [main]: a failed read breaks out of it. *)
Fixpoint camera_loop (gs : list grab) (s : state) : loop_result :=
  match gs with
  | [] => {| final := s; effects := []; screen := []; ended := Running |}
  | g :: gs' =>
      if negb (read_ok g) then
        {| final := s; effects := []; screen := []; ended := ReadFailed |}
      else
        match main_frame (image g) s with
        | Raise s' tr =>
            {| final := s'; effects := tr; screen := []; ended := Exception |}
        | Ok _ s' tr =>
            let shown := overlay (time_overlay g) s' in
            if key_q g then
              {| final := s'; effects := tr; screen := [shown]; ended := Quit |}
            else
              let r := camera_loop gs' s' in
              {| final := final r; effects := tr ++ effects r;
                 screen := shown :: screen r; ended := ended r |}
        end
  end.

End gesture_file_server_loop.

(** ** Vocabulary of the specification *)

(** A finger is extended, by the rule of the landmark normalizer: its tip
    and its reference joint are both found, and the tip's coordinate is
    strictly below the joint's. *)
Definition extended (coord : landmark -> float) (lm : hand_landmarks)
    (tip joint : nat) : Prop :=
  exists a b, landmark_at lm tip = Some a /\ landmark_at lm joint = Some b
              /\ (coord a <? coord b) = true.

(** The flag [n] of a finger follows the rule: 1 exactly when the finger is
    extended, 0 otherwise, and 0 whenever a lookup fails. *)
Definition finger_rule (coord : landmark -> float) (lm : hand_landmarks)
    (tip joint : nat) (n : nat) : Prop :=
  (n = 1%nat <-> extended coord lm tip joint)
  /\ (n = 0%nat \/ n = 1%nat)
  /\ (landmark_at lm tip = None \/ landmark_at lm joint = None -> n = 0%nat).

(** The one-shot copy -> paste handoff as an automaton over the fired
    gestures: [Copy] is accepted only while no confirmation is pending and
    makes one pending, [Paste] only while one is pending and clears it.
    The result is the pending flag at the end, [None] when a gesture fired
    against the rule. *)
Fixpoint handoff (confirmed : bool) (gs : list gesture) : option bool :=
  match gs with
  | [] => Some confirmed
  | Copy :: gs' => if confirmed then None else handoff true gs'
  | Paste :: gs' => if confirmed then handoff false gs' else None
  | _ :: gs' => handoff confirmed gs'
  end.

(** The frame shows a hand with exactly [n] fingers extended. *)
Definition shows (n : nat) (f : frame) : Prop :=
  exists lm, hand f = Some lm
             /\ sum (gesture_drop.finger_states_from_landmarks lm) = n.

(** The motion gestures and the hold / pinch gestures of a trace. *)
Definition motion_fired (tr : list effect) : list gesture :=
  filter is_motion (fired tr).

Definition hold_fired (tr : list effect) : list gesture :=
  filter (fun g => negb (is_motion g)) (fired tr).

(** Where a write of [(k, v)] over the slot [old] can stand: before its two
    stores, between them, or after them. *)
Definition writer_at (old : clipboard) (k v : string) (c : shared_slot.config) : Prop :=
  (shared_slot.writer c = shared_slot.write_program k v
   /\ shared_slot.slot (shared_slot.mem c) = old)
  \/ (shared_slot.writer c = [shared_slot.SetValue v]
      /\ shared_slot.slot (shared_slot.mem c) = {| c_type := k; c_value := c_value old |})
  \/ (shared_slot.writer c = []
      /\ shared_slot.slot (shared_slot.mem c) = {| c_type := k; c_value := v |}).

(** Where the racing read can stand, and what it has loaded: each field it
    holds is the old or the new one. *)
Definition reader_at (old : clipboard) (k v : string) (c : shared_slot.config) : Prop :=
  (shared_slot.reader c = shared_slot.read_program
   /\ shared_slot.seen_type (shared_slot.mem c) = None
   /\ shared_slot.seen_value (shared_slot.mem c) = None)
  \/ (shared_slot.reader c = [shared_slot.GetValue]
      /\ (shared_slot.seen_type (shared_slot.mem c) = Some (c_type old)
          \/ shared_slot.seen_type (shared_slot.mem c) = Some k)
      /\ shared_slot.seen_value (shared_slot.mem c) = None)
  \/ (shared_slot.reader c = []
      /\ (shared_slot.seen_type (shared_slot.mem c) = Some (c_type old)
          \/ shared_slot.seen_type (shared_slot.mem c) = Some k)
      /\ (shared_slot.seen_value (shared_slot.mem c) = Some (c_value old)
          \/ shared_slot.seen_value (shared_slot.mem c) = Some v)).

(** The label [gesture_drop.py] assigns to [gesture_label] for a gesture. *)
Definition label_of (g : gesture) : string :=
  match g with
  | ScrollUp => "Scroll Up"
  | ScrollDown => "Scroll Down"
  | NextTab => "Next Tab"
  | PrevTab => "Previous Tab"
  | Copy => "Copy"
  | Paste => "Paste"
  | Screenshot => "Screenshot"
  end.

(** The clock reading [gesture_drop.py] assigns to [label_set_time] with a
    gesture: the one taken in [update_motion_and_detect] for a motion
    gesture, the one taken in the frame body for the others. *)
Definition stamp (e : env) (g : gesture) : float :=
  if is_motion g then time_motion e else time_frame e.

(** At most one of the two hold timers is running. *)
Definition one_timer (fist open : option float) : Prop := fist = None \/ open = None.

(** The frame shows no hand, or a hand whose index tip is at [(x, y)]. *)
Definition tip_at (x y : float) (f : frame) : Prop :=
  hand f = None
  \/ exists lm idx, hand f = Some lm /\ landmark_at lm 8 = Some idx
                    /\ lx idx = x /\ ly idx = y.

(** The turns of a camera loop that deliver an image, up to and including
    the first one at which 'q' is pressed. *)
Fixpoint played (gs : list grab) : list frame :=
  match gs with
  | [] => []
  | g :: gs' =>
      if read_ok g then image g :: (if key_q g then [] else played gs')
      else played gs'
  end.

(** The turns of the camera loop of gesture_file_server.py that are played:
    those before the first failed read, up to and including the first one
    at which 'q' is pressed. *)
Fixpoint played_until_failure (gs : list grab) : list frame :=
  match gs with
  | [] => []
  | g :: gs' =>
      if read_ok g then image g :: (if key_q g then [] else played_until_failure gs')
      else []
  end.

(** ** Scenarios *)

Definition at_rest : landmark := {| lx := 0.5; ly := 0.5; lz := 0 |}.

(** A hand of 21 landmarks, all at the centre of the image but those listed. *)
Definition pose (pts : list (nat * (float * float))) : hand_landmarks :=
  map (fun i =>
         match find (fun p => (fst p =? i)%nat) pts with
         | Some (_, (x, y)) => {| lx := x; ly := y; lz := 0 |}
         | None => at_rest
         end)
      (seq 0 21).

(** A fist whose (curled) index tip is at [(x, y)]. *)
Definition fist_at (x y : float) : hand_landmarks := pose [(8%nat, (x, y)); (6%nat, (x, y))].

(** A hand pointing with the index only, its tip at [(x, y)], [y < 1]. *)
Definition pointing_at (x y : float) : hand_landmarks :=
  pose [(8%nat, (x, y)); (6%nat, (x, 1))].

(** An open palm: the five tips beyond their joints. *)
Definition open_palm : hand_landmarks :=
  pose [(4%nat, (0.25, 0.5)); (8%nat, (0.5, 0.25)); (12%nat, (0.5, 0.25));
        (16%nat, (0.5, 0.25)); (20%nat, (0.5, 0.25))].

(** A world in which every call succeeds and the OS clipboard holds [clip],
    with both clock readings of the frame at [t]. *)
Definition calm (t : float) (clip : string) : env :=
  {| time_motion := t; time_frame := t; motion_call_ok := true;
     copy_hotkey_ok := true; clip_paste := Some clip; clip_copy_ok := true;
     paste_hotkey_ok := true; screenshot_b64 := Some "iVBORw0KGgo=" |}.

(** The same world, but [pyperclip.paste()] raises. *)
Definition paste_raises (t : float) : env :=
  {| time_motion := t; time_frame := t; motion_call_ok := true;
     copy_hotkey_ok := true; clip_paste := None; clip_copy_ok := true;
     paste_hotkey_ok := true; screenshot_b64 := Some "iVBORw0KGgo=" |}.

(** The same world, but [pyperclip.copy(...)] raises. *)
Definition copy_raises (t : float) : env :=
  {| time_motion := t; time_frame := t; motion_call_ok := true;
     copy_hotkey_ok := true; clip_paste := Some "hello"; clip_copy_ok := false;
     paste_hotkey_ok := true; screenshot_b64 := Some "iVBORw0KGgo=" |}.

Definition seen (lm : hand_landmarks) (w : env) : frame := {| hand := Some lm; world := w |}.

Definition no_hand (w : env) : frame := {| hand := None; world := w |}.

(** A fist that rises through the image while it is held: the frame that
    first shows it, low in the image, and the frame that shows it high in
    the image at time [t]. *)
Definition rising_fist_start : frame := seen (fist_at 0.5 0.875) (calm 100 "hello").

Definition rising_fist_held (t : float) : frame :=
  seen (fist_at 0.5 0.125) (calm t "hello").

(** A fist held still for a second and a half, a frame every quarter. *)
Definition held_fist : list frame :=
  map (fun t => seen (fist_at 0.5 0.5) (calm t "hello"))
      [100; 100.25; 100.5; 100.75; 101; 101.25; 101.5].

(** A pointing hand that sweeps up the image in one frame step. *)
Definition sweep_up : list frame :=
  [seen (pointing_at 0.5 0.875) (calm 100 "hello");
   seen (pointing_at 0.5 0.125) (calm 100.03125 "hello")].

(** The sweep goes on, the hand being back at the bottom and up again,
    within the next half second. *)
Definition sweep_goes_on : list frame :=
  [seen (pointing_at 0.5 0.875) (calm 100.25 "hello");
   seen (pointing_at 0.5 0.125) (calm 100.28125 "hello");
   seen (pointing_at 0.5 0.125) (calm 100.5 "hello")].

(** The hand leaves the image for one frame, then comes back and stays
    still at the centre, a second later and again a second later. *)
Definition hand_lost : list frame := [no_hand (calm 100.0625 "hello")].

Definition hand_back_still : list frame :=
  [seen (pointing_at 0.5 0.5) (calm 101 "hello");
   seen (pointing_at 0.5 0.5) (calm 102 "hello")].

(** A fist held still: first seen at 100 s, still there half a second (or
    any time [t]) later, in the world [w]. *)
Definition still_fist (w : env) : frame := seen (fist_at 0.5 0.5) w.

(** Copy, then an open palm held until the paste is due, while
    [pyperclip.copy] raises. *)
Definition copy_then_palm : list frame :=
  [still_fist (calm 100 "hello"); still_fist (calm 100.75 "hello");
   seen open_palm (calm 101 "hello")].

Definition palm_held_copy_raises : frame := seen open_palm (copy_raises 101.75).

(** Requests of the phone. *)
Definition read_slot : request :=
  {| req_method := "GET"; req_path := "/get_clipboard"; req_is_json := false;
     req_json_text := None; req_image := None |}.

Definition upload_text (text : string) : request :=
  {| req_method := "POST"; req_path := "/upload_clipboard"; req_is_json := true;
     req_json_text := Some text; req_image := None |}.

Definition upload_image (b64 : string) : request :=
  {| req_method := "POST"; req_path := "/upload_clipboard"; req_is_json := false;
     req_json_text := None; req_image := Some b64 |}.

(** A slot that holds a screenshot. *)
Definition image_slot : clipboard := {| c_type := "image"; c_value := "iVBORw0KGgo=" |}.

(** A pinch: thumb and index extended and their tips close together, the
    other fingers curled. *)
Definition pinch : hand_landmarks :=
  pose [(4%nat, (0.46875, 0.25)); (8%nat, (0.5, 0.25))].


(** ** Proof automation *)

(** Case analysis on every test of a goal. *)
Ltac split_tests :=
  repeat match goal with
         | |- context [if ?c then _ else _] => destruct c eqn:?
         | |- context [match ?c with Some _ => _ | None => _ end] => destruct c eqn:?
         end.

(** A section that fired nothing and left the fields of interest alone. *)
Ltac unchanged :=
  simpl; repeat (split; [reflexivity | ]);
  first [reflexivity | left; repeat split; (reflexivity || assumption)].

(** * Properties *)

(** ** Comparisons of binary64 numbers *)

Lemma SFcompare_antisym (x y : spec_float) :
  SFcompare y x = option_map CompOpp (SFcompare x y).
Proof.
  destruct x as [sx | sx | | sx mx ex], y as [sy | sy | | sy my ey]; simpl;
    try reflexivity;
    try (destruct sx; reflexivity); try (destruct sy; reflexivity);
    try (destruct sx, sy; reflexivity).
  destruct sx, sy; simpl; try reflexivity;
    rewrite (Z.compare_antisym ex ey);
    destruct (ex ?= ey)%Z; simpl; try reflexivity;
    change (Pos.compare_cont Eq my mx) with (Pos.compare my mx);
    change (Pos.compare_cont Eq mx my) with (Pos.compare mx my);
    rewrite (Pos.compare_antisym mx my);
    destruct (mx ?= my)%positive; reflexivity.
Qed.

Lemma float_ltb_asym (x y : float) : (x <? y) = true -> (y <? x) = false.
Proof.
  rewrite !ltb_spec. unfold SFltb.
  rewrite (SFcompare_antisym (Prim2SF x) (Prim2SF y)).
  destruct (SFcompare (Prim2SF x) (Prim2SF y)) as [[ | | ] | ]; simpl; congruence.
Qed.

Lemma float_eqb_not_ltb (x y : float) :
  (x =? y) = true -> (x <? y) = false /\ (y <? x) = false.
Proof.
  rewrite eqb_spec, !ltb_spec. unfold SFeqb, SFltb.
  rewrite (SFcompare_antisym (Prim2SF x) (Prim2SF y)).
  destruct (SFcompare (Prim2SF x) (Prim2SF y)) as [[ | | ] | ]; simpl;
    intuition congruence.
Qed.

(** ** The landmark normalizer *)

Lemma finger_flag_rule (coord : landmark -> float) (lm : hand_landmarks)
    (tip joint : nat) :
  finger_rule coord lm tip joint
    match landmark_at lm tip, landmark_at lm joint with
    | Some a, Some b => if coord a <? coord b then 1%nat else 0%nat
    | _, _ => 0%nat
    end.
Proof.
  unfold finger_rule, extended.
  destruct (landmark_at lm tip) as [a | ] eqn:Ha;
    destruct (landmark_at lm joint) as [b | ] eqn:Hb;
    try destruct (coord a <? coord b) eqn:Hc;
    (split; [split | split]);
    try (intros _; exists a, b; now auto);
    try (intros (a' & b' & Ea & Eb & Hlt); congruence);
    try (intros [H | H]; congruence);
    try discriminate; auto.
Qed.

Lemma finger_states_from_landmarks_eq (lm : hand_landmarks) :
  exists t i m r p,
    gesture_drop.finger_states_from_landmarks lm = [t; i; m; r; p]
    /\ finger_rule lx lm 4 2 t /\ finger_rule ly lm 8 6 i
    /\ finger_rule ly lm 12 10 m /\ finger_rule ly lm 16 14 r
    /\ finger_rule ly lm 20 18 p.
Proof.
  do 5 eexists. split; [reflexivity | ].
  repeat split; apply finger_flag_rule.
Qed.

Lemma get_finger_states_eq (lm : hand_landmarks) :
  exists t i m r p,
    gesture_file_server.get_finger_states lm = [t; i; m; r; p]
    /\ finger_rule lx lm 4 2 t /\ finger_rule ly lm 8 6 i
    /\ finger_rule ly lm 12 10 m /\ finger_rule ly lm 16 14 r
    /\ finger_rule ly lm 20 18 p.
Proof.
  do 5 eexists. split; [reflexivity | ].
  repeat split; apply finger_flag_rule.
Qed.

(** ** Traces *)

Lemma fired_app (a b : list effect) : fired (a ++ b) = fired a ++ fired b.
Proof.
  induction a as [ | x a IH]; simpl; [reflexivity | ].
  destruct x; simpl; rewrite ?IH; reflexivity.
Qed.

Lemma motion_fired_app (a b : list effect) :
  motion_fired (a ++ b) = motion_fired a ++ motion_fired b.
Proof. unfold motion_fired. now rewrite fired_app, filter_app. Qed.

Lemma handoff_app (c : bool) (a b : list gesture) :
  handoff c (a ++ b) =
  match handoff c a with Some c' => handoff c' b | None => None end.
Proof.
  revert c. induction a as [ | g a IH]; intros c; simpl; [reflexivity | ].
  destruct g, c; simpl; auto.
Qed.

Lemma handoff_motion (c : bool) (g : gesture) (gs : list gesture) :
  is_motion g = true -> handoff c (g :: gs) = handoff c gs.
Proof. destruct g; simpl; congruence. Qed.

(** An accepted sequence of gestures without [Paste] holds at most one
    [Copy], and none when a confirmation was pending from the start. *)
Lemma handoff_no_paste (gs : list gesture) :
  forall c c', handoff c gs = Some c' ->
               count_gesture Paste gs = 0%nat ->
               (count_gesture Copy gs <= if c then 0 else 1)%nat.
Proof.
  unfold count_gesture.
  induction gs as [ | g gs IH]; intros c c' H Hp; simpl in *.
  - destruct c; lia.
  - destruct g; simpl in *; try (now apply (IH c c'));
      destruct c; try discriminate.
    specialize (IH true c' H Hp). simpl in IH. lia.
Qed.

(** In an accepted sequence, copies and pastes alternate: the copies exceed
    the pastes by at most one, and the pastes never exceed the copies unless
    a confirmation was pending from the start. *)
Lemma handoff_balance (gs : list gesture) :
  forall c c', handoff c gs = Some c' ->
               (count_gesture Copy gs + (if c then 1 else 0)
                = count_gesture Paste gs + (if c' then 1 else 0))%nat.
Proof.
  unfold count_gesture.
  induction gs as [ | g gs IH]; intros c c' H; simpl in *.
  - injection H as <-. reflexivity.
  - destruct g; simpl in *; try (now apply (IH c c'));
      destruct c; try discriminate.
    + specialize (IH true c' H). simpl in IH. lia.
    + specialize (IH false c' H). simpl in IH. lia.
Qed.

Lemma count_gesture_app (g : gesture) (a b : list gesture) :
  count_gesture g (a ++ b) = (count_gesture g a + count_gesture g b)%nat.
Proof. unfold count_gesture. now rewrite filter_app, length_app. Qed.

(** ** gesture_drop.py: the sections of the frame body, one by one *)

Module gesture_drop_facts.
Import gesture_drop.

(** What the motion detector does: the EMA pair is always updated; at most
    one gesture fires, a motion gesture, and then the cooldown had elapsed
    and the clock is set to the reading of this call; nothing else changes. *)
Lemma update_motion_and_detect_frame (dx dy : float) (e : env) (s : state) :
  let r := update_motion_and_detect dx dy e s in
  let s' := state_of r in
  ema_dx s' = EMA_ALPHA * dx + (1 - EMA_ALPHA) * ema_dx s
  /\ ema_dy s' = EMA_ALPHA * dy + (1 - EMA_ALPHA) * ema_dy s
  /\ pos_history s' = pos_history s
  /\ fist_start s' = fist_start s
  /\ open_start s' = open_start s
  /\ copy_confirmed s' = copy_confirmed s
  /\ shared_clipboard s' = shared_clipboard s
  /\ last_screenshot_time s' = last_screenshot_time s
  /\ hold_fired (trace_of r) = []
  /\ ((fired (trace_of r) = [] /\ last_action_time s' = last_action_time s)
      \/ ((exists g, fired (trace_of r) = [g] /\ is_motion g = true)
          /\ completed r = true
          /\ last_action_time s' = time_motion e
          /\ (time_motion e - last_action_time s <? COOLDOWN) = false)).
Proof.
  unfold update_motion_and_detect. cbv zeta. simpl.
  split_tests; simpl; repeat split; auto;
    right; repeat split; auto; eexists; split; reflexivity.
Qed.

(** What the COPY section does: it fires at most [Copy], and then on a
    fist held beyond the hold time with no confirmation pending, which it
    makes pending; otherwise the flag is left as it was. *)
Lemma copy_gesture_frame (total_f : nat) (now : float) (e : env) (s : state) :
  let s' := fst (copy_gesture total_f now e s) in
  let tr := snd (copy_gesture total_f now e s) in
  last_action_time s' = last_action_time s
  /\ pos_history s' = pos_history s
  /\ ema_dx s' = ema_dx s /\ ema_dy s' = ema_dy s
  /\ open_start s' = open_start s
  /\ last_screenshot_time s' = last_screenshot_time s
  /\ ((fired tr = [] /\ copy_confirmed s' = copy_confirmed s
       /\ shared_clipboard s' = shared_clipboard s)
      \/ (fired tr = [Copy] /\ total_f = 0%nat
          /\ copy_confirmed s = false /\ copy_confirmed s' = true
          /\ fist_start s' = None
          /\ exists started, fist_start s = Some started
                             /\ (GESTURE_HOLD_TIME <? now - started) = true)).
Proof.
  unfold copy_gesture, safe_copy_to_shared. cbv zeta.
  destruct (total_f =? 0)%nat eqn:Htot; [apply Nat.eqb_eq in Htot | ].
  - destruct (fist_start s) as [started | ] eqn:Hfs; simpl; [ | now unchanged].
    destruct (GESTURE_HOLD_TIME <? now - started) eqn:Hhold; simpl; [ | now unchanged].
    destruct (copy_confirmed s) eqn:Hcc; simpl; [now unchanged | ].
    destruct (copy_hotkey_ok e); simpl; [ | now unchanged].
    destruct (clip_paste e) as [text | ]; simpl.
    + destruct (truthy text); simpl; repeat split; auto;
        right; repeat split; auto; exists started; auto.
    + repeat split; auto. right; repeat split; auto. exists started; auto.
  - simpl. now unchanged.
Qed.

Lemma fired_safe_set_local_clipboard (e : env) (text : string) :
  fired (safe_set_local_clipboard e text) = [].
Proof. unfold safe_set_local_clipboard. now destruct (clip_copy_ok e). Qed.

(** What the PASTE section does: it fires at most [Paste], and then on an
    open palm held beyond the hold time with a confirmation pending, which
    it clears; otherwise the flag is left as it was. The slot is only read. *)
Lemma paste_gesture_frame (total_f : nat) (now : float) (e : env) (s : state) :
  let s' := fst (paste_gesture total_f now e s) in
  let tr := snd (paste_gesture total_f now e s) in
  last_action_time s' = last_action_time s
  /\ pos_history s' = pos_history s
  /\ ema_dx s' = ema_dx s /\ ema_dy s' = ema_dy s
  /\ fist_start s' = fist_start s
  /\ last_screenshot_time s' = last_screenshot_time s
  /\ shared_clipboard s' = shared_clipboard s
  /\ ((fired tr = [] /\ copy_confirmed s' = copy_confirmed s)
      \/ (fired tr = [Paste] /\ total_f = 5%nat
          /\ copy_confirmed s = true /\ copy_confirmed s' = false
          /\ open_start s' = None
          /\ exists started, open_start s = Some started
                             /\ (GESTURE_HOLD_TIME <? now - started) = true)).
Proof.
  unfold paste_gesture. cbv zeta.
  destruct (total_f =? 5)%nat eqn:Htot; [apply Nat.eqb_eq in Htot | ].
  - destruct (open_start s) as [started | ] eqn:Hos; simpl; [ | now unchanged].
    destruct (GESTURE_HOLD_TIME <? now - started) eqn:Hhold; simpl; [ | now unchanged].
    destruct (copy_confirmed s) eqn:Hcc; simpl; [ | now unchanged].
    destruct (paste_hotkey_ok e); simpl; rewrite fired_app;
      match goal with
      | |- context [fired (if ?c then _ else _)] =>
          destruct c; rewrite ?fired_safe_set_local_clipboard
      end; simpl; repeat split; auto;
      right; repeat split; auto; exists started; auto.
  - simpl. now unchanged.
Qed.

(** What the Screenshot section does: it fires at most [Screenshot], and
    then on the thumb-and-index configuration; it touches neither the hold
    timers nor the confirmation flag. *)
Lemma screenshot_gesture_frame (fingers : list nat) (idx th : landmark)
    (now : float) (e : env) (s : state) :
  let s' := fst (screenshot_gesture fingers idx th now e s) in
  let tr := snd (screenshot_gesture fingers idx th now e s) in
  last_action_time s' = last_action_time s
  /\ pos_history s' = pos_history s
  /\ ema_dx s' = ema_dx s /\ ema_dy s' = ema_dy s
  /\ fist_start s' = fist_start s /\ open_start s' = open_start s
  /\ copy_confirmed s' = copy_confirmed s
  /\ ((fired tr = [] /\ last_screenshot_time s' = last_screenshot_time s
       /\ shared_clipboard s' = shared_clipboard s)
      \/ (fired tr = [Screenshot]
          /\ nth 0 fingers 0%nat = 1%nat /\ nth 1 fingers 0%nat = 1%nat
          /\ sum (skipn 2 fingers) = 0%nat
          /\ last_screenshot_time s' = now
          /\ (SCREENSHOT_COOLDOWN <? now - last_screenshot_time s) = true)).
Proof.
  unfold screenshot_gesture. cbv zeta.
  destruct (nth 0 fingers 0 =? 1)%nat eqn:H0; cbn [andb]; [ | now unchanged].
  destruct (nth 1 fingers 0 =? 1)%nat eqn:H1; cbn [andb]; [ | now unchanged].
  destruct (sum (skipn 2 fingers) =? 0)%nat eqn:H2; cbn [andb]; [ | now unchanged].
  apply Nat.eqb_eq in H0, H1, H2.
  destruct (norm2 (lx th) (ly th) (lx idx) (ly idx) <? 0.05); cbn [andb];
    [ | now unchanged].
  destruct (SCREENSHOT_COOLDOWN <? now - last_screenshot_time s) eqn:Hcd;
    [ | now unchanged].
  destruct (screenshot_b64 e); [ | now unchanged].
  cbn [fst snd]. simpl fired.
  repeat (split; [reflexivity | ]). right. repeat split; auto.
Qed.

(** The three hold / pinch sections in sequence: at most one of them
    fires, since they ask for 0, 5 and 2 extended fingers. *)
Lemma hold_sections_frame (lm : hand_landmarks) (idx th : landmark)
    (now : float) (e : env) (s : state) :
  let fingers := finger_states_from_landmarks lm in
  let c := copy_gesture (sum fingers) now e s in
  let p := paste_gesture (sum fingers) now e (fst c) in
  let h := screenshot_gesture fingers idx th now e (fst p) in
  let s' := fst h in
  let gs := fired (snd c ++ snd p ++ snd h) in
  last_action_time s' = last_action_time s
  /\ pos_history s' = pos_history s
  /\ ema_dx s' = ema_dx s /\ ema_dy s' = ema_dy s
  /\ ((gs = [] /\ copy_confirmed s' = copy_confirmed s)
      \/ (gs = [Copy] /\ sum fingers = 0%nat
          /\ copy_confirmed s = false /\ copy_confirmed s' = true)
      \/ (gs = [Paste] /\ sum fingers = 5%nat
          /\ copy_confirmed s = true /\ copy_confirmed s' = false)
      \/ (gs = [Screenshot] /\ sum fingers = 2%nat
          /\ copy_confirmed s' = copy_confirmed s)).
Proof.
  intros fingers c p h s' gs.
  destruct (finger_states_from_landmarks_eq lm)
    as (t & i & m & r & q & Hf & _).
  fold fingers in Hf.
  pose proof (copy_gesture_frame (sum fingers) now e s) as Hc.
  pose proof (paste_gesture_frame (sum fingers) now e (fst c)) as Hp.
  pose proof (screenshot_gesture_frame fingers idx th now e (fst p)) as Hs.
  cbv zeta in Hc, Hp, Hs. fold c in Hc, Hp. fold p in Hp, Hs. fold h in Hs.
  destruct Hc as (Hc1 & Hc2 & Hc3 & Hc4 & _ & _ & Hc).
  destruct Hp as (Hp1 & Hp2 & Hp3 & Hp4 & _ & _ & _ & Hp).
  destruct Hs as (Hs1 & Hs2 & Hs3 & Hs4 & _ & _ & Hs5 & Hs).
  subst s' gs. rewrite !fired_app.
  repeat split; try congruence.
  assert (Htwo : nth 0 fingers 0%nat = 1%nat -> nth 1 fingers 0%nat = 1%nat ->
                 sum (skipn 2 fingers) = 0%nat -> sum fingers = 2%nat).
  { rewrite Hf. unfold sum. simpl. lia. }
  destruct Hc as [(Ec & Hc & _) | (Ec & Tc & Hc & Hc' & _)];
    destruct Hp as [(Ep & Hp) | (Ep & Tp & Hp & Hp' & _)];
    destruct Hs as [(Es & _) | (Es & A0 & A1 & A2 & _)];
    rewrite Ec, Ep, Es; simpl;
    try (specialize (Htwo A0 A1 A2)); try lia.
  - left. split; congruence.
  - right; right; right. repeat split; congruence.
  - right; right; left. repeat split; congruence.
  - right; left. repeat split; congruence.
Qed.

(** The history update at the head of the frame body touches nothing but
    [pos_history]. *)
Lemma push_history_frame (x y : float) (s : state) :
  last_action_time (push_history x y s) = last_action_time s
  /\ copy_confirmed (push_history x y s) = copy_confirmed s
  /\ ema_dx (push_history x y s) = ema_dx s
  /\ ema_dy (push_history x y s) = ema_dy s.
Proof.
  unfold push_history. cbv zeta.
  destruct (_ <? _)%nat; simpl; auto.
Qed.

(** One frame: the gestures it fires are at most one motion gesture, from
    the motion detector, followed by at most one hold / pinch gesture. *)
Lemma main_loop_frame_cases (f : frame) (s : state) :
  let r := main_loop_frame f s in
  let s' := state_of r in
  exists gm gh,
    fired (trace_of r) = gm ++ gh
    /\ ((gm = [] /\ last_action_time s' = last_action_time s)
        \/ ((exists g, gm = [g] /\ is_motion g = true)
            /\ last_action_time s' = time_motion (world f)
            /\ (time_motion (world f) - last_action_time s <? COOLDOWN) = false))
    /\ ((gh = [] /\ copy_confirmed s' = copy_confirmed s)
        \/ (gh = [Copy] /\ shows 0 f
            /\ copy_confirmed s = false /\ copy_confirmed s' = true)
        \/ (gh = [Paste] /\ shows 5 f
            /\ copy_confirmed s = true /\ copy_confirmed s' = false)
        \/ (gh = [Screenshot] /\ shows 2 f
            /\ copy_confirmed s' = copy_confirmed s)).
Proof.
  unfold main_loop_frame.
  destruct (hand f) as [lm | ] eqn:Hhand.
  2: { exists [], []. simpl. auto. }
  destruct (landmark_at lm 8) as [idx | ].
  2: { exists [], []. simpl. auto. }
  destruct (landmark_at lm 4) as [th | ].
  2: { exists [], []. simpl. auto. }
  cbv zeta.
  destruct (push_history_frame (lx idx) (ly idx) s) as (Hl & Hc & _).
  set (s1 := push_history (lx idx) (ly idx) s) in *.
  destruct (if (2 <=? _)%nat then _ else _) as [dx dy].
  pose proof (update_motion_and_detect_frame dx dy (world f) s1) as Hm.
  cbv zeta in Hm.
  destruct (update_motion_and_detect dx dy (world f) s1) as [g s2 trm | s2 trm].
  - simpl in Hm.
    destruct Hm as (_ & _ & _ & _ & _ & Hcc & _ & _ & _ & Hm).
    pose proof (hold_sections_frame lm idx th (time_frame (world f)) (world f) s2) as Hh.
    cbv zeta in Hh.
    set (c := copy_gesture _ _ _ s2) in *.
    destruct c as [s3 trc]. cbn [fst snd] in Hh.
    set (p := paste_gesture _ _ _ s3) in *.
    destruct p as [s4 trp]. cbn [fst snd] in Hh.
    set (h := screenshot_gesture _ _ _ _ _ s4) in *.
    destruct h as [s5 trs]. cbn [fst snd] in Hh.
    destruct Hh as (Ht & _ & _ & _ & Hh).
    simpl. exists (fired trm), (fired (trc ++ trp ++ trs)).
    split; [now rewrite fired_app | ].
    split.
    + destruct Hm as [(E & Hm) | (E & _ & Hm & Hcd)]; [left | right].
      * split; congruence.
      * repeat split; congruence.
    + assert (Hs : forall n, sum (finger_states_from_landmarks lm) = n -> shows n f).
      { intros n E. exists lm. auto. }
      destruct Hh as [(E & H) | [(E & T & H & H') | [(E & T & H & H') | (E & T & H)]]].
      * left. split; congruence.
      * right; left. repeat split; auto; congruence.
      * right; right; left. repeat split; auto; congruence.
      * right; right; right. repeat split; auto; congruence.
  - simpl in Hm. simpl.
    destruct Hm as (_ & _ & _ & _ & _ & Hcc & _ & _ & _ & Hm).
    exists (fired trm), []. rewrite app_nil_r. split; [reflexivity | ].
    split; [ | left; split; congruence].
    destruct Hm as [(E & Hm) | (_ & Hdone & _)]; [ | discriminate].
    left. split; congruence.
Qed.

(** One frame obeys the copy -> paste handoff. *)
Lemma main_loop_frame_handoff (f : frame) (s : state) :
  handoff (copy_confirmed s) (fired (trace_of (main_loop_frame f s)))
  = Some (copy_confirmed (state_of (main_loop_frame f s))).
Proof.
  destruct (main_loop_frame_cases f s) as (gm & gh & E & Hm & Hh).
  rewrite E, handoff_app.
  assert (Hgm : handoff (copy_confirmed s) gm = Some (copy_confirmed s)).
  { destruct Hm as [(-> & _) | ((g & -> & Hg) & _)]; [reflexivity | ].
    now rewrite handoff_motion. }
  rewrite Hgm.
  destruct Hh as [(-> & H) | [(-> & _ & H & H') | [(-> & _ & H & H') | (-> & _ & H)]]];
    simpl; rewrite ?H, ?H'; congruence.
Qed.

Lemma run_cons (f : frame) (fs : list frame) (s : state) :
  trace_of (run (f :: fs) s)
  = trace_of (main_loop_frame f s)
    ++ (if completed (main_loop_frame f s)
        then trace_of (run fs (state_of (main_loop_frame f s))) else [])
  /\ state_of (run (f :: fs) s)
     = if completed (main_loop_frame f s)
       then state_of (run fs (state_of (main_loop_frame f s)))
       else state_of (main_loop_frame f s).
Proof.
  simpl. destruct (main_loop_frame f s) as [[] s' tr | s' tr]; simpl.
  - destruct (run fs s'); simpl; auto.
  - now rewrite app_nil_r.
Qed.

(** Every run of the frame loop obeys the handoff. *)
Lemma run_handoff (fs : list frame) :
  forall s, handoff (copy_confirmed s) (fired (trace_of (run fs s)))
            = Some (copy_confirmed (state_of (run fs s))).
Proof.
  induction fs as [ | f fs IH]; intros s; [reflexivity | ].
  destruct (run_cons f fs s) as [-> ->].
  rewrite fired_app, handoff_app, main_loop_frame_handoff.
  destruct (completed (main_loop_frame f s)); [apply IH | reflexivity].
Qed.

(** A frame that does not show an open palm fires no [Paste]. *)
Lemma main_loop_frame_no_paste (f : frame) (s : state) :
  ~ shows 5 f ->
  count_gesture Paste (fired (trace_of (main_loop_frame f s))) = 0%nat.
Proof.
  intros Hn.
  destruct (main_loop_frame_cases f s) as (gm & gh & E & Hm & Hh).
  rewrite E, count_gesture_app.
  assert (Hgm : count_gesture Paste gm = 0%nat).
  { destruct Hm as [(-> & _) | ((g & -> & Hg) & _)]; [reflexivity | ].
    destruct g; try discriminate; reflexivity. }
  rewrite Hgm.
  destruct Hh as [(-> & H) | [(-> & _ & H & H') | [(-> & F & _) | (-> & _ & H)]]];
    try reflexivity.
  contradiction.
Qed.

Lemma run_no_paste (fs : list frame) :
  forall s, Forall (fun f => ~ shows 5 f) fs ->
            count_gesture Paste (fired (trace_of (run fs s))) = 0%nat.
Proof.
  induction fs as [ | f fs IH]; intros s Hall; [reflexivity | ].
  inversion Hall as [ | f' fs' Hf Hfs]; subst.
  destruct (run_cons f fs s) as [-> _].
  rewrite fired_app, count_gesture_app, main_loop_frame_no_paste by assumption.
  destruct (completed (main_loop_frame f s)); [now apply IH | reflexivity].
Qed.

(** While the cooldown clock is younger than COOLDOWN at every reading,
    no motion gesture fires and the clock is left alone. *)
Lemma run_cooldown (fs : list frame) :
  forall s,
    Forall (fun f => (time_motion (world f) - last_action_time s <? COOLDOWN) = true) fs ->
    motion_fired (trace_of (run fs s)) = []
    /\ last_action_time (state_of (run fs s)) = last_action_time s.
Proof.
  induction fs as [ | f fs IH]; intros s Hall; [split; reflexivity | ].
  inversion Hall as [ | f' fs' Hf Hfs]; subst.
  destruct (run_cons f fs s) as [-> ->].
  destruct (main_loop_frame_cases f s) as (gm & gh & E & Hm & Hh).
  destruct Hm as [(-> & Hl) | (_ & _ & Hcd)]; [ | congruence].
  assert (Hgh : filter is_motion gh = []).
  { destruct Hh as [(-> & _) | [(-> & _) | [(-> & _) | (-> & _)]]]; reflexivity. }
  rewrite motion_fired_app. unfold motion_fired at 1. rewrite E. simpl. rewrite Hgh.
  destruct (completed (main_loop_frame f s)).
  - rewrite <- Hl in Hfs. destruct (IH _ Hfs) as [-> ->]. auto.
  - auto.
Qed.

End gesture_drop_facts.

(** ** gesture_file_server.py: the sections of the frame body, one by one *)

Module gesture_file_server_facts.
Import gesture_file_server.

(** What the motion detector does: at most one gesture fires, a motion
    gesture, and then the clock was older than COOLDOWN and is set to the
    reading of this call; besides the histories nothing else changes. *)
Lemma detect_motion_gesture_frame (x y : float) (e : env) (s : state) :
  let r := detect_motion_gesture x y e s in
  let s' := state_of r in
  fist_start_time s' = fist_start_time s
  /\ open_start_time s' = open_start_time s
  /\ copy_done s' = copy_done s
  /\ shared_clipboard s' = shared_clipboard s
  /\ last_screenshot_time s' = last_screenshot_time s
  /\ hold_fired (trace_of r) = []
  /\ ((fired (trace_of r) = [] /\ last_action_time s' = last_action_time s)
      \/ ((exists g, fired (trace_of r) = [g] /\ is_motion g = true)
          /\ completed r = true
          /\ last_action_time s' = time_motion e
          /\ (COOLDOWN <? time_motion e - last_action_time s) = true)).
Proof.
  unfold detect_motion_gesture. cbv zeta.
  set (s1 := push_history x y s).
  assert (H1 : fist_start_time s1 = fist_start_time s
               /\ open_start_time s1 = open_start_time s
               /\ copy_done s1 = copy_done s
               /\ shared_clipboard s1 = shared_clipboard s
               /\ last_screenshot_time s1 = last_screenshot_time s
               /\ last_action_time s1 = last_action_time s).
  { subst s1. unfold push_history. cbv zeta.
    destruct (_ <? _)%nat; simpl; auto 10. }
  destruct H1 as (A & B & C & D & E & F). clearbody s1.
  rewrite F.
  split_tests; simpl; repeat split; auto;
    right; repeat split; auto; eexists; split; reflexivity.
Qed.

(** The histories after the call are the pushed ones, whatever fires. *)
Lemma detect_motion_gesture_history (x y : float) (e : env) (s : state) :
  let r := detect_motion_gesture x y e s in
  x_history (state_of r) = x_history (push_history x y s)
  /\ y_history (state_of r) = y_history (push_history x y s).
Proof.
  unfold detect_motion_gesture. cbv zeta.
  generalize (push_history x y s). intros s1.
  split_tests; simpl; auto.
Qed.

Lemma fs_copy_gesture_frame (total : nat) (now : float) (e : env) (s : state) :
  let s' := fst (copy_gesture total now e s) in
  let tr := snd (copy_gesture total now e s) in
  last_action_time s' = last_action_time s
  /\ x_history s' = x_history s /\ y_history s' = y_history s
  /\ open_start_time s' = open_start_time s
  /\ last_screenshot_time s' = last_screenshot_time s
  /\ ((fired tr = [] /\ copy_done s' = copy_done s
       /\ shared_clipboard s' = shared_clipboard s)
      \/ (fired tr = [Copy] /\ total = 0%nat
          /\ copy_done s = false /\ copy_done s' = true
          /\ fist_start_time s' = None
          /\ exists started, fist_start_time s = Some started
                             /\ (GESTURE_HOLD_TIME <? now - started) = true)).
Proof.
  unfold copy_gesture. cbv zeta.
  destruct (total =? 0)%nat eqn:Htot; [apply Nat.eqb_eq in Htot | now unchanged].
  destruct (fist_start_time s) as [started | ] eqn:Hfs; [ | now unchanged].
  destruct (GESTURE_HOLD_TIME <? now - started) eqn:Hhold; cbn [andb];
    [ | now unchanged].
  destruct (copy_done s) eqn:Hcc; cbn [andb negb]; [now unchanged | ].
  destruct (copy_hotkey_ok e); [ | now unchanged].
  destruct (clip_paste e) as [text | ]; [destruct (truthy text) | ]; simpl;
    repeat split; auto; right; repeat split; auto; exists started; auto.
Qed.

Lemma fs_paste_gesture_frame (total : nat) (now : float) (e : env) (s : state) :
  let s' := fst (paste_gesture total now e s) in
  let tr := snd (paste_gesture total now e s) in
  last_action_time s' = last_action_time s
  /\ x_history s' = x_history s /\ y_history s' = y_history s
  /\ fist_start_time s' = fist_start_time s
  /\ last_screenshot_time s' = last_screenshot_time s
  /\ shared_clipboard s' = shared_clipboard s
  /\ ((fired tr = [] /\ copy_done s' = copy_done s)
      \/ (fired tr = [Paste] /\ total = 5%nat
          /\ copy_done s = true /\ copy_done s' = false
          /\ open_start_time s' = None
          /\ exists started, open_start_time s = Some started
                             /\ (GESTURE_HOLD_TIME <? now - started) = true)).
Proof.
  unfold paste_gesture. cbv zeta.
  destruct (total =? 5)%nat eqn:Htot; [apply Nat.eqb_eq in Htot | now unchanged].
  destruct (open_start_time s) as [started | ] eqn:Hos; [ | now unchanged].
  destruct (GESTURE_HOLD_TIME <? now - started) eqn:Hhold; cbn [andb];
    [ | now unchanged].
  destruct (copy_done s) eqn:Hcc; [ | now unchanged].
  destruct (paste_hotkey_ok e); cbn [fst snd]; rewrite fired_app;
    match goal with
    | |- context [fired (if ?c then _ else _)] =>
        destruct c; [destruct (clip_copy_ok e) | ]
    end; simpl; repeat split; auto;
    right; repeat split; auto; exists started; auto.
Qed.

Lemma fs_screenshot_gesture_frame (fingers : list nat) (idx th : landmark)
    (now : float) (e : env) (s : state) :
  let s' := fst (screenshot_gesture fingers idx th now e s) in
  let tr := snd (screenshot_gesture fingers idx th now e s) in
  last_action_time s' = last_action_time s
  /\ x_history s' = x_history s /\ y_history s' = y_history s
  /\ fist_start_time s' = fist_start_time s
  /\ open_start_time s' = open_start_time s
  /\ copy_done s' = copy_done s
  /\ ((fired tr = [] /\ last_screenshot_time s' = last_screenshot_time s
       /\ shared_clipboard s' = shared_clipboard s)
      \/ (fired tr = [Screenshot]
          /\ nth 0 fingers 0%nat = 1%nat /\ nth 1 fingers 0%nat = 1%nat
          /\ sum (skipn 2 fingers) = 0%nat
          /\ last_screenshot_time s' = now
          /\ (SCREENSHOT_COOLDOWN <? now - last_screenshot_time s) = true)).
Proof.
  unfold screenshot_gesture. cbv zeta.
  destruct (nth 0 fingers 0 =? 1)%nat eqn:H0; cbn [andb]; [ | now unchanged].
  destruct (nth 1 fingers 0 =? 1)%nat eqn:H1; cbn [andb]; [ | now unchanged].
  destruct (sum (skipn 2 fingers) =? 0)%nat eqn:H2; cbn [andb]; [ | now unchanged].
  apply Nat.eqb_eq in H0, H1, H2.
  destruct (norm2 (lx th) (ly th) (lx idx) (ly idx) <? 0.05); cbn [andb];
    [ | now unchanged].
  destruct (SCREENSHOT_COOLDOWN <? now - last_screenshot_time s) eqn:Hcd;
    [ | now unchanged].
  destruct (screenshot_b64 e); [ | now unchanged].
  cbn [fst snd]. simpl fired.
  repeat (split; [reflexivity | ]). right. repeat split; auto.
Qed.

Lemma fs_hold_sections_frame (lm : hand_landmarks) (idx th : landmark)
    (now : float) (e : env) (s : state) :
  let fingers := get_finger_states lm in
  let c := copy_gesture (sum fingers) now e s in
  let p := paste_gesture (sum fingers) now e (fst c) in
  let h := screenshot_gesture fingers idx th now e (fst p) in
  let s' := fst h in
  let gs := fired (snd c ++ snd p ++ snd h) in
  last_action_time s' = last_action_time s
  /\ x_history s' = x_history s /\ y_history s' = y_history s
  /\ ((gs = [] /\ copy_done s' = copy_done s)
      \/ (gs = [Copy] /\ sum fingers = 0%nat
          /\ copy_done s = false /\ copy_done s' = true)
      \/ (gs = [Paste] /\ sum fingers = 5%nat
          /\ copy_done s = true /\ copy_done s' = false)
      \/ (gs = [Screenshot] /\ sum fingers = 2%nat
          /\ copy_done s' = copy_done s)).
Proof.
  intros fingers c p h s' gs.
  destruct (get_finger_states_eq lm) as (t & i & m & r & q & Hf & _).
  fold fingers in Hf.
  pose proof (fs_copy_gesture_frame (sum fingers) now e s) as Hc.
  pose proof (fs_paste_gesture_frame (sum fingers) now e (fst c)) as Hp.
  pose proof (fs_screenshot_gesture_frame fingers idx th now e (fst p)) as Hs.
  cbv zeta in Hc, Hp, Hs. fold c in Hc, Hp. fold p in Hp, Hs. fold h in Hs.
  destruct Hc as (Hc1 & Hc2 & Hc3 & _ & _ & Hc).
  destruct Hp as (Hp1 & Hp2 & Hp3 & _ & _ & _ & Hp).
  destruct Hs as (Hs1 & Hs2 & Hs3 & _ & _ & Hs5 & Hs).
  subst s' gs. rewrite !fired_app.
  repeat split; try congruence.
  assert (Htwo : nth 0 fingers 0%nat = 1%nat -> nth 1 fingers 0%nat = 1%nat ->
                 sum (skipn 2 fingers) = 0%nat -> sum fingers = 2%nat).
  { rewrite Hf. unfold sum. simpl. lia. }
  destruct Hc as [(Ec & Hc & _) | (Ec & Tc & Hc & Hc' & _)];
    destruct Hp as [(Ep & Hp) | (Ep & Tp & Hp & Hp' & _)];
    destruct Hs as [(Es & _) | (Es & A0 & A1 & A2 & _)];
    rewrite Ec, Ep, Es; simpl;
    try (specialize (Htwo A0 A1 A2)); try lia.
  - left. split; congruence.
  - right; right; right. repeat split; congruence.
  - right; right; left. repeat split; congruence.
  - right; left. repeat split; congruence.
Qed.

(** One frame: at most one hold / pinch gesture, followed by at most one
    motion gesture, from the motion detector at the end of the body. *)
Lemma main_frame_cases (f : frame) (s : state) :
  let r := main_frame f s in
  let s' := state_of r in
  exists gh gm,
    fired (trace_of r) = gh ++ gm
    /\ ((gm = [] /\ last_action_time s' = last_action_time s)
        \/ ((exists g, gm = [g] /\ is_motion g = true)
            /\ last_action_time s' = time_motion (world f)
            /\ (COOLDOWN <? time_motion (world f) - last_action_time s) = true))
    /\ ((gh = [] /\ copy_done s' = copy_done s)
        \/ (gh = [Copy] /\ shows 0 f
            /\ copy_done s = false /\ copy_done s' = true)
        \/ (gh = [Paste] /\ shows 5 f
            /\ copy_done s = true /\ copy_done s' = false)
        \/ (gh = [Screenshot] /\ shows 2 f
            /\ copy_done s' = copy_done s)).
Proof.
  unfold main_frame.
  destruct (hand f) as [lm | ] eqn:Hhand.
  2: { exists [], []. simpl. auto. }
  destruct (landmark_at lm 8) as [idx | ].
  2: { exists [], []. simpl. auto. }
  destruct (landmark_at lm 4) as [th | ].
  2: { exists [], []. simpl. auto. }
  cbv zeta.
  pose proof (fs_hold_sections_frame lm idx th (time_frame (world f)) (world f) s) as Hh.
  cbv zeta in Hh.
  set (c := copy_gesture _ _ _ s) in *.
  destruct c as [s1 trc]. cbn [fst snd] in Hh.
  set (p := paste_gesture _ _ _ s1) in *.
  destruct p as [s2 trp]. cbn [fst snd] in Hh.
  set (h := screenshot_gesture _ _ _ _ _ s2) in *.
  destruct h as [s3 trs]. cbn [fst snd] in Hh.
  destruct Hh as (Ht & _ & _ & Hh).
  pose proof (detect_motion_gesture_frame (lx idx) (ly idx) (world f) s3) as Hm.
  cbv zeta in Hm.
  assert (Hs : forall n, sum (get_finger_states lm) = n -> shows n f).
  { intros n E. exists lm. auto. }
  assert (Hgh :
    forall s', copy_done s' = copy_done s3 ->
      (fired (trc ++ trp ++ trs) = [] /\ copy_done s' = copy_done s)
      \/ (fired (trc ++ trp ++ trs) = [Copy] /\ shows 0 f
          /\ copy_done s = false /\ copy_done s' = true)
      \/ (fired (trc ++ trp ++ trs) = [Paste] /\ shows 5 f
          /\ copy_done s = true /\ copy_done s' = false)
      \/ (fired (trc ++ trp ++ trs) = [Screenshot] /\ shows 2 f
          /\ copy_done s' = copy_done s)).
  { intros s' E'.
    destruct Hh as [(E & H) | [(E & T & H & H') | [(E & T & H & H') | (E & T & H)]]].
    - left. split; congruence.
    - right; left. repeat split; auto; congruence.
    - right; right; left. repeat split; auto; congruence.
    - right; right; right. repeat split; auto; congruence. }
  destruct (detect_motion_gesture (lx idx) (ly idx) (world f) s3) as [u s4 trm | s4 trm];
    simpl in Hm; simpl;
    destruct Hm as (_ & _ & Hcd & _ & _ & _ & Hm);
    exists (fired (trc ++ trp ++ trs)), (fired trm);
    (split; [now rewrite <- !fired_app, <- !app_assoc | ]);
    (split; [ | now apply Hgh]).
  - destruct Hm as [(E & Hm) | (E & _ & Hm & Hc)]; [left | right].
    + split; congruence.
    + repeat split; congruence.
  - destruct Hm as [(E & Hm) | (_ & Hdone & _)]; [ | discriminate].
    left. split; congruence.
Qed.

Lemma main_frame_handoff (f : frame) (s : state) :
  handoff (copy_done s) (fired (trace_of (main_frame f s)))
  = Some (copy_done (state_of (main_frame f s))).
Proof.
  destruct (main_frame_cases f s) as (gh & gm & E & Hm & Hh).
  rewrite E, handoff_app.
  assert (Hgm : forall c, handoff c gm = Some c).
  { intros c. destruct Hm as [(-> & _) | ((g & -> & Hg) & _)]; [reflexivity | ].
    now rewrite handoff_motion. }
  destruct Hh as [(-> & H) | [(-> & _ & H & H') | [(-> & _ & H & H') | (-> & _ & H)]]];
    simpl; rewrite ?H, ?H'; simpl; rewrite Hgm; congruence.
Qed.

Lemma fs_run_cons (f : frame) (fs : list frame) (s : state) :
  trace_of (run (f :: fs) s)
  = trace_of (main_frame f s)
    ++ (if completed (main_frame f s)
        then trace_of (run fs (state_of (main_frame f s))) else [])
  /\ state_of (run (f :: fs) s)
     = if completed (main_frame f s)
       then state_of (run fs (state_of (main_frame f s)))
       else state_of (main_frame f s).
Proof.
  simpl. destruct (main_frame f s) as [[] s' tr | s' tr]; simpl.
  - destruct (run fs s'); simpl; auto.
  - now rewrite app_nil_r.
Qed.

Lemma fs_run_handoff (fs : list frame) :
  forall s, handoff (copy_done s) (fired (trace_of (run fs s)))
            = Some (copy_done (state_of (run fs s))).
Proof.
  induction fs as [ | f fs IH]; intros s; [reflexivity | ].
  destruct (fs_run_cons f fs s) as [-> ->].
  rewrite fired_app, handoff_app, main_frame_handoff.
  destruct (completed (main_frame f s)); [apply IH | reflexivity].
Qed.

Lemma main_frame_no_paste (f : frame) (s : state) :
  ~ shows 5 f ->
  count_gesture Paste (fired (trace_of (main_frame f s))) = 0%nat.
Proof.
  intros Hn.
  destruct (main_frame_cases f s) as (gh & gm & E & Hm & Hh).
  rewrite E, count_gesture_app.
  assert (Hgm : count_gesture Paste gm = 0%nat).
  { destruct Hm as [(-> & _) | ((g & -> & Hg) & _)]; [reflexivity | ].
    destruct g; try discriminate; reflexivity. }
  rewrite Hgm.
  destruct Hh as [(-> & H) | [(-> & _ & H & H') | [(-> & F & _) | (-> & _ & H)]]];
    try reflexivity.
  contradiction.
Qed.

Lemma fs_run_no_paste (fs : list frame) :
  forall s, Forall (fun f => ~ shows 5 f) fs ->
            count_gesture Paste (fired (trace_of (run fs s))) = 0%nat.
Proof.
  induction fs as [ | f fs IH]; intros s Hall; [reflexivity | ].
  inversion Hall as [ | f' fs' Hf Hfs]; subst.
  destruct (fs_run_cons f fs s) as [-> _].
  rewrite fired_app, count_gesture_app, main_frame_no_paste by assumption.
  destruct (completed (main_frame f s)); [now apply IH | reflexivity].
Qed.

(** While the cooldown clock is younger than COOLDOWN at every reading,
    no motion gesture fires and the clock is left alone. *)
Lemma fs_run_cooldown (fs : list frame) :
  forall s,
    Forall (fun f => (time_motion (world f) - last_action_time s <? COOLDOWN) = true) fs ->
    motion_fired (trace_of (run fs s)) = []
    /\ last_action_time (state_of (run fs s)) = last_action_time s.
Proof.
  induction fs as [ | f fs IH]; intros s Hall; [split; reflexivity | ].
  inversion Hall as [ | f' fs' Hf Hfs]; subst.
  destruct (fs_run_cons f fs s) as [-> ->].
  destruct (main_frame_cases f s) as (gh & gm & E & Hm & Hh).
  destruct Hm as [(-> & Hl) | (_ & _ & Hcd)].
  2: { apply float_ltb_asym in Hf. congruence. }
  assert (Hgh : filter is_motion gh = []).
  { destruct Hh as [(-> & _) | [(-> & _) | [(-> & _) | (-> & _)]]]; reflexivity. }
  rewrite motion_fired_app. unfold motion_fired at 1. rewrite E.
  rewrite app_nil_r, Hgh.
  destruct (completed (main_frame f s)).
  - rewrite <- Hl in Hfs. destruct (IH _ Hfs) as [-> ->]. auto.
  - auto.
Qed.

End gesture_file_server_facts.

(** * Main results *)

Lemma families_split (gm gh : list gesture) :
  (gm = [] \/ exists g, gm = [g] /\ is_motion g = true) ->
  (gh = [] \/ gh = [Copy] \/ gh = [Paste] \/ gh = [Screenshot]) ->
  filter is_motion (gm ++ gh) = gm
  /\ filter (fun g => negb (is_motion g)) (gm ++ gh) = gh
  /\ filter is_motion (gh ++ gm) = gm
  /\ filter (fun g => negb (is_motion g)) (gh ++ gm) = gh
  /\ (List.length gm <= 1)%nat /\ (List.length gh <= 1)%nat.
Proof.
  intros [-> | (g & -> & Hg)] [-> | [-> | [-> | ->]]]; simpl;
    rewrite ?Hg; simpl; auto 10.
Qed.

(** ** C1: how many gestures fire in one frame *)

(** C1, refuted as stated. From the initial state, a fist that rises while
    it is held fires two gestures in its second frame: the motion detector
    fires [ScrollUp] on the upward displacement, and the fist, held beyond
    the hold time (0.45 s; 0.5 s in gesture_file_server.py), fires [Copy].
    gesture_file_server.py fires the same two, in the other order. *)
Lemma C1_counterexample :
  (let s1 := gesture_drop.state_of
               (gesture_drop.main_loop_frame rising_fist_start gesture_drop.init) in
   let tr := gesture_drop.trace_of
               (gesture_drop.main_loop_frame (rising_fist_held 100.5) s1) in
   fired tr = [ScrollUp; Copy] /\ ~ (List.length (fired tr) <= 1)%nat)
  /\
  (let s1 := gesture_file_server.state_of
               (gesture_file_server.main_frame rising_fist_start
                  gesture_file_server.init) in
   let tr := gesture_file_server.trace_of
               (gesture_file_server.main_frame (rising_fist_held 100.75) s1) in
   fired tr = [Copy; ScrollUp] /\ ~ (List.length (fired tr) <= 1)%nat).
Proof.
  split; cbv zeta; (split; [vm_compute; reflexivity | ]).
  - replace (fired _) with [ScrollUp; Copy] by (vm_compute; reflexivity).
    simpl. lia.
  - replace (fired _) with [Copy; ScrollUp] by (vm_compute; reflexivity).
    simpl. lia.
Qed.

(** C1, amended. In every frame each gesture family fires at most once: at
    most one motion gesture (scroll or tab) and at most one of [Copy],
    [Paste], [Screenshot]. The two families are decided independently, so a
    frame fires at most two gestures, one of each family; in gesture_drop.py
    the motion gesture comes first, in gesture_file_server.py last. *)
Theorem C1_one_gesture_per_family :
  (forall f s,
      let tr := gesture_drop.trace_of (gesture_drop.main_loop_frame f s) in
      (List.length (motion_fired tr) <= 1)%nat
      /\ (List.length (hold_fired tr) <= 1)%nat
      /\ fired tr = motion_fired tr ++ hold_fired tr)
  /\
  (forall f s,
      let tr := gesture_file_server.trace_of (gesture_file_server.main_frame f s) in
      (List.length (motion_fired tr) <= 1)%nat
      /\ (List.length (hold_fired tr) <= 1)%nat
      /\ fired tr = hold_fired tr ++ motion_fired tr).
Proof.
  split; intros f s tr; subst tr; unfold motion_fired, hold_fired.
  - destruct (gesture_drop_facts.main_loop_frame_cases f s)
      as (gm & gh & E & Hm & Hh).
    rewrite E.
    destruct (families_split gm gh) as (-> & -> & _ & _ & Lm & Lh); auto.
    + destruct Hm as [(? & _) | (? & _)]; auto.
    + destruct Hh as [(? & _) | [(? & _) | [(? & _) | (? & _)]]]; auto.
  - destruct (gesture_file_server_facts.main_frame_cases f s)
      as (gh & gm & E & Hm & Hh).
    rewrite E.
    destruct (families_split gm gh) as (_ & _ & -> & -> & Lm & Lh); auto.
    + destruct Hm as [(? & _) | (? & _)]; auto.
    + destruct Hh as [(? & _) | [(? & _) | [(? & _) | (? & _)]]]; auto.
Qed.

(** ** C2: the one-shot copy -> paste handoff *)

Lemma in_hold_part (g : gesture) (gm gh : list gesture) :
  (gm = [] \/ exists m, gm = [m] /\ is_motion m = true) ->
  is_motion g = false -> In g (gm ++ gh) \/ In g (gh ++ gm) -> In g gh.
Proof.
  intros [-> | (m & -> & Hm)] Hg [H | H];
    rewrite ?app_nil_r in H; simpl in H; auto.
  - destruct H as [<- | H]; [congruence | assumption].
  - apply in_app_or in H. destruct H as [H | [<- | []]]; [assumption | congruence].
Qed.

(** C2. In both programs: a frame fires [Copy] only with the confirmation
    flag unset and sets it; a frame fires [Paste] only with the flag set and
    clears it; so over every run of the frame loop the fired gestures obey
    the handoff automaton, copies and pastes alternate starting with a copy
    (from the initial state), and a fist-hold episode, a run of frames that
    all show a fist, fires [Copy] at most once. *)
Theorem C2_copy_paste_handoff :
  (forall f s,
      let r := gesture_drop.main_loop_frame f s in
      (In Copy (fired (gesture_drop.trace_of r)) ->
       gesture_drop.copy_confirmed s = false
       /\ gesture_drop.copy_confirmed (gesture_drop.state_of r) = true)
      /\ (In Paste (fired (gesture_drop.trace_of r)) ->
          gesture_drop.copy_confirmed s = true
          /\ gesture_drop.copy_confirmed (gesture_drop.state_of r) = false))
  /\ (forall fs s,
         let r := gesture_drop.run fs s in
         handoff (gesture_drop.copy_confirmed s) (fired (gesture_drop.trace_of r))
         = Some (gesture_drop.copy_confirmed (gesture_drop.state_of r)))
  /\ (forall fs,
         let gs := fired (gesture_drop.trace_of (gesture_drop.run fs gesture_drop.init)) in
         (count_gesture Paste gs <= count_gesture Copy gs <= count_gesture Paste gs + 1)%nat)
  /\ (forall fs s,
         Forall (shows 0) fs ->
         (count_gesture Copy (fired (gesture_drop.trace_of (gesture_drop.run fs s))) <= 1)%nat)
  /\
  (forall f s,
      let r := gesture_file_server.main_frame f s in
      (In Copy (fired (gesture_file_server.trace_of r)) ->
       gesture_file_server.copy_done s = false
       /\ gesture_file_server.copy_done (gesture_file_server.state_of r) = true)
      /\ (In Paste (fired (gesture_file_server.trace_of r)) ->
          gesture_file_server.copy_done s = true
          /\ gesture_file_server.copy_done (gesture_file_server.state_of r) = false))
  /\ (forall fs s,
         let r := gesture_file_server.run fs s in
         handoff (gesture_file_server.copy_done s) (fired (gesture_file_server.trace_of r))
         = Some (gesture_file_server.copy_done (gesture_file_server.state_of r)))
  /\ (forall fs,
         let gs := fired (gesture_file_server.trace_of
                            (gesture_file_server.run fs gesture_file_server.init)) in
         (count_gesture Paste gs <= count_gesture Copy gs <= count_gesture Paste gs + 1)%nat)
  /\ (forall fs s,
         Forall (shows 0) fs ->
         (count_gesture Copy
            (fired (gesture_file_server.trace_of (gesture_file_server.run fs s))) <= 1)%nat).
Proof.
  assert (Hfist : forall fs, Forall (shows 0) fs -> Forall (fun f => ~ shows 5 f) fs).
  { intros fs. apply Forall_impl. intros f (lm & E & H0) (lm' & E' & H5).
    rewrite E in E'. injection E' as <-. rewrite H0 in H5. discriminate. }
  repeat match goal with |- _ /\ _ => split end.
  - intros f s r. subst r.
    destruct (gesture_drop_facts.main_loop_frame_cases f s) as (gm & gh & E & Hm & Hh).
    rewrite E.
    assert (Hgm : gm = [] \/ exists m, gm = [m] /\ is_motion m = true).
    { destruct Hm as [(? & _) | (? & _)]; auto. }
    split; intros H;
      (eapply or_introl, in_hold_part in H; [ | exact Hgm | reflexivity]);
      destruct Hh as [(-> & _) | [(-> & _ & A & B) | [(-> & _ & A & B) | (-> & _)]]];
      simpl in H; intuition discriminate.
  - intros fs s. apply gesture_drop_facts.run_handoff.
  - intros fs gs. subst gs.
    pose proof (handoff_balance _ _ _ (gesture_drop_facts.run_handoff fs gesture_drop.init)) as H.
    simpl in H.
    destruct (gesture_drop.copy_confirmed _); lia.
  - intros fs s Hall.
    pose proof (handoff_no_paste _ _ _ (gesture_drop_facts.run_handoff fs s)
                  (gesture_drop_facts.run_no_paste fs s (Hfist fs Hall))) as H.
    destruct (gesture_drop.copy_confirmed s); lia.
  - intros f s r. subst r.
    destruct (gesture_file_server_facts.main_frame_cases f s) as (gh & gm & E & Hm & Hh).
    rewrite E.
    assert (Hgm : gm = [] \/ exists m, gm = [m] /\ is_motion m = true).
    { destruct Hm as [(? & _) | (? & _)]; auto. }
    split; intros H;
      (eapply or_intror, in_hold_part in H; [ | exact Hgm | reflexivity]);
      destruct Hh as [(-> & _) | [(-> & _ & A & B) | [(-> & _ & A & B) | (-> & _)]]];
      simpl in H; intuition discriminate.
  - intros fs s. apply gesture_file_server_facts.fs_run_handoff.
  - intros fs gs. subst gs.
    pose proof (handoff_balance _ _ _
                  (gesture_file_server_facts.fs_run_handoff fs gesture_file_server.init)) as H.
    simpl in H.
    destruct (gesture_file_server.copy_done _); lia.
  - intros fs s Hall.
    pose proof (handoff_no_paste _ _ _ (gesture_file_server_facts.fs_run_handoff fs s)
                  (gesture_file_server_facts.fs_run_no_paste fs s (Hfist fs Hall))) as H.
    destruct (gesture_file_server.copy_done s); lia.
Qed.

(** The fist-hold episode [held_fist] satisfies the hypothesis of the
    episode bound of C2; the frame in which the rising fist comes due fires
    [Copy] with the flag unset, and the frame in which the open palm comes
    due fires [Paste] with the flag set. *)
Lemma C2_witness :
  (Forall (shows 0) held_fist
   /\ (count_gesture Copy
         (fired (gesture_drop.trace_of (gesture_drop.run held_fist gesture_drop.init)))
       <= 1)%nat)
  /\
  (let s := gesture_drop.state_of
              (gesture_drop.main_loop_frame rising_fist_start gesture_drop.init) in
   let r := gesture_drop.main_loop_frame (rising_fist_held 100.5) s in
   In Copy (fired (gesture_drop.trace_of r))
   /\ gesture_drop.copy_confirmed s = false
   /\ gesture_drop.copy_confirmed (gesture_drop.state_of r) = true)
  /\
  (let s := gesture_drop.state_of (gesture_drop.run copy_then_palm gesture_drop.init) in
   let r := gesture_drop.main_loop_frame (seen open_palm (calm 101.75 "hello")) s in
   In Paste (fired (gesture_drop.trace_of r))
   /\ gesture_drop.copy_confirmed s = true
   /\ gesture_drop.copy_confirmed (gesture_drop.state_of r) = false).
Proof.
  destruct C2_copy_paste_handoff as (Hframe & _ & _ & Hepisode & _).
  split; [ | split].
  - assert (H : Forall (shows 0) held_fist).
    { unfold held_fist. simpl map.
      repeat (apply Forall_cons;
              [eexists; split; [reflexivity | vm_compute; reflexivity] | ]).
      apply Forall_nil. }
    split; [exact H | exact (Hepisode held_fist gesture_drop.init H)].
  - cbv zeta.
    assert (H : In Copy
                  (fired (gesture_drop.trace_of
                            (gesture_drop.main_loop_frame (rising_fist_held 100.5)
                               (gesture_drop.state_of
                                  (gesture_drop.main_loop_frame rising_fist_start
                                     gesture_drop.init)))))).
    { vm_compute. auto. }
    split; [exact H | ].
    exact (proj1 (Hframe (rising_fist_held 100.5) _) H).
  - cbv zeta.
    assert (H : In Paste
                  (fired (gesture_drop.trace_of
                            (gesture_drop.main_loop_frame
                               (seen open_palm (calm 101.75 "hello"))
                               (gesture_drop.state_of
                                  (gesture_drop.run copy_then_palm gesture_drop.init)))))).
    { vm_compute. auto. }
    split; [exact H | ].
    exact (proj2 (Hframe (seen open_palm (calm 101.75 "hello")) _) H).
Defined.

Example held_fist_copies_once :
  fired (gesture_drop.trace_of (gesture_drop.run held_fist gesture_drop.init)) = [Copy]
  /\ fired (gesture_file_server.trace_of
              (gesture_file_server.run held_fist gesture_file_server.init)) = [Copy].
Proof. split; vm_compute; reflexivity. Qed.

(** ** C3: a write of the slot racing a read *)

Module shared_slot_facts.
Import shared_slot.

Lemma step_invariant (old : clipboard) (k v : string) (t : thread) (c : config) :
  writer_at old k v c /\ reader_at old k v c ->
  writer_at old k v (step t c) /\ reader_at old k v (step t c).
Proof.
  unfold writer_at, reader_at, write_program, read_program.
  destruct c as [[sl st sv] w r]. simpl.
  intros [[(Hw & Hs) | [(Hw & Hs) | (Hw & Hs)]]
          [(Hr & Ht & Hv) | [(Hr & Ht & Hv) | (Hr & Ht & Hv)]]];
    subst w r sl; destruct t; simpl; destruct old as [k0 v0]; simpl in *;
    split; auto 10.
Qed.

Lemma interleave_invariant (old : clipboard) (k v : string) (schedule : list thread) :
  forall c, writer_at old k v c /\ reader_at old k v c ->
            writer_at old k v (interleave schedule c)
            /\ reader_at old k v (interleave schedule c).
Proof.
  unfold interleave.
  induction schedule as [ | t schedule IH]; intros c H; simpl; [exact H | ].
  apply IH, step_invariant, H.
Qed.

Lemma race_invariant (old : clipboard) (k v : string) :
  writer_at old k v (race old k v) /\ reader_at old k v (race old k v).
Proof. split; left; simpl; auto. Qed.

End shared_slot_facts.

(** C3, refuted as stated. The slot holds a screenshot when a copied text
    is written over it. A read scheduled between the writer's two stores
    returns the new type with the old value, the image data labelled as
    text; a read whose two loads straddle the whole write returns the old
    type with the new value. Neither is the prior pair or the new pair. *)
Lemma C3_counterexample :
  let between := shared_slot.interleave
                   [shared_slot.Writer; shared_slot.Reader; shared_slot.Reader;
                    shared_slot.Writer]
                   (shared_slot.race image_slot "text" "hello") in
  let astride := shared_slot.interleave
                   [shared_slot.Reader; shared_slot.Writer; shared_slot.Writer;
                    shared_slot.Reader]
                   (shared_slot.race image_slot "text" "hello") in
  shared_slot.finished between = true
  /\ shared_slot.observed between = Some ("text", "iVBORw0KGgo=")
  /\ shared_slot.finished astride = true
  /\ shared_slot.observed astride = Some ("image", "hello")
  /\ ~ (shared_slot.observed between = Some ("image", "iVBORw0KGgo=")
        \/ shared_slot.observed between = Some ("text", "hello"))
  /\ ~ (shared_slot.observed astride = Some ("image", "iVBORw0KGgo=")
        \/ shared_slot.observed astride = Some ("text", "hello")).
Proof.
  cbv zeta. repeat split; try reflexivity;
    intros [H | H]; vm_compute in H; discriminate.
Qed.

(** C3, amended. The two stores of a write and the two loads of a read are
    each atomic, the pair is not. Under every schedule of a write of
    [(k, v)] racing a read, once both have finished the slot holds the new
    pair and the read has returned a type that is the old or the new one and
    a value that is the old or the new one, in any of the four combinations.
    A read that runs wholly before the write returns the prior pair, and one
    that runs wholly after it the new pair. The writer's program run alone
    is [safe_copy_to_shared], the reader's is [api_get_clipboard]. *)
Theorem C3_fields_atomic_pair_not :
  (forall schedule old k v,
      let c := shared_slot.interleave schedule (shared_slot.race old k v) in
      shared_slot.finished c = true ->
      shared_slot.slot (shared_slot.mem c) = {| c_type := k; c_value := v |}
      /\ exists k' v',
           shared_slot.observed c = Some (k', v')
           /\ (k' = c_type old \/ k' = k) /\ (v' = c_value old \/ v' = v))
  /\ (forall old k v,
         shared_slot.observed
           (shared_slot.interleave
              [shared_slot.Reader; shared_slot.Reader; shared_slot.Writer;
               shared_slot.Writer] (shared_slot.race old k v))
         = Some (c_type old, c_value old)
         /\ shared_slot.observed
              (shared_slot.interleave
                 [shared_slot.Writer; shared_slot.Writer; shared_slot.Reader;
                  shared_slot.Reader] (shared_slot.race old k v))
            = Some (k, v))
  /\ (forall s text,
         truthy text = true ->
         shared_slot.slot
           (shared_slot.mem
              (shared_slot.interleave [shared_slot.Writer; shared_slot.Writer]
                 (shared_slot.race (gesture_drop.shared_clipboard s) "text" text)))
         = gesture_drop.shared_clipboard (gesture_drop.safe_copy_to_shared s text))
  /\ (forall s k v,
         shared_slot.observed
           (shared_slot.interleave [shared_slot.Reader; shared_slot.Reader]
              (shared_slot.race (gesture_drop.shared_clipboard s) k v))
         = Some (gesture_drop.api_get_clipboard s)).
Proof.
  repeat match goal with |- _ /\ _ => split end.
  - intros schedule old k v c Hfin.
    destruct (shared_slot_facts.interleave_invariant old k v schedule _
                (shared_slot_facts.race_invariant old k v)) as [Hw Hr].
    fold c in Hw, Hr. unfold shared_slot.finished in Hfin.
    unfold writer_at, reader_at, shared_slot.write_program,
      shared_slot.read_program in Hw, Hr.
    destruct Hw as [(Hw & _) | [(Hw & _) | (Hw & Hs)]];
      try (rewrite Hw in Hfin; discriminate).
    destruct Hr as [(Hr & _) | [(Hr & _) | (Hr & Ht & Hv)]];
      try (rewrite Hw, Hr in Hfin; discriminate).
    split; [exact Hs | ].
    unfold shared_slot.observed. rewrite Hr.
    destruct Ht as [-> | ->], Hv as [-> | ->]; eauto 10.
  - intros old k v. split; reflexivity.
  - intros s text Ht. unfold gesture_drop.safe_copy_to_shared. rewrite Ht.
    reflexivity.
  - reflexivity.
Qed.

(** Under the schedule that puts the read between the two stores, the
    hypothesis of C3 holds and the read returns a mixed pair. *)
Lemma C3_witness :
  let c := shared_slot.interleave
             [shared_slot.Writer; shared_slot.Reader; shared_slot.Reader;
              shared_slot.Writer]
             (shared_slot.race image_slot "text" "hello") in
  shared_slot.finished c = true
  /\ shared_slot.slot (shared_slot.mem c) = {| c_type := "text"; c_value := "hello" |}
  /\ exists k' v',
       shared_slot.observed c = Some (k', v')
       /\ (k' = c_type image_slot \/ k' = "text")
       /\ (v' = c_value image_slot \/ v' = "hello").
Proof.
  intros c.
  assert (H : shared_slot.finished c = true) by reflexivity.
  split; [exact H | ].
  destruct C3_fields_atomic_pair_not as (Hrace & _).
  exact (Hrace [shared_slot.Writer; shared_slot.Reader; shared_slot.Reader;
                shared_slot.Writer] image_slot "text" "hello" H).
Defined.

(** ** C4: the write paths of the HTTP interface *)

(** C4, refuted as stated for gesture_file_server.py: a POST of a JSON text
    to /upload_clipboard replaces the slot, and so does an uploaded image. *)
Lemma C4_counterexample :
  gesture_file_server.shared_clipboard
    (fst (gesture_file_server.handle "192.168.1.20" (upload_text "from the phone")
            gesture_file_server.init))
  = {| c_type := "text"; c_value := "from the phone" |}
  /\ gesture_file_server.shared_clipboard
       (fst (gesture_file_server.handle "192.168.1.20" (upload_image "iVBORw0KGgo=")
               gesture_file_server.init))
     = {| c_type := "image"; c_value := "iVBORw0KGgo=" |}
  /\ gesture_file_server.shared_clipboard
       (fst (gesture_file_server.handle "192.168.1.20" (upload_text "from the phone")
               gesture_file_server.init))
     <> gesture_file_server.shared_clipboard gesture_file_server.init.
Proof.
  repeat split; try reflexivity. vm_compute. discriminate.
Qed.

(** C4, amended. The HTTP interface of gesture_drop.py has no write path:
    every request leaves every global, the slot included, as it is. The
    interface of gesture_file_server.py never touches the gesture state, and
    changes the slot only in its upload view: on a POST to /upload_clipboard
    that carries a JSON text, which becomes the slot's text, or else an
    image file, whose base64 text becomes the slot's image. *)
Theorem C4_http_write_paths :
  (forall ip r s, fst (gesture_drop.handle ip r s) = s)
  /\
  (forall ip r s,
      let s' := fst (gesture_file_server.handle ip r s) in
      (s' = s
       \/ (req_path r = "/upload_clipboard" /\ req_method r = "POST"
           /\ ((exists text, req_is_json r = true /\ req_json_text r = Some text
                             /\ gesture_file_server.shared_clipboard s'
                                = {| c_type := "text"; c_value := text |})
               \/ (exists b64, req_image r = Some b64
                               /\ gesture_file_server.shared_clipboard s'
                                  = {| c_type := "image"; c_value := b64 |}))))
      /\ gesture_file_server.copy_done s' = gesture_file_server.copy_done s
      /\ gesture_file_server.fist_start_time s' = gesture_file_server.fist_start_time s
      /\ gesture_file_server.open_start_time s' = gesture_file_server.open_start_time s
      /\ gesture_file_server.last_action_time s' = gesture_file_server.last_action_time s
      /\ gesture_file_server.last_screenshot_time s'
         = gesture_file_server.last_screenshot_time s
      /\ gesture_file_server.x_history s' = gesture_file_server.x_history s
      /\ gesture_file_server.y_history s' = gesture_file_server.y_history s).
Proof.
  split.
  - intros ip r s. unfold gesture_drop.handle. split_tests; reflexivity.
  - intros ip r s. unfold gesture_file_server.handle.
    destruct (String.eqb (req_path r) "/get_clipboard");
      [destruct (is_get (req_method r)); simpl; auto 10 | ].
    destruct (String.eqb (req_path r) "/upload_clipboard") eqn:Hp.
    2: { destruct (String.eqb (req_path r) "/ip");
         [destruct (is_get (req_method r)) | ]; simpl; auto 10. }
    destruct (String.eqb (req_method r) "POST") eqn:Hm; [ | simpl; auto 10].
    apply String.eqb_eq in Hp, Hm.
    unfold gesture_file_server.upload_clipboard. cbv zeta.
    destruct (req_is_json r) eqn:Hj.
    + destruct (req_json_text r) as [text | ] eqn:Ht.
      * simpl. repeat split; auto. right. repeat split; auto.
        left. exists text. auto.
      * destruct (req_image r) as [b64 | ] eqn:Hi; simpl; [ | auto 10].
        repeat split; auto. right. repeat split; auto.
        right. exists b64. auto.
    + destruct (req_image r) as [b64 | ] eqn:Hi; simpl; [ | auto 10].
      repeat split; auto. right. repeat split; auto.
      right. exists b64. auto.
Qed.

(** A read request returns the slot and leaves it alone, in both programs. *)
Example read_slot_reads :
  forall s s',
    gesture_drop.handle "192.168.1.20" read_slot s
    = (s, {| status := 200;
             body := [("type", c_type (gesture_drop.shared_clipboard s));
                      ("value", c_value (gesture_drop.shared_clipboard s))] |})
    /\ gesture_file_server.handle "192.168.1.20" read_slot s'
       = (s', gesture_file_server.get_clipboard s').
Proof. intros s s'. split; reflexivity. Qed.

(** ** C5: the motion cooldown *)

(** C5. In both programs a frame that fires a motion gesture sets the
    cooldown clock [last_action_time] to the clock reading of its motion
    detector, and it fires only when the age of the clock is not below
    COOLDOWN (strictly above it in gesture_file_server.py). Whatever the
    hold timers, the confirmation flag, the finger configurations and the
    displacements are, as long as every reading of the clock's age is below
    COOLDOWN the frame loop fires no scroll and no tab gesture and leaves the
    clock as it is. *)
Theorem C5_motion_cooldown :
  (forall f s,
      let r := gesture_drop.main_loop_frame f s in
      motion_fired (gesture_drop.trace_of r) <> [] ->
      gesture_drop.last_action_time (gesture_drop.state_of r) = time_motion (world f)
      /\ (time_motion (world f) - gesture_drop.last_action_time s
          <? gesture_drop.COOLDOWN) = false)
  /\ (forall fs s,
         Forall (fun f => (time_motion (world f) - gesture_drop.last_action_time s
                           <? gesture_drop.COOLDOWN) = true) fs ->
         let r := gesture_drop.run fs s in
         motion_fired (gesture_drop.trace_of r) = []
         /\ gesture_drop.last_action_time (gesture_drop.state_of r)
            = gesture_drop.last_action_time s)
  /\
  (forall f s,
      let r := gesture_file_server.main_frame f s in
      motion_fired (gesture_file_server.trace_of r) <> [] ->
      gesture_file_server.last_action_time (gesture_file_server.state_of r)
      = time_motion (world f)
      /\ (gesture_file_server.COOLDOWN
          <? time_motion (world f) - gesture_file_server.last_action_time s) = true)
  /\ (forall fs s,
         Forall (fun f => (time_motion (world f) - gesture_file_server.last_action_time s
                           <? gesture_file_server.COOLDOWN) = true) fs ->
         let r := gesture_file_server.run fs s in
         motion_fired (gesture_file_server.trace_of r) = []
         /\ gesture_file_server.last_action_time (gesture_file_server.state_of r)
            = gesture_file_server.last_action_time s).
Proof.
  repeat match goal with |- _ /\ _ => split end.
  - intros f s r Hfire. subst r. unfold motion_fired in Hfire.
    destruct (gesture_drop_facts.main_loop_frame_cases f s) as (gm & gh & E & Hm & Hh).
    rewrite E in Hfire.
    destruct (families_split gm gh) as (Eg & _); auto.
    + destruct Hm as [(? & _) | (? & _)]; auto.
    + destruct Hh as [(? & _) | [(? & _) | [(? & _) | (? & _)]]]; auto.
    + rewrite Eg in Hfire.
      destruct Hm as [(-> & _) | (_ & Hm)]; [congruence | exact Hm].
  - intros fs s Hall. apply gesture_drop_facts.run_cooldown, Hall.
  - intros f s r Hfire. subst r. unfold motion_fired in Hfire.
    destruct (gesture_file_server_facts.main_frame_cases f s) as (gh & gm & E & Hm & Hh).
    rewrite E in Hfire.
    destruct (families_split gm gh) as (_ & _ & Eg & _); auto.
    + destruct Hm as [(? & _) | (? & _)]; auto.
    + destruct Hh as [(? & _) | [(? & _) | [(? & _) | (? & _)]]]; auto.
    + rewrite Eg in Hfire.
      destruct Hm as [(-> & _) | (_ & Hm)]; [congruence | exact Hm].
  - intros fs s Hall. apply gesture_file_server_facts.fs_run_cooldown, Hall.
Qed.

(** The second frame of the sweep fires [ScrollUp] and sets the clock to
    its reading. The frames of the half second that follows keep the EMA
    over the threshold, satisfy the hypothesis of the cooldown bound of C5,
    and fire nothing. *)
Lemma C5_witness :
  (let s0 := gesture_drop.state_of
               (gesture_drop.run (firstn 1 sweep_up) gesture_drop.init) in
   let r := gesture_drop.main_loop_frame
              (seen (pointing_at 0.5 0.125) (calm 100.03125 "hello")) s0 in
   motion_fired (gesture_drop.trace_of r) <> []
   /\ gesture_drop.last_action_time (gesture_drop.state_of r) = 100.03125)
  /\
  (let s := gesture_drop.state_of (gesture_drop.run sweep_up gesture_drop.init) in
   fired (gesture_drop.trace_of (gesture_drop.run sweep_up gesture_drop.init)) = [ScrollUp]
   /\ Forall (fun f => (time_motion (world f) - gesture_drop.last_action_time s
                        <? gesture_drop.COOLDOWN) = true) sweep_goes_on
   /\ motion_fired (gesture_drop.trace_of (gesture_drop.run sweep_goes_on s)) = []
   /\ gesture_drop.last_action_time (gesture_drop.state_of (gesture_drop.run sweep_goes_on s))
      = gesture_drop.last_action_time s).
Proof.
  destruct C5_motion_cooldown as (Hfire & Hrun & _).
  split.
  - cbv zeta.
    assert (H : motion_fired
                  (gesture_drop.trace_of
                     (gesture_drop.main_loop_frame
                        (seen (pointing_at 0.5 0.125) (calm 100.03125 "hello"))
                        (gesture_drop.state_of
                           (gesture_drop.run (firstn 1 sweep_up) gesture_drop.init))))
                <> []).
    { vm_compute. discriminate. }
    split; [exact H | ].
    exact (proj1 (Hfire (seen (pointing_at 0.5 0.125) (calm 100.03125 "hello")) _ H)).
  - intros s.
    assert (H : Forall (fun f => (time_motion (world f) - gesture_drop.last_action_time s
                                  <? gesture_drop.COOLDOWN) = true) sweep_goes_on).
    { unfold sweep_goes_on.
      repeat (apply Forall_cons; [vm_compute; reflexivity | ]). apply Forall_nil. }
    split; [vm_compute; reflexivity | ].
    split; [exact H | ].
    exact (Hrun sweep_goes_on s H).
Defined.

(** The same frames, replayed once the cooldown is over, do fire: it is the
    cooldown that silences them. *)
Example sweep_fires_after_cooldown :
  let s := gesture_drop.state_of (gesture_drop.run sweep_up gesture_drop.init) in
  motion_fired
    (gesture_drop.trace_of
       (gesture_drop.main_loop_frame (seen (pointing_at 0.5 0.875) (calm 101 "hello")) s))
  = [ScrollUp].
Proof. vm_compute. reflexivity. Qed.

(** ** C6: the frame without a hand *)

(** C6, refuted as stated for gesture_file_server.py, whose frame body has
    no branch for a missing hand: after a fist has started its hold timer,
    a frame without a hand leaves the histories and the timer as they are. *)
Lemma C6_counterexample :
  let s := gesture_file_server.state_of
             (gesture_file_server.main_frame rising_fist_start gesture_file_server.init) in
  let s' := gesture_file_server.state_of
              (gesture_file_server.main_frame (no_hand (calm 100.0625 "hello")) s) in
  gesture_file_server.fist_start_time s' = Some 100
  /\ gesture_file_server.x_history s' = [0.5]
  /\ gesture_file_server.y_history s' = [0.875]
  /\ ~ (gesture_file_server.x_history s' = []
        /\ gesture_file_server.y_history s' = []
        /\ gesture_file_server.fist_start_time s' = None
        /\ gesture_file_server.open_start_time s' = None).
Proof.
  cbv zeta. repeat split; try (vm_compute; reflexivity).
  intros (_ & _ & H & _). vm_compute in H. discriminate.
Qed.

(** C6, amended. In gesture_drop.py every frame without a hand completes,
    fires nothing, clears the motion history and resets both hold timers,
    and leaves the copy-confirmation flag (and the clocks, the EMA pair and
    the slot) as they were. In both programs the copy-confirmation flag
    survives the loss of the hand; gesture_file_server.py does nothing at
    all on such a frame. *)
Theorem C6_no_hand_frame :
  (forall w s,
      let r := gesture_drop.main_loop_frame (no_hand w) s in
      let s' := gesture_drop.state_of r in
      gesture_drop.completed r = true
      /\ gesture_drop.trace_of r = []
      /\ gesture_drop.pos_history s' = []
      /\ gesture_drop.fist_start s' = None
      /\ gesture_drop.open_start s' = None
      /\ gesture_drop.copy_confirmed s' = gesture_drop.copy_confirmed s
      /\ gesture_drop.last_action_time s' = gesture_drop.last_action_time s
      /\ gesture_drop.last_screenshot_time s' = gesture_drop.last_screenshot_time s
      /\ gesture_drop.shared_clipboard s' = gesture_drop.shared_clipboard s)
  /\
  (forall w s,
      gesture_file_server.main_frame (no_hand w) s = gesture_file_server.Ok tt s []).
Proof.
  split; intros w s; simpl; auto 10.
Qed.

(** ** C7: axis dominance of the motion classification *)

(** C7. When the cooldown has elapsed (and the injected action returns),
    the motion detector of gesture_drop.py classifies the updated EMA pair
    [(ex, ey)] by strict dominance: with [|ey|] over the scroll threshold and
    [|ey| > |ex|] it fires [ScrollUp] when [ey < 0] and [ScrollDown]
    otherwise; with [|ex|] over the tab threshold and [|ex| > |ey|] it fires
    [NextTab] when [ex > 0] and [PrevTab] otherwise; so when both are over
    their thresholds the larger magnitude decides, and on equal magnitudes
    nothing fires. gesture_file_server.py classifies the windowed
    displacement [(dx, dy)] of its updated histories in the same way. *)
Theorem C7_axis_dominance :
  (forall dx dy e s,
      let r := gesture_drop.update_motion_and_detect dx dy e s in
      let ex := gesture_drop.ema_dx (gesture_drop.state_of r) in
      let ey := gesture_drop.ema_dy (gesture_drop.state_of r) in
      (time_motion e - gesture_drop.last_action_time s <? gesture_drop.COOLDOWN) = false ->
      motion_call_ok e = true ->
      ((gesture_drop.SCROLL_THRESHOLD <? abs ey) = true -> (abs ex <? abs ey) = true ->
       fired (gesture_drop.trace_of r) = [if ey <? 0 then ScrollUp else ScrollDown])
      /\ ((gesture_drop.TAB_THRESHOLD <? abs ex) = true -> (abs ey <? abs ex) = true ->
          fired (gesture_drop.trace_of r) = [if 0 <? ex then NextTab else PrevTab])
      /\ ((abs ex =? abs ey) = true -> fired (gesture_drop.trace_of r) = []))
  /\
  (forall x y e s,
      let r := gesture_file_server.detect_motion_gesture x y e s in
      let xs := gesture_file_server.x_history (gesture_file_server.state_of r) in
      let ys := gesture_file_server.y_history (gesture_file_server.state_of r) in
      let dx := last xs 0 - hd 0 xs in
      let dy := last ys 0 - hd 0 ys in
      (gesture_file_server.COOLDOWN
         <? time_motion e - gesture_file_server.last_action_time s) = true ->
      motion_call_ok e = true ->
      ((gesture_file_server.SCROLL_THRESHOLD <? abs dy) = true -> (abs dx <? abs dy) = true ->
       fired (gesture_file_server.trace_of r) = [if dy <? 0 then ScrollUp else ScrollDown])
      /\ ((gesture_file_server.TAB_THRESHOLD <? abs dx) = true -> (abs dy <? abs dx) = true ->
          fired (gesture_file_server.trace_of r) = [if 0 <? dx then NextTab else PrevTab])
      /\ ((abs dx =? abs dy) = true -> fired (gesture_file_server.trace_of r) = [])).
Proof.
  split.
  - intros dx dy e s r ex ey Hcool Hok.
    destruct (gesture_drop_facts.update_motion_and_detect_frame dx dy e s)
      as (Ex & Ey & _).
    fold r in Ex, Ey. fold ex in Ex. fold ey in Ey.
    clearbody ex ey. subst ex ey.
    subst r. unfold gesture_drop.update_motion_and_detect. cbv zeta.
    cbn [gesture_drop.ema_dx gesture_drop.ema_dy gesture_drop.last_action_time
         gesture_drop.set_ema_dx gesture_drop.set_ema_dy].
    rewrite Hcool, Hok. cbn [negb].
    set (ex := (gesture_drop.EMA_ALPHA * dx + _)%float).
    set (ey := (gesture_drop.EMA_ALPHA * dy + _)%float).
    repeat split.
    + intros H1 H2. rewrite H1, H2. cbn [andb].
      destruct (ey <? 0); reflexivity.
    + intros H1 H2. rewrite (float_ltb_asym _ _ H2), andb_false_r, H1, H2.
      cbn [andb]. destruct (0 <? ex); reflexivity.
    + intros H. destruct (float_eqb_not_ltb _ _ H) as [H1 H2].
      rewrite H1, H2, !andb_false_r. reflexivity.
  - intros x y e s r xs ys dx dy Hcool Hok.
    destruct (gesture_file_server_facts.detect_motion_gesture_history x y e s)
      as (Ex & Ey).
    fold r in Ex, Ey. fold xs in Ex. fold ys in Ey.
    clearbody xs ys. subst xs ys.
    subst r. unfold gesture_file_server.detect_motion_gesture. cbv zeta.
    set (s1 := gesture_file_server.push_history x y s) in *.
    assert (Hl : gesture_file_server.last_action_time s1
                 = gesture_file_server.last_action_time s).
    { subst s1. unfold gesture_file_server.push_history. cbv zeta.
      destruct (_ <? _)%nat; reflexivity. }
    clearbody s1. fold dx dy.
    rewrite Hl, Hcool, Hok. cbn [negb].
    repeat split.
    + intros H1 H2. rewrite H1, H2. cbn [andb].
      destruct (dy <? 0); reflexivity.
    + intros H1 H2. rewrite (float_ltb_asym _ _ H2), andb_false_r, H1, H2.
      cbn [andb]. destruct (0 <? dx); reflexivity.
    + intros H. destruct (float_eqb_not_ltb _ _ H) as [H1 H2].
      rewrite H1, H2, !andb_false_r. reflexivity.
Qed.

(** From the initial state, an upward jump of the fingertip satisfies the
    hypotheses of the scroll case of C7 in both programs, a jump to the
    right those of the tab case, and a diagonal jump those of the tie. *)
Lemma C7_witness :
  ((time_motion (calm 100 "hello") - gesture_drop.last_action_time gesture_drop.init
      <? gesture_drop.COOLDOWN) = false
   /\ motion_call_ok (calm 100 "hello") = true
   /\ fired (gesture_drop.trace_of
               (gesture_drop.update_motion_and_detect 0 (-0.75) (calm 100 "hello")
                  gesture_drop.init)) = [ScrollUp]
   /\ fired (gesture_drop.trace_of
               (gesture_drop.update_motion_and_detect 0.75 0 (calm 100 "hello")
                  gesture_drop.init)) = [NextTab]
   /\ fired (gesture_drop.trace_of
               (gesture_drop.update_motion_and_detect 0.5 (-0.5) (calm 100 "hello")
                  gesture_drop.init)) = [])
  /\
  ((gesture_file_server.COOLDOWN
      <? time_motion (calm 100 "hello")
         - gesture_file_server.last_action_time gesture_file_server.init) = true
   /\ fired (gesture_file_server.trace_of
               (gesture_file_server.detect_motion_gesture 0.5 0.125 (calm 100 "hello")
                  (gesture_file_server.set_history gesture_file_server.init
                     [0.5] [0.875]))) = [ScrollUp]).
Proof.
  assert (Hcool : (time_motion (calm 100 "hello")
                   - gesture_drop.last_action_time gesture_drop.init
                   <? gesture_drop.COOLDOWN) = false) by (vm_compute; reflexivity).
  assert (Hcool' : (gesture_file_server.COOLDOWN
                    <? time_motion (calm 100 "hello")
                       - gesture_file_server.last_action_time gesture_file_server.init)
                   = true) by (vm_compute; reflexivity).
  assert (Hok : motion_call_ok (calm 100 "hello") = true) by reflexivity.
  destruct C7_axis_dominance as [Hdrop Hserver].
  split; [split; [exact Hcool | split; [exact Hok | split; [ | split]]]
         | split; [exact Hcool' | ]].
  - destruct (Hdrop 0 (-0.75) (calm 100 "hello") gesture_drop.init Hcool Hok)
      as (Hscroll & _ & _).
    apply Hscroll; vm_compute; reflexivity.
  - destruct (Hdrop 0.75 0 (calm 100 "hello") gesture_drop.init Hcool Hok)
      as (_ & Htab & _).
    apply Htab; vm_compute; reflexivity.
  - destruct (Hdrop 0.5 (-0.5) (calm 100 "hello") gesture_drop.init Hcool Hok)
      as (_ & _ & Htie).
    apply Htie; vm_compute; reflexivity.
  - destruct (Hserver 0.5 0.125 (calm 100 "hello")
                (gesture_file_server.set_history gesture_file_server.init [0.5] [0.875])
                Hcool' Hok) as (Hscroll & _ & _).
    apply Hscroll; vm_compute; reflexivity.
Defined.

(** Equal magnitudes over both thresholds fire nothing, whatever the signs. *)
Example tie_fires_nothing :
  fired (gesture_drop.trace_of
           (gesture_drop.update_motion_and_detect 0.5 (-0.5) (calm 100 "hello")
              gesture_drop.init)) = []
  /\ fired (gesture_file_server.trace_of
              (gesture_file_server.detect_motion_gesture 0.75 0.25 (calm 100 "hello")
                 (gesture_file_server.set_history gesture_file_server.init
                    [0.25] [0.75]))) = [].
Proof. split; vm_compute; reflexivity. Qed.

(** ** C8: a failing OS clipboard call during Copy or Paste *)

(** C8, refuted as stated. A fist is held and the copy comes due while
    [pyperclip.paste()] raises: the warning is printed, yet the confirmation
    flag goes from unset to set, as if the copy had transferred something.
    Later an open palm is held and the paste comes due while
    [pyperclip.copy(...)] raises: the warning is printed, yet the flag is
    cleared, as if the paste had been fed. *)
Lemma C8_counterexample :
  (let s := gesture_drop.state_of
              (gesture_drop.main_loop_frame (still_fist (calm 100 "hello"))
                 gesture_drop.init) in
   let r := gesture_drop.main_loop_frame (still_fist (paste_raises 100.5)) s in
   In (Print "[WARN] pyperclip.paste failed:") (gesture_drop.trace_of r)
   /\ gesture_drop.copy_confirmed s = false
   /\ gesture_drop.copy_confirmed (gesture_drop.state_of r) = true
   /\ gesture_drop.copy_confirmed (gesture_drop.state_of r)
      <> gesture_drop.copy_confirmed s)
  /\
  (let s := gesture_drop.state_of (gesture_drop.run copy_then_palm gesture_drop.init) in
   let r := gesture_drop.main_loop_frame palm_held_copy_raises s in
   In (Print "[WARN] pyperclip.copy failed:") (gesture_drop.trace_of r)
   /\ gesture_drop.copy_confirmed s = true
   /\ gesture_drop.copy_confirmed (gesture_drop.state_of r) = false
   /\ gesture_drop.copy_confirmed (gesture_drop.state_of r)
      <> gesture_drop.copy_confirmed s).
Proof.
  split; cbv zeta.
  - split; [vm_compute; auto 10 | ].
    split; [reflexivity | ].
    assert (H : gesture_drop.copy_confirmed
                  (gesture_drop.state_of
                     (gesture_drop.main_loop_frame (still_fist (paste_raises 100.5))
                        (gesture_drop.state_of
                           (gesture_drop.main_loop_frame (still_fist (calm 100 "hello"))
                              gesture_drop.init)))) = true)
      by (vm_compute; reflexivity).
    split; [exact H | ]. rewrite H. simpl. discriminate.
  - split; [vm_compute; auto 10 | ].
    assert (H0 : gesture_drop.copy_confirmed
                   (gesture_drop.state_of
                      (gesture_drop.run copy_then_palm gesture_drop.init)) = true)
      by (vm_compute; reflexivity).
    assert (H : gesture_drop.copy_confirmed
                  (gesture_drop.state_of
                     (gesture_drop.main_loop_frame palm_held_copy_raises
                        (gesture_drop.state_of
                           (gesture_drop.run copy_then_palm gesture_drop.init)))) = false)
      by (vm_compute; reflexivity).
    split; [exact H0 | ]. split; [exact H | ]. rewrite H, H0. discriminate.
Qed.

(** C8, amended. In both programs, when the copy is due and
    [pyperclip.paste()] raises, the warning is printed, the shared slot is
    left as it is, and the gesture goes on as with an empty clipboard:
    [Copy] fires and the confirmation flag is set. When the paste is due,
    the slot holds a text, and [pyperclip.copy(...)] raises, the warning is
    printed, the paste key combination is still sent, [Paste] fires and the
    confirmation flag is cleared; the slot is left as it is. *)
Theorem C8_clipboard_failure :
  (forall now e s started,
      gesture_drop.fist_start s = Some started ->
      (gesture_drop.GESTURE_HOLD_TIME <? now - started) = true ->
      gesture_drop.copy_confirmed s = false ->
      copy_hotkey_ok e = true ->
      clip_paste e = None ->
      let s' := fst (gesture_drop.copy_gesture 0 now e s) in
      let tr := snd (gesture_drop.copy_gesture 0 now e s) in
      In (Print "[WARN] pyperclip.paste failed:") tr
      /\ fired tr = [Copy]
      /\ gesture_drop.copy_confirmed s' = true
      /\ gesture_drop.shared_clipboard s' = gesture_drop.shared_clipboard s)
  /\ (forall now e s started,
         gesture_drop.open_start s = Some started ->
         (gesture_drop.GESTURE_HOLD_TIME <? now - started) = true ->
         gesture_drop.copy_confirmed s = true ->
         c_type (gesture_drop.shared_clipboard s) = "text" ->
         truthy (c_value (gesture_drop.shared_clipboard s)) = true ->
         clip_copy_ok e = false ->
         paste_hotkey_ok e = true ->
         let s' := fst (gesture_drop.paste_gesture 5 now e s) in
         let tr := snd (gesture_drop.paste_gesture 5 now e s) in
         In (Print "[WARN] pyperclip.copy failed:") tr
         /\ In (Hotkey ["ctrl"; "v"]) tr
         /\ fired tr = [Paste]
         /\ gesture_drop.copy_confirmed s' = false
         /\ gesture_drop.shared_clipboard s' = gesture_drop.shared_clipboard s)
  /\
  (forall now e s started,
      gesture_file_server.fist_start_time s = Some started ->
      (gesture_file_server.GESTURE_HOLD_TIME <? now - started) = true ->
      gesture_file_server.copy_done s = false ->
      copy_hotkey_ok e = true ->
      clip_paste e = None ->
      let s' := fst (gesture_file_server.copy_gesture 0 now e s) in
      let tr := snd (gesture_file_server.copy_gesture 0 now e s) in
      In (Print "[WARN] pyperclip paste failed:") tr
      /\ fired tr = [Copy]
      /\ gesture_file_server.copy_done s' = true
      /\ gesture_file_server.shared_clipboard s' = gesture_file_server.shared_clipboard s)
  /\ (forall now e s started,
         gesture_file_server.open_start_time s = Some started ->
         (gesture_file_server.GESTURE_HOLD_TIME <? now - started) = true ->
         gesture_file_server.copy_done s = true ->
         c_type (gesture_file_server.shared_clipboard s) = "text" ->
         truthy (c_value (gesture_file_server.shared_clipboard s)) = true ->
         clip_copy_ok e = false ->
         paste_hotkey_ok e = true ->
         let s' := fst (gesture_file_server.paste_gesture 5 now e s) in
         let tr := snd (gesture_file_server.paste_gesture 5 now e s) in
         In (Print "[WARN] pyperclip copy failed:") tr
         /\ In (Hotkey ["ctrl"; "v"]) tr
         /\ fired tr = [Paste]
         /\ gesture_file_server.copy_done s' = false
         /\ gesture_file_server.shared_clipboard s' = gesture_file_server.shared_clipboard s).
Proof.
  repeat match goal with |- _ /\ _ => split end.
  - intros now e s started Hs Hh Hc Hk Hp.
    unfold gesture_drop.copy_gesture. cbv zeta.
    rewrite Hs, Hh, Hc, Hk, Hp. simpl. destruct (gesture_drop.shared_clipboard s).
    auto 10.
  - intros now e s started Hs Hh Hc Ht Hv He Hk.
    unfold gesture_drop.paste_gesture, gesture_drop.safe_set_local_clipboard. cbv zeta.
    rewrite Hs, Hh, Hc, Ht, Hv, He, Hk. simpl. auto 10.
  - intros now e s started Hs Hh Hc Hk Hp.
    unfold gesture_file_server.copy_gesture. cbv zeta.
    rewrite Hs, Hh, Hc, Hk, Hp. simpl.
    destruct (gesture_file_server.shared_clipboard s). auto 10.
  - intros now e s started Hs Hh Hc Ht Hv He Hk.
    unfold gesture_file_server.paste_gesture. cbv zeta.
    rewrite Hs, Hh, Hc, Ht, Hv, He, Hk. simpl. auto 10.
Qed.

(** The scenarios of the counterexample satisfy the hypotheses of C8, in
    both programs. *)
Lemma C8_witness :
  (let s := gesture_drop.state_of
              (gesture_drop.main_loop_frame (still_fist (calm 100 "hello"))
                 gesture_drop.init) in
   let e := paste_raises 100.5 in
   gesture_drop.fist_start s = Some 100
   /\ (gesture_drop.GESTURE_HOLD_TIME <? 100.5 - 100) = true
   /\ gesture_drop.copy_confirmed s = false
   /\ copy_hotkey_ok e = true
   /\ clip_paste e = None
   /\ fired (snd (gesture_drop.copy_gesture 0 100.5 e s)) = [Copy]
   /\ gesture_drop.copy_confirmed (fst (gesture_drop.copy_gesture 0 100.5 e s)) = true)
  /\
  (let s := gesture_drop.state_of (gesture_drop.run copy_then_palm gesture_drop.init) in
   let e := copy_raises 101.75 in
   gesture_drop.open_start s = Some 101
   /\ (gesture_drop.GESTURE_HOLD_TIME <? 101.75 - 101) = true
   /\ gesture_drop.copy_confirmed s = true
   /\ c_type (gesture_drop.shared_clipboard s) = "text"
   /\ truthy (c_value (gesture_drop.shared_clipboard s)) = true
   /\ clip_copy_ok e = false
   /\ paste_hotkey_ok e = true
   /\ fired (snd (gesture_drop.paste_gesture 5 101.75 e s)) = [Paste]
   /\ gesture_drop.copy_confirmed (fst (gesture_drop.paste_gesture 5 101.75 e s)) = false)
  /\
  (let s := gesture_file_server.state_of
              (gesture_file_server.main_frame (still_fist (calm 100 "hello"))
                 gesture_file_server.init) in
   let e := paste_raises 100.75 in
   fired (snd (gesture_file_server.copy_gesture 0 100.75 e s)) = [Copy]
   /\ gesture_file_server.copy_done
        (fst (gesture_file_server.copy_gesture 0 100.75 e s)) = true)
  /\
  (let s := gesture_file_server.state_of
              (gesture_file_server.run copy_then_palm gesture_file_server.init) in
   let e := copy_raises 101.75 in
   fired (snd (gesture_file_server.paste_gesture 5 101.75 e s)) = [Paste]
   /\ gesture_file_server.copy_done
        (fst (gesture_file_server.paste_gesture 5 101.75 e s)) = false).
Proof.
  destruct C8_clipboard_failure as (Hc & Hp & Hc' & Hp').
  split; [ | split; [ | split]]; cbv zeta.
  - assert (H1 : gesture_drop.fist_start
                   (gesture_drop.state_of
                      (gesture_drop.main_loop_frame (still_fist (calm 100 "hello"))
                         gesture_drop.init)) = Some 100) by (vm_compute; reflexivity).
    assert (H2 : (gesture_drop.GESTURE_HOLD_TIME <? 100.5 - 100) = true)
      by (vm_compute; reflexivity).
    assert (H3 : gesture_drop.copy_confirmed
                   (gesture_drop.state_of
                      (gesture_drop.main_loop_frame (still_fist (calm 100 "hello"))
                         gesture_drop.init)) = false) by (vm_compute; reflexivity).
    destruct (Hc 100.5 (paste_raises 100.5) _ 100 H1 H2 H3 eq_refl eq_refl)
      as (_ & Hf & Hd & _).
    repeat split; assumption || reflexivity.
  - assert (H1 : gesture_drop.open_start
                   (gesture_drop.state_of
                      (gesture_drop.run copy_then_palm gesture_drop.init)) = Some 101)
      by (vm_compute; reflexivity).
    assert (H2 : (gesture_drop.GESTURE_HOLD_TIME <? 101.75 - 101) = true)
      by (vm_compute; reflexivity).
    assert (H3 : gesture_drop.copy_confirmed
                   (gesture_drop.state_of
                      (gesture_drop.run copy_then_palm gesture_drop.init)) = true)
      by (vm_compute; reflexivity).
    assert (H4 : c_type (gesture_drop.shared_clipboard
                           (gesture_drop.state_of
                              (gesture_drop.run copy_then_palm gesture_drop.init)))
                 = "text") by (vm_compute; reflexivity).
    assert (H5 : truthy (c_value (gesture_drop.shared_clipboard
                                    (gesture_drop.state_of
                                       (gesture_drop.run copy_then_palm gesture_drop.init))))
                 = true) by (vm_compute; reflexivity).
    destruct (Hp 101.75 (copy_raises 101.75) _ 101 H1 H2 H3 H4 H5 eq_refl eq_refl)
      as (_ & _ & Hf & Hd & _).
    repeat split; assumption || reflexivity.
  - assert (H1 : gesture_file_server.fist_start_time
                   (gesture_file_server.state_of
                      (gesture_file_server.main_frame (still_fist (calm 100 "hello"))
                         gesture_file_server.init)) = Some 100)
      by (vm_compute; reflexivity).
    assert (H2 : (gesture_file_server.GESTURE_HOLD_TIME <? 100.75 - 100) = true)
      by (vm_compute; reflexivity).
    assert (H3 : gesture_file_server.copy_done
                   (gesture_file_server.state_of
                      (gesture_file_server.main_frame (still_fist (calm 100 "hello"))
                         gesture_file_server.init)) = false)
      by (vm_compute; reflexivity).
    destruct (Hc' 100.75 (paste_raises 100.75) _ 100 H1 H2 H3 eq_refl eq_refl)
      as (_ & Hf & Hd & _).
    split; assumption.
  - assert (H1 : gesture_file_server.open_start_time
                   (gesture_file_server.state_of
                      (gesture_file_server.run copy_then_palm gesture_file_server.init))
                 = Some 101) by (vm_compute; reflexivity).
    assert (H2 : (gesture_file_server.GESTURE_HOLD_TIME <? 101.75 - 101) = true)
      by (vm_compute; reflexivity).
    assert (H3 : gesture_file_server.copy_done
                   (gesture_file_server.state_of
                      (gesture_file_server.run copy_then_palm gesture_file_server.init))
                 = true) by (vm_compute; reflexivity).
    assert (H4 : c_type (gesture_file_server.shared_clipboard
                           (gesture_file_server.state_of
                              (gesture_file_server.run copy_then_palm
                                 gesture_file_server.init))) = "text")
      by (vm_compute; reflexivity).
    assert (H5 : truthy (c_value (gesture_file_server.shared_clipboard
                                    (gesture_file_server.state_of
                                       (gesture_file_server.run copy_then_palm
                                          gesture_file_server.init)))) = true)
      by (vm_compute; reflexivity).
    destruct (Hp' 101.75 (copy_raises 101.75) _ 101 H1 H2 H3 H4 H5 eq_refl eq_refl)
      as (_ & _ & Hf & Hd & _).
    split; assumption.
Defined.

(** ** C9: the finger vector *)

(** C9. For every landmark set, both programs compute the finger vector
    [thumb; index; middle; ring; pinky] by the same rule: the thumb's flag is
    1 exactly when tip 4 and joint 2 are found and the tip's x is strictly
    smaller than the joint's x; the flag of each other finger is 1 exactly
    when its tip (8, 12, 16, 20) and the joint two landmarks below it
    (6, 10, 14, 18) are found and the tip's y is strictly smaller than the
    joint's y; a flag is 0 otherwise, in particular whenever one of its two
    lookups fails. The function is total: no lookup failure escapes it. *)
Theorem C9_finger_vector (lm : hand_landmarks) :
  (exists t i m r p,
      gesture_drop.finger_states_from_landmarks lm = [t; i; m; r; p]
      /\ finger_rule lx lm 4 2 t /\ finger_rule ly lm 8 6 i
      /\ finger_rule ly lm 12 10 m /\ finger_rule ly lm 16 14 r
      /\ finger_rule ly lm 20 18 p)
  /\ gesture_file_server.get_finger_states lm
     = gesture_drop.finger_states_from_landmarks lm.
Proof.
  split; [apply finger_states_from_landmarks_eq | reflexivity].
Qed.

Example fist_is_all_closed :
  gesture_drop.finger_states_from_landmarks (fist_at 0.5 0.125) = [0; 0; 0; 0; 0]%nat.
Proof. vm_compute. reflexivity. Qed.

Example open_palm_is_all_open :
  gesture_drop.finger_states_from_landmarks open_palm = [1; 1; 1; 1; 1]%nat.
Proof. vm_compute. reflexivity. Qed.

Example pointing_is_index_only :
  gesture_drop.finger_states_from_landmarks (pointing_at 0.5 0.125) = [0; 1; 0; 0; 0]%nat.
Proof. vm_compute. reflexivity. Qed.

(** Landmarks that are missing count as closed fingers: with only the first
    nine landmarks the middle, ring and pinky lookups fail. *)
Example short_hand_is_closed :
  gesture_drop.finger_states_from_landmarks (firstn 9 open_palm) = [1; 1; 0; 0; 0]%nat
  /\ gesture_drop.finger_states_from_landmarks [] = [0; 0; 0; 0; 0]%nat.
Proof. vm_compute. split; reflexivity. Qed.

(** ** C10: the EMA pair across the loss of the hand *)

(** C10. In gesture_drop.py a frame without a hand leaves [ema_dx] and
    [ema_dy] as they are while it clears the position history, and the hold
    and pinch sections of a frame with a hand never touch them: only
    [update_motion_and_detect] assigns them. So a stale EMA is carried
    across the loss of the hand: after an upward sweep that fired and a
    frame without a hand, a hand that comes back and stays still, with a
    windowed displacement of zero, fires [ScrollUp] in its first and again
    in its second frame. *)
Theorem C10_ema_persists :
  (forall w s,
      let s' := gesture_drop.state_of (gesture_drop.main_loop_frame (no_hand w) s) in
      gesture_drop.ema_dx s' = gesture_drop.ema_dx s
      /\ gesture_drop.ema_dy s' = gesture_drop.ema_dy s
      /\ gesture_drop.pos_history s' = [])
  /\ (forall lm idx th now e s,
         let fingers := gesture_drop.finger_states_from_landmarks lm in
         let c := gesture_drop.copy_gesture (sum fingers) now e s in
         let p := gesture_drop.paste_gesture (sum fingers) now e (fst c) in
         let h := gesture_drop.screenshot_gesture fingers idx th now e (fst p) in
         gesture_drop.ema_dx (fst h) = gesture_drop.ema_dx s
         /\ gesture_drop.ema_dy (fst h) = gesture_drop.ema_dy s)
  /\ (let s := gesture_drop.state_of
                 (gesture_drop.run (sweep_up ++ hand_lost) gesture_drop.init) in
      gesture_drop.pos_history s = []
      /\ gesture_drop.ema_dy s = (-0.1875)%float
      /\ fired (gesture_drop.trace_of
                  (gesture_drop.update_motion_and_detect 0 0 (calm 101 "hello") s))
         = [ScrollUp]
      /\ fired (gesture_drop.trace_of (gesture_drop.run hand_back_still s))
         = [ScrollUp; ScrollUp]).
Proof.
  split; [ | split].
  - intros w s. simpl. auto.
  - intros lm idx th now e s.
    destruct (gesture_drop_facts.hold_sections_frame lm idx th now e s)
      as (_ & _ & Hx & Hy & _).
    split; assumption.
  - cbv zeta. repeat split; vm_compute; reflexivity.
Qed.

(** * Further properties of the two programs *)

Lemma last_cons_default {A : Type} (x : A) (l : list A) (d d' : A) :
  last (x :: l) d = last (x :: l) d'.
Proof.
  revert x. induction l as [ | y l IH]; intros x; [reflexivity | ].
  change (last (y :: l) d = last (y :: l) d'). apply IH.
Qed.

Lemma last_app_default {A : Type} (a b : list A) (d : A) :
  last (a ++ b) d = last b (last a d).
Proof.
  induction a as [ | x a IH]; [reflexivity | ].
  destruct a as [ | y a].
  - simpl. destruct b; [reflexivity | apply last_cons_default].
  - change (last ((y :: a) ++ b) d = last b (last (y :: a) d)). exact IH.
Qed.

(** ** gesture_drop.py: more on the sections of the frame body *)

Module gesture_drop_more.
Import gesture_drop.

(** The frame body with a hand, as the sequence of its sections. *)
Lemma main_loop_frame_sections (f : frame) (s : state) (lm : hand_landmarks)
    (idx th : landmark) :
  hand f = Some lm -> landmark_at lm 8 = Some idx -> landmark_at lm 4 = Some th ->
  let s1 := push_history (lx idx) (ly idx) s in
  let d := if (2 <=? List.length (pos_history s1))%nat
           then (fst (last (pos_history s1) (0, 0)) - fst (hd (0, 0) (pos_history s1)),
                 snd (last (pos_history s1) (0, 0)) - snd (hd (0, 0) (pos_history s1)))
           else (0, 0) in
  let m := update_motion_and_detect (fst d) (snd d) (world f) s1 in
  let fingers := finger_states_from_landmarks lm in
  let now := time_frame (world f) in
  let c := copy_gesture (sum fingers) now (world f) (state_of m) in
  let p := paste_gesture (sum fingers) now (world f) (fst c) in
  let h := screenshot_gesture fingers idx th now (world f) (fst p) in
  main_loop_frame f s
  = if completed m
    then Ok tt (fst h) (trace_of m ++ snd c ++ snd p ++ snd h)
    else Raise (state_of m) (trace_of m).
Proof.
  intros Hh H8 H4. cbv zeta. unfold main_loop_frame. rewrite Hh, H8, H4. cbv zeta.
  destruct (if (2 <=? _)%nat then _ else _) as [dx dy]. cbn [fst snd].
  destruct (update_motion_and_detect dx dy (world f) _) as [g s2 trm | s2 trm];
    cbn [completed state_of trace_of]; [ | reflexivity].
  destruct (copy_gesture _ _ _ s2) as [s3 trc]. cbn [fst snd].
  destruct (paste_gesture _ _ _ s3) as [s4 trp]. cbn [fst snd].
  destruct (screenshot_gesture _ _ _ _ _ s4) as [s5 trs]. reflexivity.
Qed.

Lemma update_motion_and_detect_more (dx dy : float) (e : env) (s : state) :
  let r := update_motion_and_detect dx dy e s in
  let s' := state_of r in
  (forall t, ~ In (ClipCopy t) (trace_of r))
  /\ ((fired (trace_of r) = []
       /\ gesture_label s' = gesture_label s /\ label_set_time s' = label_set_time s)
      \/ (exists g, fired (trace_of r) = [g] /\ is_motion g = true
                    /\ gesture_label s' = label_of g
                    /\ label_set_time s' = time_motion e)).
Proof.
  unfold update_motion_and_detect. cbv zeta. simpl.
  split_tests; simpl; (split; [intros t H; intuition discriminate | ]);
    try (left; repeat split; reflexivity);
    right; eexists; repeat split; reflexivity.
Qed.

Lemma copy_gesture_more (total_f : nat) (now : float) (e : env) (s : state) :
  let s' := fst (copy_gesture total_f now e s) in
  let tr := snd (copy_gesture total_f now e s) in
  (total_f <> 0%nat -> fist_start s' = None)
  /\ (forall t, ~ In (ClipCopy t) tr)
  /\ ((fired tr = []
       /\ gesture_label s' = gesture_label s /\ label_set_time s' = label_set_time s
       /\ shared_clipboard s' = shared_clipboard s
       /\ (fist_start s = None -> total_f = 0%nat -> fist_start s' = Some now))
      \/ (fired tr = [Copy]
          /\ gesture_label s' = "Copy" /\ label_set_time s' = now
          /\ shared_clipboard s'
             = match clip_paste e with
               | Some t => if truthy t then {| c_type := "text"; c_value := t |}
                           else shared_clipboard s
               | None => shared_clipboard s
               end
          /\ exists started, fist_start s = Some started
                             /\ (GESTURE_HOLD_TIME <? now - started) = true)).
Proof.
  unfold copy_gesture, safe_copy_to_shared. cbv zeta.
  destruct (total_f =? 0)%nat eqn:Htot;
    [apply Nat.eqb_eq in Htot | apply Nat.eqb_neq in Htot].
  2: { simpl. repeat split; auto. left. repeat split; auto. contradiction. }
  split; [contradiction | ].
  destruct (fist_start s) as [started | ] eqn:Hfs.
  2: { simpl. split; [tauto | ]. left. repeat split; auto. }
  destruct (GESTURE_HOLD_TIME <? now - started) eqn:Hhold; cbn [andb].
  2: { simpl. split; [tauto | ]. left. repeat split; auto. discriminate. }
  destruct (copy_confirmed s); cbn [negb].
  { simpl. split; [tauto | ]. left. repeat split; auto. discriminate. }
  destruct (copy_hotkey_ok e).
  2: { simpl. split; [intros t H; intuition discriminate | ].
       left. repeat split; auto. discriminate. }
  destruct (clip_paste e) as [text | ]; [destruct (truthy text) eqn:Ht | ]; simpl;
    try rewrite Ht; simpl;
    (split; [intros t H; intuition discriminate | ]);
    right; repeat split; auto; exists started; auto.
Qed.

Lemma paste_gesture_more (total_f : nat) (now : float) (e : env) (s : state) :
  let s' := fst (paste_gesture total_f now e s) in
  let tr := snd (paste_gesture total_f now e s) in
  (total_f <> 5%nat -> open_start s' = None)
  /\ (forall t, In (ClipCopy t) tr ->
                total_f = 5%nat /\ copy_confirmed s = true
                /\ c_type (shared_clipboard s) = "text"
                /\ t = c_value (shared_clipboard s) /\ truthy t = true
                /\ exists started, open_start s = Some started
                                   /\ (GESTURE_HOLD_TIME <? now - started) = true)
  /\ ((fired tr = []
       /\ gesture_label s' = gesture_label s /\ label_set_time s' = label_set_time s)
      \/ (fired tr = [Paste]
          /\ gesture_label s' = "Paste" /\ label_set_time s' = now
          /\ In (Hotkey ["ctrl"; "v"]) tr)).
Proof.
  unfold paste_gesture, safe_set_local_clipboard. cbv zeta.
  destruct (total_f =? 5)%nat eqn:Htot;
    [apply Nat.eqb_eq in Htot | apply Nat.eqb_neq in Htot].
  2: { simpl; repeat split; auto; try contradiction; left; repeat split; auto. }
  split; [contradiction | ].
  destruct (open_start s) as [started | ] eqn:Hos.
  2: { simpl. split; [tauto | ]. left. repeat split; auto. }
  destruct (GESTURE_HOLD_TIME <? now - started) eqn:Hhold; cbn [andb].
  2: { simpl. split; [tauto | ]. left. repeat split; auto. }
  destruct (copy_confirmed s) eqn:Hcc.
  2: { simpl. split; [tauto | ]. left. repeat split; auto. }
  destruct (String.eqb (c_type (shared_clipboard s)) "text") eqn:Hty;
    [apply String.eqb_eq in Hty | ];
    destruct (truthy (c_value (shared_clipboard s))) eqn:Htr;
    destruct (clip_copy_ok e); destruct (paste_hotkey_ok e); simpl;
    (split;
     [intros t H;
      repeat (destruct H as [H | H]; try discriminate; try contradiction);
      injection H as <-; repeat split; auto; exists started; auto
     | ]);
    try (left; repeat split; reflexivity);
    right; repeat split; auto 10.
Qed.

Lemma screenshot_gesture_more (fingers : list nat) (idx th : landmark)
    (now : float) (e : env) (s : state) :
  let s' := fst (screenshot_gesture fingers idx th now e s) in
  let tr := snd (screenshot_gesture fingers idx th now e s) in
  (forall t, ~ In (ClipCopy t) tr)
  /\ ((fired tr = []
       /\ gesture_label s' = gesture_label s /\ label_set_time s' = label_set_time s
       /\ shared_clipboard s' = shared_clipboard s
       /\ last_screenshot_time s' = last_screenshot_time s)
      \/ (fired tr = [Screenshot]
          /\ gesture_label s' = "Screenshot" /\ label_set_time s' = now
          /\ last_screenshot_time s' = now
          /\ (SCREENSHOT_COOLDOWN <? now - last_screenshot_time s) = true
          /\ (norm2 (lx th) (ly th) (lx idx) (ly idx) <? 0.05) = true
          /\ exists b64, screenshot_b64 e = Some b64
                         /\ shared_clipboard s' = {| c_type := "image"; c_value := b64 |})).
Proof.
  unfold screenshot_gesture. cbv zeta.
  destruct ((nth 0 fingers 0 =? 1)%nat && (nth 1 fingers 0 =? 1)%nat
            && (sum (skipn 2 fingers) =? 0)%nat).
  2: { simpl. split; [tauto | ]. left. repeat split; auto. }
  destruct (norm2 (lx th) (ly th) (lx idx) (ly idx) <? 0.05) eqn:Hd; cbn [andb].
  2: { simpl. split; [tauto | ]. left. repeat split; auto. }
  destruct (SCREENSHOT_COOLDOWN <? now - last_screenshot_time s) eqn:Hcd.
  2: { simpl. split; [tauto | ]. left. repeat split; auto. }
  destruct (screenshot_b64 e) as [b64 | ]; simpl;
    (split; [intros t H; intuition discriminate | ]).
  - right. repeat split; auto. exists b64. auto.
  - left. repeat split; auto.
Qed.

Lemma push_history_other (x y : float) (s : state) :
  let s' := push_history x y s in
  gesture_label s' = gesture_label s /\ label_set_time s' = label_set_time s
  /\ shared_clipboard s' = shared_clipboard s
  /\ fist_start s' = fist_start s /\ open_start s' = open_start s
  /\ last_screenshot_time s' = last_screenshot_time s
  /\ copy_confirmed s' = copy_confirmed s
  /\ last_action_time s' = last_action_time s.
Proof.
  unfold push_history. cbv zeta. destruct (_ <? _)%nat; simpl; auto 10.
Qed.

(** A frame without a hand, or with a hand that lacks landmark 8 or 4. *)
Lemma main_loop_frame_short (f : frame) (s : state) :
  (forall lm, hand f = Some lm ->
              landmark_at lm 8 = None \/ landmark_at lm 4 = None) ->
  main_loop_frame f s
  = match hand f with
    | Some _ => Raise s []
    | None => Ok tt (set_open_start (set_fist_start (set_pos_history s []) None) None) []
    end.
Proof.
  intros H. unfold main_loop_frame.
  destruct (hand f) as [lm | ]; [ | reflexivity].
  destruct (H lm eq_refl) as [-> | E]; [reflexivity | ].
  rewrite E. destruct (landmark_at lm 8); reflexivity.
Qed.

(** Case analysis on a frame: its sections, or its short form. *)
Lemma main_loop_frame_shape (f : frame) (s : state) :
  (exists lm idx th,
      hand f = Some lm /\ landmark_at lm 8 = Some idx /\ landmark_at lm 4 = Some th)
  \/ (forall lm, hand f = Some lm ->
                 landmark_at lm 8 = None \/ landmark_at lm 4 = None).
Proof.
  destruct (hand f) as [lm | ]; [ | right; discriminate].
  destruct (landmark_at lm 8) as [idx | ] eqn:H8;
    [ | right; intros ? [= <-]; auto].
  destruct (landmark_at lm 4) as [th | ] eqn:H4;
    [ | right; intros ? [= <-]; auto].
  left. exists lm, idx, th. auto.
Qed.

(** After every frame [gesture_label] is the label of the last gesture the
    frame fired, and the label it had when none fired. *)
Lemma main_loop_frame_label (f : frame) (s : state) :
  let r := main_loop_frame f s in
  gesture_label (state_of r)
  = last (map label_of (fired (trace_of r))) (gesture_label s).
Proof.
  cbv zeta.
  destruct (main_loop_frame_shape f s) as [(lm & idx & th & Hh & H8 & H4) | Hshort].
  2: { rewrite (main_loop_frame_short f s Hshort). destruct (hand f); reflexivity. }
  rewrite (main_loop_frame_sections f s lm idx th Hh H8 H4). cbv zeta.
  set (s1 := push_history (lx idx) (ly idx) s).
  destruct (push_history_other (lx idx) (ly idx) s) as (L1 & _). fold s1 in L1.
  set (d := if (2 <=? _)%nat then _ else _).
  set (m := update_motion_and_detect (fst d) (snd d) (world f) s1).
  assert (Lm : gesture_label (state_of m)
               = last (map label_of (fired (trace_of m))) (gesture_label s1)).
  { destruct (update_motion_and_detect_more (fst d) (snd d) (world f) s1)
      as (_ & [(E & L & _) | (g & E & _ & L & _)]); fold m in E, L;
      rewrite E, L; reflexivity. }
  destruct (completed m); cbn [state_of trace_of]; [ | congruence].
  set (fingers := finger_states_from_landmarks lm).
  set (now := time_frame (world f)).
  set (c := copy_gesture (sum fingers) now (world f) (state_of m)).
  set (p := paste_gesture (sum fingers) now (world f) (fst c)).
  set (h := screenshot_gesture fingers idx th now (world f) (fst p)).
  assert (Lc : gesture_label (fst c)
               = last (map label_of (fired (snd c))) (gesture_label (state_of m))).
  { destruct (copy_gesture_more (sum fingers) now (world f) (state_of m))
      as (_ & _ & [(E & L & _) | (E & L & _)]); fold c in E, L;
      rewrite E, L; reflexivity. }
  assert (Lp : gesture_label (fst p)
               = last (map label_of (fired (snd p))) (gesture_label (fst c))).
  { destruct (paste_gesture_more (sum fingers) now (world f) (fst c))
      as (_ & _ & [(E & L & _) | (E & L & _)]); fold p in E, L;
      rewrite E, L; reflexivity. }
  assert (Ls : gesture_label (fst h)
               = last (map label_of (fired (snd h))) (gesture_label (fst p))).
  { destruct (screenshot_gesture_more fingers idx th now (world f) (fst p))
      as (_ & [(E & L & _) | (E & L & _)]); fold h in E, L;
      rewrite E, L; reflexivity. }
  rewrite !fired_app, !map_app, !last_app_default. congruence.
Qed.

(** One frame, gesture by gesture: what the frame reads and what it leaves
    behind when nothing, [Copy], [Paste] or [Screenshot] fires. *)
Lemma main_loop_frame_view (f : frame) (s : state) :
  let r := main_loop_frame f s in
  let s' := state_of r in
  let e := world f in
  exists gm gh,
    fired (trace_of r) = gm ++ gh
    /\ (gm = [] \/ exists g, gm = [g] /\ is_motion g = true)
    /\ ((gh = []
         /\ shared_clipboard s' = shared_clipboard s
         /\ last_screenshot_time s' = last_screenshot_time s)
        \/ (gh = [Copy]
            /\ shared_clipboard s'
               = match clip_paste e with
                 | Some t => if truthy t then {| c_type := "text"; c_value := t |}
                             else shared_clipboard s
                 | None => shared_clipboard s
                 end
            /\ last_screenshot_time s' = last_screenshot_time s
            /\ exists started, fist_start s = Some started
                               /\ (GESTURE_HOLD_TIME <? time_frame e - started) = true)
        \/ (gh = [Paste]
            /\ shared_clipboard s' = shared_clipboard s
            /\ last_screenshot_time s' = last_screenshot_time s
            /\ exists started, open_start s = Some started
                               /\ (GESTURE_HOLD_TIME <? time_frame e - started) = true)
        \/ (gh = [Screenshot]
            /\ last_screenshot_time s' = time_frame e
            /\ (SCREENSHOT_COOLDOWN <? time_frame e - last_screenshot_time s) = true
            /\ exists b64, screenshot_b64 e = Some b64
                           /\ shared_clipboard s' = {| c_type := "image"; c_value := b64 |}))
    /\ (forall t, In (ClipCopy t) (trace_of r) ->
                  shows 5 f /\ copy_confirmed s = true
                  /\ c_type (shared_clipboard s) = "text"
                  /\ t = c_value (shared_clipboard s) /\ truthy t = true)
    /\ (completed r = true ->
        (fist_start s' <> None -> shows 0 f) /\ (open_start s' <> None -> shows 5 f))
    /\ (completed r = false ->
        gm = [] /\ gh = []
        /\ fist_start s' = fist_start s /\ open_start s' = open_start s
        /\ copy_confirmed s' = copy_confirmed s
        /\ last_action_time s' = last_action_time s
        /\ gesture_label s' = gesture_label s).
Proof.
  cbv zeta.
  destruct (main_loop_frame_shape f s) as [(lm & idx & th & Hh & H8 & H4) | Hshort].
  2: { rewrite (main_loop_frame_short f s Hshort). exists [], [].
       destruct (hand f); simpl; repeat split; auto; try contradiction; discriminate. }
  rewrite (main_loop_frame_sections f s lm idx th Hh H8 H4). cbv zeta.
  set (s1 := push_history (lx idx) (ly idx) s).
  destruct (push_history_other (lx idx) (ly idx) s)
    as (P1 & P2 & P3 & P4 & P5 & P6 & P7 & P8). fold s1 in P1, P2, P3, P4, P5, P6, P7, P8.
  set (d := if (2 <=? _)%nat then _ else _).
  set (e := world f).
  set (m := update_motion_and_detect (fst d) (snd d) e s1).
  destruct (gesture_drop_facts.update_motion_and_detect_frame (fst d) (snd d) e s1)
    as (_ & _ & _ & M4 & M5 & M6 & M7 & M8 & _ & M).
  fold m in M4, M5, M6, M7, M8, M.
  destruct (update_motion_and_detect_more (fst d) (snd d) e s1) as (Mclip & Mlab).
  fold m in Mclip, Mlab.
  assert (Hgm : fired (trace_of m) = []
                \/ exists g, fired (trace_of m) = [g] /\ is_motion g = true).
  { destruct M as [(E & _) | (E & _)]; auto. }
  set (fingers := finger_states_from_landmarks lm).
  set (now := time_frame e).
  set (c := copy_gesture (sum fingers) now e (state_of m)).
  set (p := paste_gesture (sum fingers) now e (fst c)).
  set (h := screenshot_gesture fingers idx th now e (fst p)).
  pose proof (gesture_drop_facts.hold_sections_frame lm idx th now e (state_of m)) as Hx.
  cbv zeta in Hx. fold fingers in Hx. fold c in Hx. fold p in Hx. fold h in Hx.
  destruct Hx as (_ & _ & _ & _ & Hx). rewrite !fired_app in Hx.
  destruct (gesture_drop_facts.copy_gesture_frame (sum fingers) now e (state_of m))
    as (_ & _ & _ & _ & C5 & C6 & Cold).
  fold c in C5, C6, Cold.
  destruct (copy_gesture_more (sum fingers) now e (state_of m)) as (C1 & Cclip & Cnew).
  fold c in C1, Cclip, Cnew.
  destruct (gesture_drop_facts.paste_gesture_frame (sum fingers) now e (fst c))
    as (_ & _ & _ & _ & Q5 & Q6 & Q7 & Qold).
  fold p in Q5, Q6, Q7, Qold.
  destruct (paste_gesture_more (sum fingers) now e (fst c)) as (Q1 & Qclip & _).
  fold p in Q1, Qclip.
  destruct (gesture_drop_facts.screenshot_gesture_frame fingers idx th now e (fst p))
    as (_ & _ & _ & _ & S5 & S6 & S7 & _).
  fold h in S5, S6, S7.
  destruct (screenshot_gesture_more fingers idx th now e (fst p)) as (Sclip & Snew).
  fold h in Sclip, Snew.
  assert (Hshow : forall n, sum fingers = n -> shows n f).
  { intros n E. exists lm. auto. }
  destruct (completed m) eqn:Hdone; cbn [state_of trace_of completed].
  - exists (fired (trace_of m)), (fired (snd c) ++ fired (snd p) ++ fired (snd h)).
    split; [now rewrite !fired_app | ].
    split; [exact Hgm | ].
    split; [ | split; [ | split; [ | discriminate]]].
    + destruct Cold as [(Ec & Ccc & Cs) | (Ec & Tc & _)];
        destruct Qold as [(Ep & Qcc) | (Ep & Tp & _ & _ & _ & started & Qs & Qh)];
        destruct Snew as [(Es & _ & _ & Ss & Sl) | (Es & _ & _ & Sl & Scd & _ & b64 & Sb & Ss)];
        rewrite Ec, Ep, Es in *; cbn [app];
        destruct Hx as [(Hx & _) | [(Hx & _) | [(Hx & _) | (Hx & _)]]];
        try discriminate.
      * left. repeat split; congruence.
      * right; right; right. repeat split; try congruence. exists b64. split; congruence.
      * right; right; left. repeat split; try congruence.
        exists started. split; congruence.
      * right; left.
        destruct Cnew as [(Ec' & _) | (_ & _ & _ & Cs' & started & Cf & Ch)];
          [congruence | ].
        split; [reflexivity | ].
        split; [rewrite Ss, Q7, Cs', M7, P3; reflexivity | ].
        split; [congruence | ].
        exists started. split; congruence.
    + intros t H. rewrite !in_app_iff in H.
      destruct H as [H | [H | [H | H]]];
        [now apply Mclip in H | now apply Cclip in H | | now apply Sclip in H].
      apply Qclip in H. destruct H as (T5 & Hcc & Hty & Ht & Htr & _).
      assert (Enc : fired (snd c) = []).
      { destruct Cold as [(Ec & _) | (_ & Tc & _)]; [exact Ec | congruence]. }
      destruct Cold as [(_ & Ccc & Cs) | (Ec & _)]; [ | congruence].
      repeat split; auto; congruence.
    + intros _. split; intros Hne.
      * apply Hshow. destruct (Nat.eq_dec (sum fingers) 0) as [E | E]; [exact E | ].
        exfalso. apply Hne. rewrite S5, Q5. auto.
      * apply Hshow. destruct (Nat.eq_dec (sum fingers) 5) as [E | E]; [exact E | ].
        exfalso. apply Hne. rewrite S6. auto.
  - exists [], []. 
    destruct M as [(E & Ml) | (_ & Hc & _)]; [ | discriminate].
    destruct Mlab as [(_ & Lg & _) | (g & E' & _)]; [ | congruence].
    rewrite E. split; [reflexivity | ]. split; [auto | ].
    split; [left; repeat split; congruence | ].
    split; [intros t H; now apply Mclip in H | ].
    split; [discriminate | ].
    intros _. repeat split; congruence.
Qed.

(** What a frame needs in order to fire a hold or pinch gesture, and what
    it leaves when it fires none of a kind. *)
Lemma main_loop_frame_hold (f : frame) (s : state) :
  let r := main_loop_frame f s in
  let s' := state_of r in
  let e := world f in
  let gs := fired (trace_of r) in
  (In Copy gs ->
   shows 0 f
   /\ (exists started, fist_start s = Some started
                       /\ (GESTURE_HOLD_TIME <? time_frame e - started) = true)
   /\ shared_clipboard s'
      = match clip_paste e with
        | Some t => if truthy t then {| c_type := "text"; c_value := t |}
                    else shared_clipboard s
        | None => shared_clipboard s
        end)
  /\ (In Paste gs ->
      shows 5 f
      /\ exists started, open_start s = Some started
                         /\ (GESTURE_HOLD_TIME <? time_frame e - started) = true)
  /\ (In Screenshot gs ->
      shows 2 f
      /\ last_screenshot_time s' = time_frame e
      /\ (SCREENSHOT_COOLDOWN <? time_frame e - last_screenshot_time s) = true
      /\ exists b64, screenshot_b64 e = Some b64
                     /\ shared_clipboard s' = {| c_type := "image"; c_value := b64 |})
  /\ (~ In Screenshot gs -> last_screenshot_time s' = last_screenshot_time s)
  /\ (~ In Copy gs -> ~ In Screenshot gs -> shared_clipboard s' = shared_clipboard s).
Proof.
  cbv zeta.
  destruct (main_loop_frame_view f s) as (gm & gh & E & Hgm & Hgh & _).
  destruct (gesture_drop_facts.main_loop_frame_cases f s) as (gm' & gh' & E' & Hm' & Hh').
  assert (Hgm' : gm' = [] \/ exists g, gm' = [g] /\ is_motion g = true).
  { destruct Hm' as [(? & _) | (? & _)]; auto. }
  assert (Hin : forall g, is_motion g = false ->
                  In g (fired (trace_of (main_loop_frame f s))) -> In g gh /\ In g gh').
  { intros g Hg H. split.
    - rewrite E in H. apply (in_hold_part g gm gh Hgm Hg). auto.
    - rewrite E' in H. apply (in_hold_part g gm' gh' Hgm' Hg). auto. }
  assert (Hout : forall g, is_motion g = false ->
                   ~ In g (fired (trace_of (main_loop_frame f s))) -> ~ In g gh).
  { intros g Hg H Hi. apply H. rewrite E. apply in_or_app. auto. }
  repeat match goal with |- _ /\ _ => split end.
  - intros H. destruct (Hin Copy eq_refl H) as [H1 H2].
    destruct Hgh as [(-> & _) | [(-> & Hs & _ & Ht) | [(-> & _) | (-> & _)]]];
      simpl in H1; try (intuition discriminate).
    destruct Hh' as [(-> & _) | [(-> & F & _) | [(-> & _) | (-> & _)]]];
      simpl in H2; try (intuition discriminate); auto.
  - intros H. destruct (Hin Paste eq_refl H) as [H1 H2].
    destruct Hgh as [(-> & _) | [(-> & _) | [(-> & _ & _ & Ht) | (-> & _)]]];
      simpl in H1; try (intuition discriminate).
    destruct Hh' as [(-> & _) | [(-> & _) | [(-> & F & _) | (-> & _)]]];
      simpl in H2; try (intuition discriminate); auto.
  - intros H. destruct (Hin Screenshot eq_refl H) as [H1 H2].
    destruct Hgh as [(-> & _) | [(-> & _) | [(-> & _) | (-> & Hl & Hc & Hb)]]];
      simpl in H1; try (intuition discriminate).
    destruct Hh' as [(-> & _) | [(-> & _) | [(-> & _) | (-> & F & _)]]];
      simpl in H2; try (intuition discriminate); auto.
  - intros H. apply (Hout Screenshot eq_refl) in H.
    destruct Hgh as [(_ & _ & Hl) | [(_ & _ & Hl & _) | [(_ & _ & Hl & _) | (-> & _)]]];
      auto.
    exfalso. apply H. simpl. auto.
  - intros Hc Hs. apply (Hout Copy eq_refl) in Hc. apply (Hout Screenshot eq_refl) in Hs.
    destruct Hgh as [(_ & Hl & _) | [(-> & _) | [(_ & Hl & _) | (-> & _)]]]; auto.
    + exfalso. apply Hc. simpl. auto.
    + exfalso. apply Hs. simpl. auto.
Qed.


(** The motion side of a frame with a hand: the history is the pushed one,
    the EMA pair the updated one, and the motion gestures are the
    detector's. *)
Lemma main_loop_frame_motion (f : frame) (s : state) (lm : hand_landmarks)
    (idx th : landmark) :
  hand f = Some lm -> landmark_at lm 8 = Some idx -> landmark_at lm 4 = Some th ->
  let s1 := push_history (lx idx) (ly idx) s in
  let d := if (2 <=? List.length (pos_history s1))%nat
           then (fst (last (pos_history s1) (0, 0)) - fst (hd (0, 0) (pos_history s1)),
                 snd (last (pos_history s1) (0, 0)) - snd (hd (0, 0) (pos_history s1)))
           else (0, 0) in
  let m := update_motion_and_detect (fst d) (snd d) (world f) s1 in
  let r := main_loop_frame f s in
  pos_history (state_of r) = pos_history s1
  /\ ema_dx (state_of r) = ema_dx (state_of m)
  /\ ema_dy (state_of r) = ema_dy (state_of m)
  /\ motion_fired (trace_of r) = motion_fired (trace_of m)
  /\ (completed m = true -> completed r = true).
Proof.
  intros Hh H8 H4. cbv zeta.
  rewrite (main_loop_frame_sections f s lm idx th Hh H8 H4). cbv zeta.
  set (s1 := push_history (lx idx) (ly idx) s).
  set (d := if (2 <=? _)%nat then _ else _).
  set (m := update_motion_and_detect (fst d) (snd d) (world f) s1).
  destruct (gesture_drop_facts.update_motion_and_detect_frame
              (fst d) (snd d) (world f) s1) as (_ & _ & M3 & _).
  fold m in M3.
  pose proof (gesture_drop_facts.hold_sections_frame lm idx th
                (time_frame (world f)) (world f) (state_of m)) as Hx.
  cbv zeta in Hx. destruct Hx as (_ & X2 & X3 & X4 & Hx).
  destruct (completed m); cbn [state_of trace_of completed].
  - repeat split; try congruence.
    rewrite motion_fired_app. unfold motion_fired at 2.
    destruct Hx as [(-> & _) | [(-> & _) | [(-> & _) | (-> & _)]]];
      simpl; now rewrite app_nil_r.
  - repeat split; auto; discriminate.
Qed.

(** With the EMA pair at zero and no displacement the detector fires
    nothing and leaves the pair at zero. *)
Lemma update_motion_and_detect_rest (e : env) (s : state) :
  ema_dx s = 0 -> ema_dy s = 0 ->
  let m := update_motion_and_detect 0 0 e s in
  trace_of m = [] /\ completed m = true
  /\ ema_dx (state_of m) = 0 /\ ema_dy (state_of m) = 0.
Proof.
  intros Hx Hy. cbv zeta. unfold update_motion_and_detect. cbv zeta.
  cbn [ema_dx ema_dy set_ema_dx set_ema_dy last_action_time].
  rewrite Hx, Hy.
  replace (EMA_ALPHA * 0 + (1 - EMA_ALPHA) * 0) with 0%float by reflexivity.
  replace (abs 0) with 0%float by reflexivity.
  replace (SCROLL_THRESHOLD <? 0) with false by reflexivity.
  replace (TAB_THRESHOLD <? 0) with false by reflexivity.
  cbn [andb].
  destruct (_ <? COOLDOWN); simpl; auto.
Qed.

(** After every frame [label_set_time] is the clock reading of the last
    gesture the frame fired, and the one it had when none fired. *)
Lemma main_loop_frame_clock (f : frame) (s : state) :
  let r := main_loop_frame f s in
  label_set_time (state_of r)
  = last (map (stamp (world f)) (fired (trace_of r))) (label_set_time s).
Proof.
  cbv zeta.
  destruct (main_loop_frame_shape f s) as [(lm & idx & th & Hh & H8 & H4) | Hshort].
  2: { rewrite (main_loop_frame_short f s Hshort). destruct (hand f); reflexivity. }
  rewrite (main_loop_frame_sections f s lm idx th Hh H8 H4). cbv zeta.
  set (s1 := push_history (lx idx) (ly idx) s).
  destruct (push_history_other (lx idx) (ly idx) s) as (_ & L1 & _). fold s1 in L1.
  set (d := if (2 <=? _)%nat then _ else _).
  set (m := update_motion_and_detect (fst d) (snd d) (world f) s1).
  assert (Lm : label_set_time (state_of m)
               = last (map (stamp (world f)) (fired (trace_of m))) (label_set_time s1)).
  { destruct (update_motion_and_detect_more (fst d) (snd d) (world f) s1)
      as (_ & [(E & _ & L) | (g & E & Hg & _ & L)]); fold m in E, L;
      rewrite E, L; [reflexivity | ].
    cbn [map last]. unfold stamp. rewrite Hg. reflexivity. }
  destruct (completed m); cbn [state_of trace_of]; [ | congruence].
  set (fingers := finger_states_from_landmarks lm).
  set (now := time_frame (world f)).
  set (c := copy_gesture (sum fingers) now (world f) (state_of m)).
  set (p := paste_gesture (sum fingers) now (world f) (fst c)).
  set (h := screenshot_gesture fingers idx th now (world f) (fst p)).
  assert (Lc : label_set_time (fst c)
               = last (map (stamp (world f)) (fired (snd c)))
                      (label_set_time (state_of m))).
  { destruct (copy_gesture_more (sum fingers) now (world f) (state_of m))
      as (_ & _ & [(E & _ & L & _) | (E & _ & L & _)]); fold c in E, L;
      rewrite E, L; reflexivity. }
  assert (Lp : label_set_time (fst p)
               = last (map (stamp (world f)) (fired (snd p))) (label_set_time (fst c))).
  { destruct (paste_gesture_more (sum fingers) now (world f) (fst c))
      as (_ & _ & [(E & _ & L) | (E & _ & L & _)]); fold p in E, L;
      rewrite E, L; reflexivity. }
  assert (Ls : label_set_time (fst h)
               = last (map (stamp (world f)) (fired (snd h))) (label_set_time (fst p))).
  { destruct (screenshot_gesture_more fingers idx th now (world f) (fst p))
      as (_ & [(E & _ & L & _) | (E & _ & L & _)]); fold h in E, L;
      rewrite E, L; reflexivity. }
  rewrite !fired_app, !map_app, !last_app_default. congruence.
Qed.

End gesture_drop_more.

(** ** The label on the screen *)

(** X8. Over every run of the frame loop of gesture_drop.py, the global
    [gesture_label] is the label of the last gesture that fired in the run
    ("Scroll Up", ..., "Screenshot"), and the label it had before the run
    when no gesture fired: "None" from the initial state. *)
Theorem X8_label_is_last_gesture (fs : list frame) (s : gesture_drop.state) :
  gesture_drop.gesture_label (gesture_drop.state_of (gesture_drop.run fs s))
  = last (map label_of (fired (gesture_drop.trace_of (gesture_drop.run fs s))))
         (gesture_drop.gesture_label s).
Proof.
  revert s. induction fs as [ | f fs IH]; intros s; [reflexivity | ].
  destruct (gesture_drop_facts.run_cons f fs s) as [-> ->].
  rewrite fired_app, map_app, last_app_default.
  rewrite <- gesture_drop_more.main_loop_frame_label.
  destruct (gesture_drop.completed (gesture_drop.main_loop_frame f s));
    [apply IH | reflexivity].
Qed.

(** ** The position history and the still hand *)

Lemma last_tl_default {A : Type} (l : list A) (d : A) :
  (2 <= List.length l)%nat -> last (tl l) d = last l d.
Proof.
  destruct l as [ | x [ | y l]]; simpl; intros H; try lia. reflexivity.
Qed.

Lemma push_history_window (x y : float) (s : gesture_drop.state) :
  let h := gesture_drop.pos_history s in
  let h' := gesture_drop.pos_history (gesture_drop.push_history x y s) in
  ((List.length h <= gesture_drop.SMOOTHING_WINDOW)%nat ->
   (List.length h' <= gesture_drop.SMOOTHING_WINDOW)%nat)
  /\ last h' (0, 0) = (x, y)
  /\ h' <> []
  /\ (forall p, Forall (eq p) h -> p = (x, y) -> Forall (eq p) h').
Proof.
  cbv zeta. unfold gesture_drop.push_history, gesture_drop.SMOOTHING_WINDOW. cbv zeta.
  cbn [gesture_drop.pos_history gesture_drop.set_pos_history].
  set (h := gesture_drop.pos_history s).
  assert (Hlast : last (h ++ [(x, y)]) (0, 0) = (x, y)) by apply last_last.
  assert (Hlen : List.length (h ++ [(x, y)]) = S (List.length h)).
  { rewrite length_app. simpl. lia. }
  destruct (6 <? List.length (h ++ [(x, y)]))%nat eqn:Hw;
    cbn [gesture_drop.pos_history gesture_drop.set_pos_history].
  - apply Nat.ltb_lt in Hw.
    repeat split.
    + intros Hb. destruct (h ++ [(x, y)]); simpl in *; lia.
    + rewrite last_tl_default by lia. exact Hlast.
    + destruct (h ++ [(x, y)]) as [ | a [ | b l]]; simpl in *; try lia. discriminate.
    + intros p Hall ->.
      assert (Hall' : Forall (eq (x, y)) (h ++ [(x, y)])).
      { apply Forall_app. split; [exact Hall | repeat constructor]. }
      destruct (h ++ [(x, y)]); [constructor | ].
      simpl. now inversion Hall'.
  - apply Nat.ltb_ge in Hw.
    repeat split.
    + intros _. exact Hw.
    + exact Hlast.
    + destruct h; discriminate.
    + intros p Hall ->. apply Forall_app. split; [exact Hall | repeat constructor].
Qed.

(** X1. In gesture_drop.py the position history never outgrows the
    smoothing window: after every frame, and so after every run of the
    frame loop, it holds at most SMOOTHING_WINDOW points if it did before.
    A frame without a hand empties it; after a frame that shows a hand
    (with its landmarks 8 and 4) it is not empty and its newest point is
    the index tip of that frame. *)
Theorem X1_history_window :
  (forall f s,
      let h' := gesture_drop.pos_history
                  (gesture_drop.state_of (gesture_drop.main_loop_frame f s)) in
      ((List.length (gesture_drop.pos_history s) <= gesture_drop.SMOOTHING_WINDOW)%nat ->
       (List.length h' <= gesture_drop.SMOOTHING_WINDOW)%nat)
      /\ (hand f = None -> h' = [])
      /\ (forall lm idx th,
             hand f = Some lm -> landmark_at lm 8 = Some idx ->
             landmark_at lm 4 = Some th ->
             h' <> [] /\ last h' (0, 0) = (lx idx, ly idx)))
  /\ (forall fs s,
         (List.length (gesture_drop.pos_history s) <= gesture_drop.SMOOTHING_WINDOW)%nat ->
         (List.length (gesture_drop.pos_history
                         (gesture_drop.state_of (gesture_drop.run fs s)))
          <= gesture_drop.SMOOTHING_WINDOW)%nat).
Proof.
  assert (Hframe : forall f s,
    let h' := gesture_drop.pos_history
                (gesture_drop.state_of (gesture_drop.main_loop_frame f s)) in
    ((List.length (gesture_drop.pos_history s) <= gesture_drop.SMOOTHING_WINDOW)%nat ->
     (List.length h' <= gesture_drop.SMOOTHING_WINDOW)%nat)
    /\ (hand f = None -> h' = [])
    /\ (forall lm idx th,
           hand f = Some lm -> landmark_at lm 8 = Some idx ->
           landmark_at lm 4 = Some th ->
           h' <> [] /\ last h' (0, 0) = (lx idx, ly idx))).
  { intros f s. cbv zeta.
    destruct (gesture_drop_more.main_loop_frame_shape f s)
      as [(lm & idx & th & Hh & H8 & H4) | Hshort].
    - destruct (gesture_drop_more.main_loop_frame_motion f s lm idx th Hh H8 H4)
        as (-> & _).
      destruct (push_history_window (lx idx) (ly idx) s) as (Hb & Hl & Hn & _).
      split; [exact Hb | ]. split; [congruence | ].
      intros lm' idx' th' E E8 E4. rewrite Hh in E. injection E as <-.
      rewrite H8 in E8. injection E8 as <-. split; assumption.
    - rewrite (gesture_drop_more.main_loop_frame_short f s Hshort).
      destruct (hand f) as [lm | ] eqn:Hh; cbn [gesture_drop.state_of]; [ | simpl].
      + split; [auto | ]. split; [discriminate | ].
        intros lm' idx' th' E E8 E4.
        destruct (Hshort lm' E); congruence.
      + split; [intros _; unfold gesture_drop.SMOOTHING_WINDOW; lia | ].
        split; [reflexivity | discriminate]. }
  split; [exact Hframe | ].
  induction fs as [ | f fs IH]; intros s Hb; [exact Hb | ].
  destruct (gesture_drop_facts.run_cons f fs s) as [_ ->].
  destruct (Hframe f s) as (Hf & _).
  destruct (gesture_drop.completed (gesture_drop.main_loop_frame f s)); auto.
Qed.

(** From the initial state (an empty history) a long sweep of eight frames
    satisfies the hypothesis of X1 and ends with a full window of six
    points. *)
Lemma X1_witness :
  let fs := map (fun t => seen (pointing_at 0.5 0.5) (calm t "hello"))
                [100; 101; 102; 103; 104; 105; 106; 107] in
  (List.length (gesture_drop.pos_history gesture_drop.init)
   <= gesture_drop.SMOOTHING_WINDOW)%nat
  /\ (List.length (gesture_drop.pos_history
                     (gesture_drop.state_of (gesture_drop.run fs gesture_drop.init)))
      <= gesture_drop.SMOOTHING_WINDOW)%nat
  /\ List.length (gesture_drop.pos_history
                    (gesture_drop.state_of (gesture_drop.run fs gesture_drop.init)))
     = 6%nat.
Proof.
  intros fs.
  assert (H : (List.length (gesture_drop.pos_history gesture_drop.init)
               <= gesture_drop.SMOOTHING_WINDOW)%nat).
  { unfold gesture_drop.SMOOTHING_WINDOW. simpl. lia. }
  split; [exact H | ].
  split; [exact (proj2 X1_history_window fs gesture_drop.init H) | ].
  vm_compute. reflexivity.
Defined.

(** X15. In gesture_drop.py a hand at rest never scrolls and never switches
    tabs: starting with the EMA pair at zero and a history that holds only
    the point [(x, y)] (or nothing), over every run of frames that show no
    hand or a hand whose index tip is at [(x, y)], no motion gesture fires
    and the EMA pair stays at zero. [x - x = 0] holds for every finite
    coordinate. *)
Theorem X15_still_hand_never_scrolls (x y : float) (fs : list frame)
    (s : gesture_drop.state) :
  (x - x = 0)%float -> (y - y = 0)%float ->
  gesture_drop.ema_dx s = 0%float -> gesture_drop.ema_dy s = 0%float ->
  Forall (eq (x, y)) (gesture_drop.pos_history s) ->
  Forall (tip_at x y) fs ->
  let r := gesture_drop.run fs s in
  motion_fired (gesture_drop.trace_of r) = []
  /\ gesture_drop.ema_dx (gesture_drop.state_of r) = 0%float
  /\ gesture_drop.ema_dy (gesture_drop.state_of r) = 0%float.
Proof.
  intros Hx Hy. revert s.
  induction fs as [ | f fs IH]; intros s Ex Ey Hh Hall; [simpl; auto | ].
  inversion Hall as [ | f' fs' Hf Hfs]; subst. cbv zeta.
  destruct (gesture_drop_facts.run_cons f fs s) as [-> ->].
  rewrite motion_fired_app.
  assert (Hstep :
    motion_fired (gesture_drop.trace_of (gesture_drop.main_loop_frame f s)) = []
    /\ gesture_drop.ema_dx (gesture_drop.state_of (gesture_drop.main_loop_frame f s)) = 0%float
    /\ gesture_drop.ema_dy (gesture_drop.state_of (gesture_drop.main_loop_frame f s)) = 0%float
    /\ Forall (eq (x, y))
         (gesture_drop.pos_history
            (gesture_drop.state_of (gesture_drop.main_loop_frame f s)))).
  { destruct (gesture_drop_more.main_loop_frame_shape f s)
      as [(lm & idx & th & Hl & H8 & H4) | Hshort].
    - destruct Hf as [Hf | (lm' & idx' & E & E8 & Ix & Iy)]; [congruence | ].
      rewrite Hl in E. injection E as <-. rewrite H8 in E8. injection E8 as <-.
      destruct (gesture_drop_more.main_loop_frame_motion f s lm idx th Hl H8 H4)
        as (-> & -> & -> & -> & _).
      rewrite Ix, Iy.
      destruct (push_history_window x y s) as (_ & Hlast & Hne & Hkeep).
      pose proof (Hkeep (x, y) Hh eq_refl) as Hsame.
      set (s1 := gesture_drop.push_history x y s) in *.
      assert (Hd : (if (2 <=? List.length (gesture_drop.pos_history s1))%nat
                    then (fst (last (gesture_drop.pos_history s1) (0, 0))
                          - fst (hd (0, 0) (gesture_drop.pos_history s1)),
                          snd (last (gesture_drop.pos_history s1) (0, 0))
                          - snd (hd (0, 0) (gesture_drop.pos_history s1)))
                    else (0, 0)) = (0, 0)%float).
      { destruct (2 <=? _)%nat; [ | reflexivity].
        rewrite Hlast.
        destruct (gesture_drop.pos_history s1) as [ | p h]; [congruence | ].
        inversion Hsame as [ | p' h' Hp Hrest]; subst. simpl. now rewrite Hx, Hy. }
      rewrite Hd. cbn [fst snd].
      assert (E1 : gesture_drop.ema_dx s1 = 0%float /\ gesture_drop.ema_dy s1 = 0%float).
      { destruct (gesture_drop_facts.push_history_frame x y s) as (_ & _ & A & B).
        fold s1 in A, B. split; congruence. }
      destruct E1 as [E1 E2].
      destruct (gesture_drop_more.update_motion_and_detect_rest (world f) s1 E1 E2)
        as (Ht & _ & A & B).
      unfold motion_fired. rewrite Ht. auto.
    - rewrite (gesture_drop_more.main_loop_frame_short f s Hshort).
      destruct (hand f); simpl; auto. }
  destruct Hstep as (-> & Fx & Fy & Fh). simpl.
  destruct (gesture_drop.completed (gesture_drop.main_loop_frame f s));
    [apply IH; assumption | auto].
Qed.

(** A hand that rests at the centre of the image for a second and a half
    satisfies the hypotheses of X15 from the initial state. *)
Lemma X15_witness :
  let fs := map (fun t => seen (pointing_at 0.5 0.5) (calm t "hello"))
                [100; 100.5; 101; 101.5] ++ [no_hand (calm 102 "hello")] in
  (0.5 - 0.5 = 0)%float
  /\ Forall (tip_at 0.5 0.5) fs
  /\ motion_fired (gesture_drop.trace_of (gesture_drop.run fs gesture_drop.init)) = [].
Proof.
  intros fs.
  assert (H0 : (0.5 - 0.5 = 0)%float) by reflexivity.
  assert (Hall : Forall (tip_at 0.5 0.5) fs).
  { unfold fs. simpl map. simpl app.
    repeat (apply Forall_cons;
            [first [right; do 2 eexists; repeat split; reflexivity | left; reflexivity] | ]).
    apply Forall_nil. }
  split; [exact H0 | ]. split; [exact Hall | ].
  exact (proj1 (X15_still_hand_never_scrolls 0.5 0.5 fs gesture_drop.init
                  H0 H0 eq_refl eq_refl (Forall_nil _) Hall)).
Defined.

(** ** Holding a configuration *)

(** X4. In gesture_drop.py a hold gesture needs its configuration in two
    consecutive frames: if a frame fires [Copy], it shows a fist and so did
    the frame before it, and the fist timer was started at least
    GESTURE_HOLD_TIME before; likewise [Paste] and the open palm. No frame
    fires [Copy] (or [Paste]) while the fist (the open-palm) timer is not
    running, so never in the first frame that shows the configuration. *)
Theorem X4_hold_needs_two_frames :
  (forall f s,
      let gs := fired (gesture_drop.trace_of (gesture_drop.main_loop_frame f s)) in
      (In Copy gs ->
       exists started, gesture_drop.fist_start s = Some started
                       /\ (gesture_drop.GESTURE_HOLD_TIME
                           <? time_frame (world f) - started) = true)
      /\ (In Paste gs ->
          exists started, gesture_drop.open_start s = Some started
                          /\ (gesture_drop.GESTURE_HOLD_TIME
                              <? time_frame (world f) - started) = true))
  /\ (forall f1 f2 s,
         let r1 := gesture_drop.main_loop_frame f1 s in
         let gs := fired (gesture_drop.trace_of
                            (gesture_drop.main_loop_frame f2 (gesture_drop.state_of r1))) in
         gesture_drop.completed r1 = true ->
         (In Copy gs -> shows 0 f1 /\ shows 0 f2)
         /\ (In Paste gs -> shows 5 f1 /\ shows 5 f2)).
Proof.
  split.
  - intros f s. cbv zeta.
    destruct (gesture_drop_more.main_loop_frame_hold f s) as (Hc & Hp & _).
    split; intros H; [apply Hc in H | apply Hp in H]; tauto.
  - intros f1 f2 s. cbv zeta. intros Hdone.
    destruct (gesture_drop_more.main_loop_frame_view f1 s)
      as (_ & _ & _ & _ & _ & _ & Ht & _).
    destruct (Ht Hdone) as [Hfist Hopen].
    destruct (gesture_drop_more.main_loop_frame_hold f2
                (gesture_drop.state_of (gesture_drop.main_loop_frame f1 s)))
      as (Hc & Hp & _).
    split; intros H.
    + destruct (Hc H) as (S2 & (started & E & _) & _).
      split; [apply Hfist; congruence | exact S2].
    + destruct (Hp H) as (S2 & started & E & _).
      split; [apply Hopen; congruence | exact S2].
Qed.

(** The fist that rises while it is held: the frame that fires [Copy] meets
    the hypotheses of X4, and both frames show the fist. *)
Lemma X4_witness :
  let r1 := gesture_drop.main_loop_frame rising_fist_start gesture_drop.init in
  let gs := fired (gesture_drop.trace_of
                     (gesture_drop.main_loop_frame (rising_fist_held 100.5)
                        (gesture_drop.state_of r1))) in
  gesture_drop.completed r1 = true
  /\ In Copy gs
  /\ shows 0 rising_fist_start /\ shows 0 (rising_fist_held 100.5).
Proof.
  cbv zeta.
  assert (H1 : gesture_drop.completed
                 (gesture_drop.main_loop_frame rising_fist_start gesture_drop.init)
               = true) by (vm_compute; reflexivity).
  assert (H2 : In Copy
                 (fired (gesture_drop.trace_of
                           (gesture_drop.main_loop_frame (rising_fist_held 100.5)
                              (gesture_drop.state_of
                                 (gesture_drop.main_loop_frame rising_fist_start
                                    gesture_drop.init)))))).
  { vm_compute. auto. }
  split; [exact H1 | ]. split; [exact H2 | ].
  exact (proj1 (proj2 X4_hold_needs_two_frames rising_fist_start
                  (rising_fist_held 100.5) gesture_drop.init H1) H2).
Defined.

(** ** The screenshot clock and the slot *)

(** X5. In gesture_drop.py the screenshot has a cooldown clock of its own:
    a frame that fires [Screenshot] shows exactly two extended fingers,
    found the clock older than SCREENSHOT_COOLDOWN, and sets it to its own
    clock reading; a frame that fires none leaves the clock
    alone, whatever else it fires. So over every run in which no reading
    finds the clock older than SCREENSHOT_COOLDOWN no [Screenshot] fires. *)
Theorem X5_screenshot_cooldown :
  (forall f s,
      let r := gesture_drop.main_loop_frame f s in
      let gs := fired (gesture_drop.trace_of r) in
      (In Screenshot gs ->
       shows 2 f
       /\ gesture_drop.last_screenshot_time (gesture_drop.state_of r) = time_frame (world f)
       /\ (gesture_drop.SCREENSHOT_COOLDOWN
           <? time_frame (world f) - gesture_drop.last_screenshot_time s) = true)
      /\ (~ In Screenshot gs ->
          gesture_drop.last_screenshot_time (gesture_drop.state_of r)
          = gesture_drop.last_screenshot_time s))
  /\ (forall fs s,
         Forall (fun f => (gesture_drop.SCREENSHOT_COOLDOWN
                           <? time_frame (world f) - gesture_drop.last_screenshot_time s)
                          = false) fs ->
         let r := gesture_drop.run fs s in
         ~ In Screenshot (fired (gesture_drop.trace_of r))
         /\ gesture_drop.last_screenshot_time (gesture_drop.state_of r)
            = gesture_drop.last_screenshot_time s).
Proof.
  assert (Hframe : forall f s,
    let r := gesture_drop.main_loop_frame f s in
    let gs := fired (gesture_drop.trace_of r) in
    (In Screenshot gs ->
     shows 2 f
     /\ gesture_drop.last_screenshot_time (gesture_drop.state_of r) = time_frame (world f)
     /\ (gesture_drop.SCREENSHOT_COOLDOWN
         <? time_frame (world f) - gesture_drop.last_screenshot_time s) = true)
    /\ (~ In Screenshot gs ->
        gesture_drop.last_screenshot_time (gesture_drop.state_of r)
        = gesture_drop.last_screenshot_time s)).
  { intros f s. cbv zeta.
    destruct (gesture_drop_more.main_loop_frame_hold f s) as (_ & _ & Hs & Hn & _).
    split; [ | exact Hn]. intros H. apply Hs in H. tauto. }
  split; [exact Hframe | ].
  induction fs as [ | f fs IH]; intros s Hall; cbv zeta; [simpl; tauto | ].
  inversion Hall as [ | f' fs' Hf Hfs]; subst.
  destruct (gesture_drop_facts.run_cons f fs s) as [-> ->].
  destruct (Hframe f s) as [Hfire Hquiet].
  assert (Hno : ~ In Screenshot
                  (fired (gesture_drop.trace_of (gesture_drop.main_loop_frame f s)))).
  { intros H. apply Hfire in H. destruct H as (_ & _ & H). congruence. }
  specialize (Hquiet Hno).
  rewrite fired_app.
  destruct (gesture_drop.completed (gesture_drop.main_loop_frame f s)).
  - rewrite <- Hquiet in Hfs. destruct (IH _ Hfs) as [IH1 IH2].
    split; [ | congruence].
    intros H. apply in_app_or in H. tauto.
  - split; [ | exact Hquiet].
    intros H. apply in_app_or in H. simpl in H. tauto.
Qed.

(** A pinch fires [Screenshot] from the initial state; the same pinch shown
    again within the next two seconds meets the hypothesis of X5 and fires
    nothing. *)
Lemma X5_witness :
  let r := gesture_drop.main_loop_frame (seen pinch (calm 100 "hello")) gesture_drop.init in
  let again := [seen pinch (calm 101 "hello"); seen pinch (calm 102 "hello")] in
  In Screenshot (fired (gesture_drop.trace_of r))
  /\ gesture_drop.last_screenshot_time (gesture_drop.state_of r) = 100%float
  /\ Forall (fun f => (gesture_drop.SCREENSHOT_COOLDOWN
                       <? time_frame (world f)
                          - gesture_drop.last_screenshot_time (gesture_drop.state_of r))
                      = false) again
  /\ ~ In Screenshot
         (fired (gesture_drop.trace_of (gesture_drop.run again (gesture_drop.state_of r)))).
Proof.
  cbv zeta.
  assert (H1 : In Screenshot
                 (fired (gesture_drop.trace_of
                           (gesture_drop.main_loop_frame (seen pinch (calm 100 "hello"))
                              gesture_drop.init)))).
  { vm_compute. auto. }
  assert (H2 : Forall
                 (fun f => (gesture_drop.SCREENSHOT_COOLDOWN
                            <? time_frame (world f)
                               - gesture_drop.last_screenshot_time
                                   (gesture_drop.state_of
                                      (gesture_drop.main_loop_frame
                                         (seen pinch (calm 100 "hello"))
                                         gesture_drop.init))) = false)
                 [seen pinch (calm 101 "hello"); seen pinch (calm 102 "hello")]).
  { repeat (apply Forall_cons; [vm_compute; reflexivity | ]). apply Forall_nil. }
  destruct X5_screenshot_cooldown as [Hframe Hrun].
  split; [exact H1 | ].
  split; [exact (proj1 (proj2 (proj1 (Hframe _ _) H1))) | ].
  split; [exact H2 | ].
  exact (proj1 (Hrun _ _ H2)).
Defined.



(** ** Exceptions in the frame body *)



(** ** The local clipboard *)

(** X14. gesture_drop.py writes the local OS clipboard only when a paste is
    due and the slot holds a text: whenever [pyperclip.copy(t)] is carried
    out in a frame, the frame shows an open palm, a copy confirmation was
    pending, the slot the frame found has the type "text", and [t] is its
    value, which is not empty. A slot that holds a screenshot is never
    written to the OS clipboard. *)
Theorem X14_local_clipboard_written_on_paste (f : frame) (s : gesture_drop.state)
    (t : string) :
  In (ClipCopy t) (gesture_drop.trace_of (gesture_drop.main_loop_frame f s)) ->
  shows 5 f
  /\ gesture_drop.copy_confirmed s = true
  /\ c_type (gesture_drop.shared_clipboard s) = "text"
  /\ t = c_value (gesture_drop.shared_clipboard s)
  /\ truthy t = true.
Proof.
  destruct (gesture_drop_more.main_loop_frame_view f s)
    as (_ & _ & _ & _ & _ & Hclip & _).
  apply Hclip.
Qed.

(** After a copy, the open palm that comes due writes the copied text to
    the OS clipboard. *)
Lemma X14_witness :
  let s := gesture_drop.state_of (gesture_drop.run copy_then_palm gesture_drop.init) in
  let f := seen open_palm (calm 101.75 "hello") in
  In (ClipCopy "hello") (gesture_drop.trace_of (gesture_drop.main_loop_frame f s))
  /\ shows 5 f
  /\ c_type (gesture_drop.shared_clipboard s) = "text"
  /\ "hello" = c_value (gesture_drop.shared_clipboard s).
Proof.
  cbv zeta.
  assert (H : In (ClipCopy "hello")
                (gesture_drop.trace_of
                   (gesture_drop.main_loop_frame (seen open_palm (calm 101.75 "hello"))
                      (gesture_drop.state_of
                         (gesture_drop.run copy_then_palm gesture_drop.init))))).
  { vm_compute. auto. }
  split; [exact H | ].
  destruct (X14_local_clipboard_written_on_paste _ _ _ H) as (A & _ & B & C & _).
  auto.
Defined.

(** ** The camera loops *)

(** X10. The [while True] loop of gesture_drop.py skips the turns whose
    camera read failed and stops at the first turn at which 'q' is pressed
    or whose frame raises: its final globals and its effects are those of
    the frame loop over the frames that were read, up to the quit key. A
    failed read changes nothing, not even at the head of the loop. *)
Theorem X10_drop_loop_skips_failed_reads :
  (forall gs s,
      let r := gesture_drop_loop.camera_loop gs s in
      gesture_drop_loop.final r = gesture_drop.state_of (gesture_drop.run (played gs) s)
      /\ gesture_drop_loop.effects r
         = gesture_drop.trace_of (gesture_drop.run (played gs) s))
  /\ (forall g gs s,
         read_ok g = false ->
         gesture_drop_loop.camera_loop (g :: gs) s = gesture_drop_loop.camera_loop gs s).
Proof.
  split.
  - induction gs as [ | g gs IH]; intros s; cbv zeta; [simpl; auto | ].
    cbn [gesture_drop_loop.camera_loop played].
    destruct (read_ok g); cbn [negb]; [ | apply IH].
    destruct (gesture_drop_facts.run_cons (image g)
                (if key_q g then [] else played gs) s) as [-> ->].
    destruct (gesture_drop.main_loop_frame (image g) s) as [[] s' tr | s' tr];
      cbn [gesture_drop.completed gesture_drop.state_of gesture_drop.trace_of].
    + destruct (key_q g); simpl.
      * now rewrite app_nil_r.
      * destruct (IH s') as [-> ->]. auto.
    + simpl. now rewrite app_nil_r.
  - intros g gs s H. simpl. rewrite H. reflexivity.
Qed.

(** A turn whose read failed meets the hypothesis of X10. *)
Lemma X10_witness :
  let lost := {| read_ok := false; image := no_hand (calm 100 "hello");
                 time_overlay := 100; key_q := false |} in
  let turn := {| read_ok := true; image := rising_fist_start;
                 time_overlay := 100; key_q := false |} in
  read_ok lost = false
  /\ gesture_drop_loop.camera_loop [lost; turn] gesture_drop.init
     = gesture_drop_loop.camera_loop [turn] gesture_drop.init.
Proof.
  cbv zeta. split; [reflexivity | ].
  apply (proj2 X10_drop_loop_skips_failed_reads). reflexivity.
Defined.

(** ** gesture_file_server.py: more on the sections of the frame body *)

Module gesture_file_server_more.
Import gesture_file_server.

(** The frame body with a hand, as the sequence of its sections. *)
Lemma main_frame_sections (f : frame) (s : state) (lm : hand_landmarks)
    (idx th : landmark) :
  hand f = Some lm -> landmark_at lm 8 = Some idx -> landmark_at lm 4 = Some th ->
  let fingers := get_finger_states lm in
  let now := time_frame (world f) in
  let c := copy_gesture (sum fingers) now (world f) s in
  let p := paste_gesture (sum fingers) now (world f) (fst c) in
  let h := screenshot_gesture fingers idx th now (world f) (fst p) in
  let m := detect_motion_gesture (lx idx) (ly idx) (world f) (fst h) in
  main_frame f s
  = if completed m
    then Ok tt (state_of m) (snd c ++ snd p ++ snd h ++ trace_of m)
    else Raise (state_of m) (snd c ++ snd p ++ snd h ++ trace_of m).
Proof.
  intros Hh H8 H4. cbv zeta. unfold main_frame. rewrite Hh, H8, H4. cbv zeta.
  destruct (copy_gesture _ _ _ s) as [s1 trc]. cbn [fst snd].
  destruct (paste_gesture _ _ _ s1) as [s2 trp]. cbn [fst snd].
  destruct (screenshot_gesture _ _ _ _ _ s2) as [s3 trs]. cbn [fst snd].
  destruct (detect_motion_gesture _ _ _ s3) as [[] s4 trm | s4 trm]; reflexivity.
Qed.

(** A frame without a hand, or with a hand that lacks landmark 8 or 4,
    changes nothing. *)
Lemma main_frame_short (f : frame) (s : state) :
  (forall lm, hand f = Some lm ->
              landmark_at lm 8 = None \/ landmark_at lm 4 = None) ->
  main_frame f s = match hand f with Some _ => Raise s [] | None => Ok tt s [] end.
Proof.
  intros H. unfold main_frame.
  destruct (hand f) as [lm | ]; [ | reflexivity].
  destruct (H lm eq_refl) as [-> | E]; [reflexivity | ].
  rewrite E. destruct (landmark_at lm 8); reflexivity.
Qed.

Lemma fs_copy_gesture_more (total : nat) (now : float) (e : env) (s : state) :
  let s' := fst (copy_gesture total now e s) in
  let tr := snd (copy_gesture total now e s) in
  (total <> 0%nat -> fist_start_time s' = None)
  /\ (fired tr = [] -> label_display_time s' = label_display_time s)
  /\ (fired tr <> [] -> label_display_time s' = now).
Proof.
  unfold copy_gesture. cbv zeta.
  destruct (total =? 0)%nat eqn:Htot;
    [apply Nat.eqb_eq in Htot | apply Nat.eqb_neq in Htot].
  2: { simpl. repeat split; auto; contradiction. }
  split; [contradiction | ].
  destruct (fist_start_time s) as [started | ]; [ | simpl; split; auto; contradiction].
  destruct (GESTURE_HOLD_TIME <? now - started); cbn [andb];
    [ | simpl; split; auto; contradiction].
  destruct (copy_done s); cbn [negb]; [simpl; split; auto; contradiction | ].
  destruct (copy_hotkey_ok e); [ | simpl; split; auto; contradiction].
  destruct (clip_paste e) as [text | ]; [destruct (truthy text) | ]; simpl;
    split; auto; discriminate.
Qed.

Lemma fs_paste_gesture_more (total : nat) (now : float) (e : env) (s : state) :
  let s' := fst (paste_gesture total now e s) in
  let tr := snd (paste_gesture total now e s) in
  (total <> 5%nat -> open_start_time s' = None)
  /\ (fired tr = [] -> label_display_time s' = label_display_time s)
  /\ (fired tr <> [] -> label_display_time s' = now).
Proof.
  unfold paste_gesture. cbv zeta.
  destruct (total =? 5)%nat eqn:Htot;
    [apply Nat.eqb_eq in Htot | apply Nat.eqb_neq in Htot].
  2: { simpl. repeat split; auto; contradiction. }
  split; [contradiction | ].
  destruct (open_start_time s) as [started | ]; [ | simpl; split; auto; contradiction].
  destruct (GESTURE_HOLD_TIME <? now - started); cbn [andb];
    [ | simpl; split; auto; contradiction].
  destruct (copy_done s); [ | simpl; split; auto; contradiction].
  destruct (paste_hotkey_ok e); cbn [fst snd]; rewrite fired_app;
    match goal with
    | |- context [fired (if ?c then _ else _)] =>
        destruct c; [destruct (clip_copy_ok e) | ]
    end; simpl; split; auto; try contradiction; discriminate.
Qed.

Lemma fs_screenshot_gesture_more (fingers : list nat) (idx th : landmark)
    (now : float) (e : env) (s : state) :
  let s' := fst (screenshot_gesture fingers idx th now e s) in
  let tr := snd (screenshot_gesture fingers idx th now e s) in
  (fired tr = [] -> label_display_time s' = label_display_time s)
  /\ (fired tr <> [] -> label_display_time s' = now).
Proof.
  unfold screenshot_gesture. cbv zeta.
  split_tests; simpl; split; auto; try contradiction; discriminate.
Qed.

Lemma detect_motion_gesture_more (x y : float) (e : env) (s : state) :
  let r := detect_motion_gesture x y e s in
  label_display_time (state_of r) = label_display_time s
  /\ (motion_call_ok e = true -> completed r = true).
Proof.
  unfold detect_motion_gesture. cbv zeta.
  set (s1 := push_history x y s).
  assert (H1 : label_display_time s1 = label_display_time s).
  { subst s1. unfold push_history. cbv zeta. destruct (_ <? _)%nat; reflexivity. }
  clearbody s1.
  destruct (motion_call_ok e); cbn [negb];
    split_tests; simpl; split; auto; discriminate.
Qed.

(** The histories of [detect_motion_gesture] stay of one length, within
    the window. *)
Lemma fs_push_history_window (x y : float) (s : state) :
  let s' := push_history x y s in
  (List.length (x_history s) = List.length (y_history s) ->
   List.length (x_history s') = List.length (y_history s'))
  /\ ((List.length (x_history s) <= SMOOTHING_WINDOW)%nat ->
      (List.length (x_history s') <= SMOOTHING_WINDOW)%nat)
  /\ x_history s' <> [] /\ last (x_history s') 0 = x.
Proof.
  cbv zeta. unfold push_history, SMOOTHING_WINDOW. cbv zeta.
  cbn [x_history y_history set_history].
  set (xs := x_history s). set (ys := y_history s).
  assert (Hlx : List.length (xs ++ [x]) = S (List.length xs)).
  { rewrite length_app. simpl. lia. }
  assert (Hly : List.length (ys ++ [y]) = S (List.length ys)).
  { rewrite length_app. simpl. lia. }
  assert (Hlast : last (xs ++ [x]) 0 = x) by apply last_last.
  destruct (4 <? List.length (xs ++ [x]))%nat eqn:Hw; cbn [x_history y_history set_history].
  - apply Nat.ltb_lt in Hw. repeat split.
    + intros E. destruct (xs ++ [x]), (ys ++ [y]); simpl in *; lia.
    + intros Hb. destruct (xs ++ [x]); simpl in *; lia.
    + destruct (xs ++ [x]) as [ | a [ | b l]]; simpl in *; try lia. discriminate.
    + rewrite last_tl_default by lia. exact Hlast.
  - apply Nat.ltb_ge in Hw. repeat split; try lia.
    + destruct xs; discriminate.
    + exact Hlast.
Qed.

End gesture_file_server_more.

(** ** The histories of gesture_file_server.py *)

(** What a frame of gesture_file_server.py does to the histories and to the
    hold timers and the label clock. *)
Lemma main_frame_more (f : frame) (s : gesture_file_server.state) :
  let r := gesture_file_server.main_frame f s in
  let s' := gesture_file_server.state_of r in
  ((forall lm, hand f = Some lm ->
               landmark_at lm 8 = None \/ landmark_at lm 4 = None) -> s' = s)
  /\ (forall lm idx th,
         hand f = Some lm -> landmark_at lm 8 = Some idx -> landmark_at lm 4 = Some th ->
         (exists s0,
             gesture_file_server.x_history s0 = gesture_file_server.x_history s
             /\ gesture_file_server.y_history s0 = gesture_file_server.y_history s
             /\ gesture_file_server.x_history s'
                = gesture_file_server.x_history
                    (gesture_file_server.push_history (lx idx) (ly idx) s0)
             /\ gesture_file_server.y_history s'
                = gesture_file_server.y_history
                    (gesture_file_server.push_history (lx idx) (ly idx) s0))
         /\ one_timer (gesture_file_server.fist_start_time s')
                      (gesture_file_server.open_start_time s')
         /\ (hold_fired (gesture_file_server.trace_of r) = [] ->
             gesture_file_server.label_display_time s'
             = gesture_file_server.label_display_time s)
         /\ (hold_fired (gesture_file_server.trace_of r) <> [] ->
             gesture_file_server.label_display_time s' = time_frame (world f))
         /\ (motion_call_ok (world f) = true -> gesture_file_server.completed r = true)).
Proof.
  cbv zeta. split.
  - intros Hshort. rewrite (gesture_file_server_more.main_frame_short f s Hshort).
    destruct (hand f); reflexivity.
  - intros lm idx th Hh H8 H4.
    rewrite (gesture_file_server_more.main_frame_sections f s lm idx th Hh H8 H4).
    cbv zeta.
    set (fingers := gesture_file_server.get_finger_states lm).
    set (now := time_frame (world f)).
    set (c := gesture_file_server.copy_gesture (sum fingers) now (world f) s).
    set (p := gesture_file_server.paste_gesture (sum fingers) now (world f) (fst c)).
    set (h := gesture_file_server.screenshot_gesture fingers idx th now (world f) (fst p)).
    set (m := gesture_file_server.detect_motion_gesture (lx idx) (ly idx) (world f) (fst h)).
    pose proof (gesture_file_server_facts.fs_hold_sections_frame lm idx th now (world f) s)
      as Hx.
    cbv zeta in Hx. fold fingers in Hx. fold c in Hx. fold p in Hx. fold h in Hx.
    destruct Hx as (_ & X1 & X2 & Hx).
    destruct (gesture_file_server_facts.detect_motion_gesture_history
                (lx idx) (ly idx) (world f) (fst h)) as (Mx & My).
    fold m in Mx, My.
    destruct (gesture_file_server_facts.detect_motion_gesture_frame
                (lx idx) (ly idx) (world f) (fst h)) as (M1 & M2 & _ & _ & _ & M6 & M).
    fold m in M1, M2, M6, M.
    destruct (gesture_file_server_more.detect_motion_gesture_more
                (lx idx) (ly idx) (world f) (fst h)) as (ML & Mdone).
    fold m in ML, Mdone.
    destruct (gesture_file_server_facts.fs_screenshot_gesture_frame
                fingers idx th now (world f) (fst p)) as (_ & _ & _ & S4 & S5 & _).
    fold h in S4, S5.
    destruct (gesture_file_server_more.fs_screenshot_gesture_more
                fingers idx th now (world f) (fst p)) as (SL0 & SL1).
    fold h in SL0, SL1.
    destruct (gesture_file_server_facts.fs_paste_gesture_frame
                (sum fingers) now (world f) (fst c)) as (_ & _ & _ & Q4 & _).
    fold p in Q4.
    destruct (gesture_file_server_more.fs_paste_gesture_more
                (sum fingers) now (world f) (fst c)) as (Q1 & QL0 & QL1).
    fold p in Q1, QL0, QL1.
    destruct (gesture_file_server_more.fs_copy_gesture_more
                (sum fingers) now (world f) s) as (C1 & CL0 & CL1).
    fold c in C1, CL0, CL1.
    assert (Hst : gesture_file_server.state_of
                    (if gesture_file_server.completed m
                     then gesture_file_server.Ok tt (gesture_file_server.state_of m)
                            (snd c ++ snd p ++ snd h ++ gesture_file_server.trace_of m)
                     else gesture_file_server.Raise (gesture_file_server.state_of m)
                            (snd c ++ snd p ++ snd h ++ gesture_file_server.trace_of m))
                  = gesture_file_server.state_of m).
    { destruct (gesture_file_server.completed m); reflexivity. }
    assert (Htr : hold_fired
                    (gesture_file_server.trace_of
                       (if gesture_file_server.completed m
                        then gesture_file_server.Ok tt (gesture_file_server.state_of m)
                               (snd c ++ snd p ++ snd h ++ gesture_file_server.trace_of m)
                        else gesture_file_server.Raise (gesture_file_server.state_of m)
                               (snd c ++ snd p ++ snd h ++ gesture_file_server.trace_of m)))
                  = fired (snd c) ++ fired (snd p) ++ fired (snd h)).
    { replace (gesture_file_server.trace_of _)
        with (snd c ++ snd p ++ snd h ++ gesture_file_server.trace_of m)
        by (destruct (gesture_file_server.completed m); reflexivity).
      unfold hold_fired. rewrite !fired_app, !filter_app.
      fold (hold_fired (gesture_file_server.trace_of m)). rewrite M6, app_nil_r.
      rewrite <- !filter_app.
      rewrite !fired_app in Hx.
      destruct Hx as [(-> & _) | [(-> & _) | [(-> & _) | (-> & _)]]]; reflexivity. }
    rewrite Hst, Htr.
    split; [ | split; [ | split; [ | split]]].
    + exists (fst h). repeat split; congruence.
    + unfold one_timer. rewrite M1, M2, S4, S5, Q4.
      destruct (Nat.eq_dec (sum fingers) 0) as [E | E].
      * right. apply Q1. lia.
      * left. apply C1. exact E.
    + intros E. apply app_eq_nil in E. destruct E as [Ec E].
      apply app_eq_nil in E. destruct E as [Ep Es].
      rewrite ML, (SL0 Es), (QL0 Ep), (CL0 Ec). reflexivity.
    + intros E. rewrite ML.
      destruct (fired (snd h)) as [ | g gs] eqn:Es.
      * pose proof (SL0 eq_refl) as Se. rewrite Se.
        destruct (fired (snd p)) as [ | g gs] eqn:Ep.
        -- pose proof (QL0 eq_refl) as Qe. rewrite Qe. apply CL1.
           intros Ec. rewrite Ec in E. apply E. reflexivity.
        -- apply QL1. discriminate.
      * apply SL1. discriminate.
    + intros Hok. destruct (gesture_file_server.completed m) eqn:Hm; [reflexivity | ].
      discriminate (Mdone Hok).
Qed.

(** X2. In gesture_file_server.py the two coordinate histories always have
    the same length and never outgrow the smoothing window of four points:
    both properties are kept by every frame and so by every run of the
    frame loop. After a frame that shows a hand (with its landmarks 8 and
    4) the newest x is the index tip's. *)
Theorem X2_server_histories :
  (forall f s lm idx th,
      hand f = Some lm -> landmark_at lm 8 = Some idx -> landmark_at lm 4 = Some th ->
      let s' := gesture_file_server.state_of (gesture_file_server.main_frame f s) in
      gesture_file_server.x_history s' <> []
      /\ last (gesture_file_server.x_history s') 0 = lx idx)
  /\ (forall fs s,
         List.length (gesture_file_server.x_history s)
         = List.length (gesture_file_server.y_history s) ->
         (List.length (gesture_file_server.x_history s)
          <= gesture_file_server.SMOOTHING_WINDOW)%nat ->
         let s' := gesture_file_server.state_of (gesture_file_server.run fs s) in
         List.length (gesture_file_server.x_history s')
         = List.length (gesture_file_server.y_history s')
         /\ (List.length (gesture_file_server.x_history s')
             <= gesture_file_server.SMOOTHING_WINDOW)%nat).
Proof.
  split.
  - intros f s lm idx th Hh H8 H4. cbv zeta.
    destruct (main_frame_more f s) as (_ & Hm).
    destruct (Hm lm idx th Hh H8 H4) as ((s0 & _ & _ & -> & _) & _).
    destruct (gesture_file_server_more.fs_push_history_window (lx idx) (ly idx) s0)
      as (_ & _ & Hn & Hl).
    split; assumption.
  - induction fs as [ | f fs IH]; intros s He Hb; cbv zeta; [simpl; auto | ].
    destruct (gesture_file_server_facts.fs_run_cons f fs s) as [_ ->].
    assert (Hstep :
      let s1 := gesture_file_server.state_of (gesture_file_server.main_frame f s) in
      List.length (gesture_file_server.x_history s1)
      = List.length (gesture_file_server.y_history s1)
      /\ (List.length (gesture_file_server.x_history s1)
          <= gesture_file_server.SMOOTHING_WINDOW)%nat).
    { cbv zeta. destruct (main_frame_more f s) as (Hshort & Hm).
      destruct (hand f) as [lm | ] eqn:Hh.
      - destruct (landmark_at lm 8) as [idx | ] eqn:H8;
          [destruct (landmark_at lm 4) as [th | ] eqn:H4 | ].
        + destruct (Hm lm idx th eq_refl H8 H4) as ((s0 & Ex & Ey & -> & ->) & _).
          destruct (gesture_file_server_more.fs_push_history_window (lx idx) (ly idx) s0)
            as (Ke & Kb & _).
          split; [apply Ke | apply Kb]; congruence.
        + rewrite Hshort; [auto | ]. intros lm' [= <-]. auto.
        + rewrite Hshort; [auto | ]. intros lm' [= <-]. auto.
      - rewrite Hshort; [auto | ]. discriminate. }
    destruct Hstep as [He' Hb'].
    destruct (gesture_file_server.completed (gesture_file_server.main_frame f s));
      [apply IH; assumption | auto].
Qed.

(** From the initial state six frames of a resting hand meet the hypotheses
    of X2 and fill the window of four. *)
Lemma X2_witness :
  let fs := map (fun t => seen (pointing_at 0.5 0.5) (calm t "hello"))
                [100; 101; 102; 103; 104; 105] in
  let s' := gesture_file_server.state_of
              (gesture_file_server.run fs gesture_file_server.init) in
  hand (seen (pointing_at 0.5 0.5) (calm 100 "hello")) = Some (pointing_at 0.5 0.5)
  /\ List.length (gesture_file_server.x_history gesture_file_server.init)
     = List.length (gesture_file_server.y_history gesture_file_server.init)
  /\ List.length (gesture_file_server.x_history s')
     = List.length (gesture_file_server.y_history s')
  /\ List.length (gesture_file_server.x_history s') = 4%nat
  /\ last (gesture_file_server.x_history
             (gesture_file_server.state_of
                (gesture_file_server.main_frame
                   (seen (pointing_at 0.5 0.5) (calm 100 "hello"))
                   gesture_file_server.init))) 0 = 0.5%float.
Proof.
  cbv zeta.
  destruct X2_server_histories as [Hframe Hrun].
  split; [reflexivity | ]. split; [reflexivity | ].
  split; [ | split].
  - apply Hrun; [reflexivity | ].
    unfold gesture_file_server.SMOOTHING_WINDOW. simpl. lia.
  - vm_compute. reflexivity.
  - refine (proj2 (Hframe (seen (pointing_at 0.5 0.5) (calm 100 "hello"))
                     gesture_file_server.init (pointing_at 0.5 0.5)
                     {| lx := 0.5; ly := 0.5; lz := 0 |}
                     {| lx := 0.5; ly := 0.5; lz := 0 |} eq_refl _ _));
      vm_compute; reflexivity.
Defined.

(** ** The hold timers *)

(** X3. In both programs the fist timer and the open-palm timer are never
    running at the same time: if at most one of them is running before a
    run of the frame loop, as in the initial state, at most one is running
    after it. *)
Theorem X3_one_hold_timer :
  (forall fs s,
      one_timer (gesture_drop.fist_start s) (gesture_drop.open_start s) ->
      let s' := gesture_drop.state_of (gesture_drop.run fs s) in
      one_timer (gesture_drop.fist_start s') (gesture_drop.open_start s'))
  /\ (forall fs s,
         one_timer (gesture_file_server.fist_start_time s)
                   (gesture_file_server.open_start_time s) ->
         let s' := gesture_file_server.state_of (gesture_file_server.run fs s) in
         one_timer (gesture_file_server.fist_start_time s')
                   (gesture_file_server.open_start_time s')).
Proof.
  split.
  - induction fs as [ | f fs IH]; intros s H; cbv zeta; [exact H | ].
    destruct (gesture_drop_facts.run_cons f fs s) as [_ ->].
    assert (Hstep : one_timer
                      (gesture_drop.fist_start
                         (gesture_drop.state_of (gesture_drop.main_loop_frame f s)))
                      (gesture_drop.open_start
                         (gesture_drop.state_of (gesture_drop.main_loop_frame f s)))).
    { destruct (gesture_drop_more.main_loop_frame_view f s)
        as (gm & gh & _ & _ & _ & _ & Hdone & Hraise).
      destruct (gesture_drop.completed (gesture_drop.main_loop_frame f s)).
      - destruct (Hdone eq_refl) as [Hf Ho]. unfold one_timer.
        destruct (gesture_drop.fist_start
                    (gesture_drop.state_of (gesture_drop.main_loop_frame f s)))
          as [t | ]; [ | auto].
        destruct (gesture_drop.open_start
                    (gesture_drop.state_of (gesture_drop.main_loop_frame f s)))
          as [t' | ]; [ | auto].
        exfalso.
        destruct (Hf ltac:(discriminate)) as (lm & E & H0).
        destruct (Ho ltac:(discriminate)) as (lm' & E' & H5).
        assert (El : lm = lm') by congruence. subst lm'.
        rewrite H0 in H5. discriminate.
      - destruct (Hraise eq_refl) as (_ & _ & -> & -> & _). exact H. }
    destruct (gesture_drop.completed (gesture_drop.main_loop_frame f s));
      [apply IH; exact Hstep | exact Hstep].
  - induction fs as [ | f fs IH]; intros s H; cbv zeta; [exact H | ].
    destruct (gesture_file_server_facts.fs_run_cons f fs s) as [_ ->].
    assert (Hstep : one_timer
                      (gesture_file_server.fist_start_time
                         (gesture_file_server.state_of
                            (gesture_file_server.main_frame f s)))
                      (gesture_file_server.open_start_time
                         (gesture_file_server.state_of
                            (gesture_file_server.main_frame f s)))).
    { destruct (main_frame_more f s) as (Hshort & Hm).
      destruct (hand f) as [lm | ] eqn:Hh.
      - destruct (landmark_at lm 8) as [idx | ] eqn:H8;
          [destruct (landmark_at lm 4) as [th | ] eqn:H4 | ].
        + destruct (Hm lm idx th eq_refl H8 H4) as (_ & Ht & _). exact Ht.
        + rewrite Hshort; [exact H | ]. intros lm' [= <-]. auto.
        + rewrite Hshort; [exact H | ]. intros lm' [= <-]. auto.
      - rewrite Hshort; [exact H | ]. discriminate. }
    destruct (gesture_file_server.completed (gesture_file_server.main_frame f s));
      [apply IH; exact Hstep | exact Hstep].
Qed.

(** The initial states meet the hypothesis of X3. *)
Lemma X3_witness :
  one_timer (gesture_drop.fist_start gesture_drop.init)
            (gesture_drop.open_start gesture_drop.init)
  /\ (let s' := gesture_drop.state_of (gesture_drop.run copy_then_palm gesture_drop.init) in
      one_timer (gesture_drop.fist_start s') (gesture_drop.open_start s'))
  /\ (let s' := gesture_file_server.state_of
                  (gesture_file_server.run copy_then_palm gesture_file_server.init) in
      one_timer (gesture_file_server.fist_start_time s')
                (gesture_file_server.open_start_time s')).
Proof.
  destruct X3_one_hold_timer as [Hdrop Hserver].
  split; [left; reflexivity | ].
  split; [apply Hdrop | apply Hserver]; left; reflexivity.
Defined.

(** ** The label clock of gesture_file_server.py *)

Lemma hold_fired_app (a b : list effect) :
  hold_fired (a ++ b) = hold_fired a ++ hold_fired b.
Proof. unfold hold_fired. now rewrite fired_app, filter_app. Qed.

(** X9. In gesture_file_server.py only the hold and pinch gestures restart
    the label clock: a frame that fires none of [Copy], [Paste],
    [Screenshot] leaves [label_display_time] alone even when it fires a
    scroll or a tab gesture, and a frame that fires one sets it to its
    clock reading. So over a run that fires motion gestures only, an
    overlay whose clock reads two seconds or more after the last hold
    gesture keeps showing "Gesture: None". *)
Theorem X9_motion_never_restarts_label_clock :
  (forall f s,
      let r := gesture_file_server.main_frame f s in
      (hold_fired (gesture_file_server.trace_of r) = [] ->
       gesture_file_server.label_display_time (gesture_file_server.state_of r)
       = gesture_file_server.label_display_time s)
      /\ (hold_fired (gesture_file_server.trace_of r) <> [] ->
          gesture_file_server.label_display_time (gesture_file_server.state_of r)
          = time_frame (world f)))
  /\ (forall fs s now,
         let r := gesture_file_server.run fs s in
         hold_fired (gesture_file_server.trace_of r) = [] ->
         (now - gesture_file_server.label_display_time s <? 2) = false ->
         gesture_file_server_loop.overlay now (gesture_file_server.state_of r)
         = "Gesture: None").
Proof.
  assert (Hframe : forall f s,
    let r := gesture_file_server.main_frame f s in
    (hold_fired (gesture_file_server.trace_of r) = [] ->
     gesture_file_server.label_display_time (gesture_file_server.state_of r)
     = gesture_file_server.label_display_time s)
    /\ (hold_fired (gesture_file_server.trace_of r) <> [] ->
        gesture_file_server.label_display_time (gesture_file_server.state_of r)
        = time_frame (world f))).
  { intros f s. cbv zeta. destruct (main_frame_more f s) as (Hshort & Hm).
    destruct (hand f) as [lm | ] eqn:Hh.
    - destruct (landmark_at lm 8) as [idx | ] eqn:H8;
        [destruct (landmark_at lm 4) as [th | ] eqn:H4 | ].
      + destruct (Hm lm idx th eq_refl H8 H4) as (_ & _ & H0 & H1 & _). auto.
      + rewrite (gesture_file_server_more.main_frame_short f s);
          [rewrite Hh; simpl; split; [auto | intros H; now contradiction H] | ].
        intros lm' E. rewrite Hh in E. injection E as <-. auto.
      + rewrite (gesture_file_server_more.main_frame_short f s);
          [rewrite Hh; simpl; split; [auto | intros H; now contradiction H] | ].
        intros lm' E. rewrite Hh in E. injection E as <-. auto.
    - rewrite (gesture_file_server_more.main_frame_short f s);
        [rewrite Hh; simpl; split; [auto | intros H; now contradiction H] | ].
      intros lm' E. rewrite Hh in E. discriminate. }
  split; [exact Hframe | ].
  intros fs s now. cbv zeta. intros Hquiet Hold.
  assert (Hrun : forall fs s,
             hold_fired (gesture_file_server.trace_of (gesture_file_server.run fs s)) = [] ->
             gesture_file_server.label_display_time
               (gesture_file_server.state_of (gesture_file_server.run fs s))
             = gesture_file_server.label_display_time s).
  { clear fs s Hquiet Hold.
    induction fs as [ | f fs IH]; intros s H; [reflexivity | ].
    destruct (gesture_file_server_facts.fs_run_cons f fs s) as [Et Es].
    rewrite Et, hold_fired_app in H. apply app_eq_nil in H. destruct H as [H1 H2].
    rewrite Es. destruct (Hframe f s) as [H0 _]. specialize (H0 H1).
    destruct (gesture_file_server.completed (gesture_file_server.main_frame f s));
      [rewrite (IH _ H2) | ]; exact H0. }
  unfold gesture_file_server_loop.overlay. rewrite (Hrun fs s Hquiet), Hold.
  reflexivity.
Qed.

(** The upward sweep fires [ScrollUp] in gesture_file_server.py, yet the
    overlay of that very turn shows "Gesture: None": the run meets the
    hypotheses of X9. *)
Lemma X9_witness :
  let r := gesture_file_server.run sweep_up gesture_file_server.init in
  fired (gesture_file_server.trace_of r) = [ScrollUp]
  /\ hold_fired (gesture_file_server.trace_of r) = []
  /\ (100.03125 - gesture_file_server.label_display_time gesture_file_server.init <? 2)
     = false
  /\ gesture_file_server_loop.overlay 100.03125 (gesture_file_server.state_of r)
     = "Gesture: None".
Proof.
  cbv zeta.
  assert (H1 : hold_fired
                 (gesture_file_server.trace_of
                    (gesture_file_server.run sweep_up gesture_file_server.init)) = [])
    by (vm_compute; reflexivity).
  assert (H2 : (100.03125
                - gesture_file_server.label_display_time gesture_file_server.init <? 2)
               = false) by (vm_compute; reflexivity).
  split; [vm_compute; reflexivity | ].
  split; [exact H1 | ]. split; [exact H2 | ].
  exact (proj2 X9_motion_never_restarts_label_clock sweep_up gesture_file_server.init
           100.03125 H1 H2).
Defined.

(** X11. The [while True] loop of gesture_file_server.py stops at the
    first turn whose camera read failed, at the first turn at which 'q' is
    pressed, or at the first frame that raises: its final globals and its
    effects are those of the frame loop over the frames read before the
    first failure, up to the quit key. A failed read at the head of the
    loop ends it at once, with nothing changed, whatever turns follow. *)
Theorem X11_server_loop_stops_at_failed_read :
  (forall gs s,
      let r := gesture_file_server_loop.camera_loop gs s in
      gesture_file_server_loop.final r
      = gesture_file_server.state_of (gesture_file_server.run (played_until_failure gs) s)
      /\ gesture_file_server_loop.effects r
         = gesture_file_server.trace_of
             (gesture_file_server.run (played_until_failure gs) s))
  /\ (forall g gs s,
         read_ok g = false ->
         gesture_file_server_loop.camera_loop (g :: gs) s
         = {| gesture_file_server_loop.final := s;
              gesture_file_server_loop.effects := [];
              gesture_file_server_loop.screen := [];
              gesture_file_server_loop.ended := ReadFailed |}).
Proof.
  split.
  - induction gs as [ | g gs IH]; intros s; cbv zeta; [simpl; auto | ].
    cbn [gesture_file_server_loop.camera_loop played_until_failure].
    destruct (read_ok g); cbn [negb]; [ | simpl; auto].
    destruct (gesture_file_server_facts.fs_run_cons (image g)
                (if key_q g then [] else played_until_failure gs) s) as [-> ->].
    destruct (gesture_file_server.main_frame (image g) s) as [[] s' tr | s' tr];
      cbn [gesture_file_server.completed gesture_file_server.state_of
           gesture_file_server.trace_of].
    + destruct (key_q g); simpl.
      * now rewrite app_nil_r.
      * destruct (IH s') as [-> ->]. auto.
    + simpl. now rewrite app_nil_r.
  - intros g gs s H. simpl. rewrite H. reflexivity.
Qed.

(** A failed read followed by a fist: nothing of the fist is processed. *)
Lemma X11_witness :
  let lost := {| read_ok := false; image := no_hand (calm 100 "hello");
                 time_overlay := 100; key_q := false |} in
  let turn := {| read_ok := true; image := rising_fist_start;
                 time_overlay := 100; key_q := false |} in
  read_ok lost = false
  /\ gesture_file_server_loop.final
       (gesture_file_server_loop.camera_loop [lost; turn] gesture_file_server.init)
     = gesture_file_server.init
  /\ gesture_file_server_loop.ended
       (gesture_file_server_loop.camera_loop [lost; turn] gesture_file_server.init)
     = ReadFailed.
Proof.
  cbv zeta. split; [reflexivity | ].
  rewrite (proj2 X11_server_loop_stops_at_failed_read); [ | reflexivity].
  split; reflexivity.
Defined.

(** ** Counting the extended fingers *)

Lemma sum_five (t i m r p : nat) : sum [t; i; m; r; p] = (t + i + m + r + p)%nat.
Proof. unfold sum. simpl. lia. Qed.

(** X12. The number of extended fingers that both programs compute is at
    most five; it is five exactly when all five fingers are extended by the
    landmark rule and zero exactly when none is. A hand with fewer than
    twenty-one landmarks never counts five, since the pinky tip is missing,
    so a frame that shows such a hand never fires [Paste], in either
    program. *)
Theorem X12_open_palm_needs_all_landmarks :
  (forall lm,
      let n := sum (gesture_drop.finger_states_from_landmarks lm) in
      (n <= 5)%nat
      /\ (n = 5%nat <-> extended lx lm 4 2 /\ extended ly lm 8 6 /\ extended ly lm 12 10
                        /\ extended ly lm 16 14 /\ extended ly lm 20 18)
      /\ (n = 0%nat <-> ~ extended lx lm 4 2 /\ ~ extended ly lm 8 6
                        /\ ~ extended ly lm 12 10 /\ ~ extended ly lm 16 14
                        /\ ~ extended ly lm 20 18)
      /\ ((List.length lm < 21)%nat -> (n <= 4)%nat))
  /\ (forall f lm,
         hand f = Some lm -> (List.length lm < 21)%nat ->
         (forall s, count_gesture Paste
                      (fired (gesture_drop.trace_of (gesture_drop.main_loop_frame f s)))
                    = 0%nat)
         /\ (forall s, count_gesture Paste
                         (fired (gesture_file_server.trace_of
                                   (gesture_file_server.main_frame f s)))
                       = 0%nat)).
Proof.
  assert (Hsum : forall lm,
    let n := sum (gesture_drop.finger_states_from_landmarks lm) in
    (n <= 5)%nat
    /\ (n = 5%nat <-> extended lx lm 4 2 /\ extended ly lm 8 6 /\ extended ly lm 12 10
                      /\ extended ly lm 16 14 /\ extended ly lm 20 18)
    /\ (n = 0%nat <-> ~ extended lx lm 4 2 /\ ~ extended ly lm 8 6
                      /\ ~ extended ly lm 12 10 /\ ~ extended ly lm 16 14
                      /\ ~ extended ly lm 20 18)
    /\ ((List.length lm < 21)%nat -> (n <= 4)%nat)).
  { intros lm. cbv zeta.
    destruct (finger_states_from_landmarks_eq lm)
      as (t & i & m & r & p & -> & Rt & Ri & Rm & Rr & Rp).
    rewrite sum_five.
    destruct Rt as (Et & Bt & _), Ri as (Ei & Bi & _), Rm as (Em & Bm & _),
             Rr as (Er & Br & _), Rp as (Ep & Bp & Np).
    split; [lia | ].
    split; [ | split].
    - split.
      + intros H. repeat split;
          [apply Et | apply Ei | apply Em | apply Er | apply Ep]; lia.
      + intros (At & Ai & Am & Ar & Ap).
        apply Et in At. apply Ei in Ai. apply Em in Am. apply Er in Ar.
        apply Ep in Ap. lia.
    - split.
      + intros H.
        split; [intros A; apply Et in A; lia | ].
        split; [intros A; apply Ei in A; lia | ].
        split; [intros A; apply Em in A; lia | ].
        split; [intros A; apply Er in A; lia | ].
        intros A; apply Ep in A; lia.
      + intros (At & Ai & Am & Ar & Ap).
        assert (Nt : t <> 1%nat) by (intros H; apply At, Et, H).
        assert (Ni : i <> 1%nat) by (intros H; apply Ai, Ei, H).
        assert (Nm : m <> 1%nat) by (intros H; apply Am, Em, H).
        assert (Nr : r <> 1%nat) by (intros H; apply Ar, Er, H).
        assert (Nq : p <> 1%nat) by (intros H; apply Ap, Ep, H).
        lia.
    - intros Hlen.
      assert (Hp : p = 0%nat).
      { apply Np. left. apply nth_error_None. lia. }
      lia. }
  split; [exact Hsum | ].
  intros f lm Hh Hlen.
  assert (Hno : ~ shows 5 f).
  { intros (lm' & E & H5). rewrite Hh in E. injection E as <-.
    destruct (Hsum lm) as (_ & _ & _ & H4). specialize (H4 Hlen).
    cbv zeta in H4. lia. }
  split; intros s.
  - apply gesture_drop_facts.main_loop_frame_no_paste, Hno.
  - apply gesture_file_server_facts.main_frame_no_paste, Hno.
Qed.

(** An open palm cut to its first twenty landmarks meets the hypotheses of
    X12: it counts four fingers, not five. *)
Lemma X12_witness :
  let lm := firstn 20 open_palm in
  let f := seen lm (calm 100 "hello") in
  hand f = Some lm
  /\ (List.length lm < 21)%nat
  /\ sum (gesture_drop.finger_states_from_landmarks lm) = 4%nat
  /\ count_gesture Paste
       (fired (gesture_drop.trace_of (gesture_drop.main_loop_frame f gesture_drop.init)))
     = 0%nat.
Proof.
  cbv zeta.
  assert (Hl : (List.length (firstn 20 open_palm) < 21)%nat) by (vm_compute; lia).
  split; [reflexivity | ]. split; [exact Hl | ].
  split; [vm_compute; reflexivity | ].
  exact (proj1 (proj2 X12_open_palm_needs_all_landmarks
                  (seen (firstn 20 open_palm) (calm 100 "hello"))
                  (firstn 20 open_palm) eq_refl Hl) gesture_drop.init).
Defined.

(** ** Uploading to the slot *)

(** X7. In gesture_file_server.py an upload is read back as it was sent: a
    POST to /upload_clipboard whose JSON body carries a text, empty or not
    and whatever file comes with it, makes the next GET of /get_clipboard
    answer that text with the type "text"; a POST without a JSON text but
    with an image file makes it answer the base64 text of the image with the
    type "image". The slot held before the upload plays no part: the last
    upload wins. *)
Theorem X7_upload_then_read :
  (forall ip ip' r s text,
      req_path r = "/upload_clipboard" -> req_method r = "POST" ->
      req_is_json r = true -> req_json_text r = Some text ->
      snd (gesture_file_server.handle ip' read_slot
             (fst (gesture_file_server.handle ip r s)))
      = {| status := 200; body := [("type", "text"); ("value", text)] |})
  /\ (forall ip ip' r s b64,
         req_path r = "/upload_clipboard" -> req_method r = "POST" ->
         (req_is_json r = false \/ req_json_text r = None) ->
         req_image r = Some b64 ->
         snd (gesture_file_server.handle ip' read_slot
                (fst (gesture_file_server.handle ip r s)))
         = {| status := 200; body := [("type", "image"); ("value", b64)] |}).
Proof.
  split.
  - intros ip ip' r s text Hp Hm Hj Ht.
    unfold gesture_file_server.handle at 2. rewrite Hp, Hm.
    cbn [String.eqb Ascii.eqb Bool.eqb].
    unfold gesture_file_server.upload_clipboard. cbv zeta. rewrite Hj, Ht.
    reflexivity.
  - intros ip ip' r s b64 Hp Hm Hj Hi.
    unfold gesture_file_server.handle at 2. rewrite Hp, Hm.
    cbn [String.eqb Ascii.eqb Bool.eqb].
    unfold gesture_file_server.upload_clipboard. cbv zeta. rewrite Hi.
    destruct Hj as [-> | Hn]; [reflexivity | ].
    rewrite Hn. destruct (req_is_json r); reflexivity.
Qed.

(** An uploaded text, an uploaded empty text and an uploaded image meet the
    hypotheses of X7 and are read back. *)
Lemma X7_witness :
  snd (gesture_file_server.handle "192.168.1.20" read_slot
         (fst (gesture_file_server.handle "192.168.1.20" (upload_text "from the phone")
                 gesture_file_server.init)))
  = {| status := 200; body := [("type", "text"); ("value", "from the phone")] |}
  /\ gesture_file_server.shared_clipboard
       (fst (gesture_file_server.handle "192.168.1.20" (upload_text EmptyString)
               gesture_file_server.init))
     = {| c_type := "text"; c_value := EmptyString |}
  /\ snd (gesture_file_server.handle "192.168.1.20" read_slot
            (fst (gesture_file_server.handle "192.168.1.20" (upload_image "iVBORw0KGgo=")
                    gesture_file_server.init)))
     = {| status := 200; body := [("type", "image"); ("value", "iVBORw0KGgo=")] |}.
Proof.
  destruct X7_upload_then_read as [Htext Himage].
  split; [ | split].
  - exact (Htext "192.168.1.20" "192.168.1.20" (upload_text "from the phone")
             gesture_file_server.init "from the phone" eq_refl eq_refl eq_refl eq_refl).
  - reflexivity.
  - exact (Himage "192.168.1.20" "192.168.1.20" (upload_image "iVBORw0KGgo=")
             gesture_file_server.init "iVBORw0KGgo=" eq_refl eq_refl
             (or_introl eq_refl) eq_refl).
Defined.

(** ** The overlay of gesture_drop.py after a gesture *)

(** X16. In gesture_drop.py every gesture restarts the label clock, the
    scroll and tab gestures too: after a frame whose last fired gesture is
    [g], [label_set_time] is the clock reading taken with [g], and the
    overlay of that turn shows the label of [g] when its own clock reads
    less than OVERLAY_LABEL_TIME after it, and "Gesture: None" otherwise. A
    frame that completes without firing a gesture leaves the overlay as it
    would have been before the frame. *)
Theorem X16_overlay_after_gesture (f : frame) (s : gesture_drop.state) (now : float) :
  let r := gesture_drop.main_loop_frame f s in
  let s' := gesture_drop.state_of r in
  (fired (gesture_drop.trace_of r) = [] ->
   gesture_drop_loop.overlay now s' = gesture_drop_loop.overlay now s)
  /\ (forall gs g,
         fired (gesture_drop.trace_of r) = gs ++ [g] ->
         gesture_drop.label_set_time s' = stamp (world f) g
         /\ gesture_drop_loop.overlay now s'
            = if now - stamp (world f) g <? gesture_drop_loop.OVERLAY_LABEL_TIME
              then label_of g else "Gesture: None").
Proof.
  cbv zeta.
  pose proof (gesture_drop_more.main_loop_frame_clock f s) as Hc.
  pose proof (gesture_drop_more.main_loop_frame_label f s) as Hl.
  cbv zeta in Hc, Hl.
  split.
  - intros E. rewrite E in Hc, Hl. cbn [map last] in Hc, Hl.
    unfold gesture_drop_loop.overlay. rewrite Hc, Hl. reflexivity.
  - intros gs g E. rewrite E in Hc, Hl.
    rewrite map_app, last_app_default in Hc. rewrite map_app, last_app_default in Hl.
    cbn [map last] in Hc, Hl.
    split; [exact Hc | ].
    unfold gesture_drop_loop.overlay. rewrite Hc, Hl. reflexivity.
Qed.

(** The second frame of the upward sweep fires [ScrollUp] alone, which meets
    the hypothesis of X16: the overlay of that turn shows "Scroll Up", where
    gesture_file_server.py shows "Gesture: None" (X9). *)
Lemma X16_witness :
  let s1 := gesture_drop.state_of
              (gesture_drop.main_loop_frame (seen (pointing_at 0.5 0.875) (calm 100 "hello"))
                 gesture_drop.init) in
  let f2 := seen (pointing_at 0.5 0.125) (calm 100.03125 "hello") in
  let r := gesture_drop.main_loop_frame f2 s1 in
  fired (gesture_drop.trace_of r) = [] ++ [ScrollUp]
  /\ gesture_drop.label_set_time (gesture_drop.state_of r) = 100.03125%float
  /\ gesture_drop_loop.overlay 100.0625 (gesture_drop.state_of r) = "Scroll Up".
Proof.
  cbv zeta.
  assert (E : fired (gesture_drop.trace_of
                       (gesture_drop.main_loop_frame
                          (seen (pointing_at 0.5 0.125) (calm 100.03125 "hello"))
                          (gesture_drop.state_of
                             (gesture_drop.main_loop_frame
                                (seen (pointing_at 0.5 0.875) (calm 100 "hello"))
                                gesture_drop.init))))
              = [] ++ [ScrollUp]) by (vm_compute; reflexivity).
  split; [exact E | ].
  destruct (proj2 (X16_overlay_after_gesture
                     (seen (pointing_at 0.5 0.125) (calm 100.03125 "hello"))
                     (gesture_drop.state_of
                        (gesture_drop.main_loop_frame
                           (seen (pointing_at 0.5 0.875) (calm 100 "hello"))
                           gesture_drop.init))
                     100.0625) [] ScrollUp E) as [Hc Ho].
  split.
  - rewrite Hc. vm_compute. reflexivity.
  - rewrite Ho. vm_compute. reflexivity.
Defined.
